(** * blessclient: cache, freshness, region ring and signing-error handling

    A shallow embedding of the parts of [blessclient/client.py] and
    [blessclient/user_ip.py] that decide when a certificate is requested,
    in which order the regions are tried, and how a signing response is
    classified, together with the properties proved about them. *)

From Stdlib Require Import ZArith QArith Qcanon Qround Ascii String.
From stdpp Require Import gmap strings list fin_maps sorting.
From Equations Require Import Equations.

Local Open Scope string_scope.
Local Open Scope nat_scope.

(** ** Python values, exceptions and results *)

(** Exceptions the modelled code raises or lets through. *)
Inductive exn :=
| LambdaInvocationException (msg : string)
| ClientError (code : string)
| ConnectionError
| EndpointConnectionError
| ServiceConnectionError
| Forbidden
| JSONDecodeError (doc : string)
| KeyError (key : string)
| ValueError (msg : string)
| TypeError
| IndexError
| AttributeError (name : string)
| FileNotFoundError (path : string)
| Exception_ (msg : string)
| SystemExit (code : Z).

Inductive result (A : Type) :=
| Ok (a : A)
| Raise (e : exn).
Arguments Ok {A} a.
Arguments Raise {A} e.

(** ** Region ring ([get_regions], client.py 115-133) *)

(** [str <= str] in Python: lexicographic on code units. *)
Definition str_le (a b : string) : Prop := String.leb a b = true.

#[global] Instance str_le_dec : RelDecision str_le.
Proof. intros a b. unfold str_le. apply _. Defined.

#[global] Instance str_le_total : Total str_le.
Proof. intros a b. apply String.leb_total. Qed.

(** [sorted(xs)] on a list of strings. *)
Definition sorted (l : list string) : list string := merge_sort str_le l.

(** [d.values()] of a dict kept as its items in insertion order. *)
Definition dict_values {A} (d : list (string * A)) : list A := d.*2.

(** [t.index(x)]: position of the first element equal to [x];
    [None] stands for the [ValueError] the caller catches. *)
Fixpoint tuple_index (x : string) (t : list string) : option nat :=
  match t with
  | [] => None
  | y :: t' => if decide (y = x) then Some 0 else S <$> tuple_index x t'
  end.

(** The [while len(regions) < len(aws_regions)] loop. *)
Equations? get_regions_loop (aws_regions regions : list string) (ndx : nat)
  : result (list string) by wf (length aws_regions - length regions) lt :=
  get_regions_loop aws_regions regions ndx
    with decide (length regions < length aws_regions) => {
    | left _ with aws_regions !! ndx => {
      | Some r := get_regions_loop aws_regions (regions ++ [r])
                    ((ndx + 1) mod length aws_regions);
      | None := Raise IndexError };
    | right _ := Ok regions }.
Proof. rewrite length_app. simpl. lia. Qed.

Definition get_regions (region : string) (REGION_ALIAS : list (string * string))
  : result (list string) :=
  let aws_regions := sorted (dict_values REGION_ALIAS) in
  let ndx := match tuple_index region aws_regions with
             | Some i => i
             | None => 0
             end in
  get_regions_loop aws_regions [] ndx.

(** The list [t] read cyclically from position [k]. *)
Definition ring_from (k : nat) (t : list string) : list string :=
  drop k t ++ take k t.

(** The element that follows [r] on the ring [t]. *)
Definition ring_succ (t : list string) (r : string) : option string :=
  i ← tuple_index r t; t !! ((i + 1) mod length t).

(** ** Values kept in the cache *)

(** The cache holds strings, numbers, [None], and flat records of those. *)
Inductive atom :=
| ANone
| AStr (s : string)
| ANum (q : Qc).

Inductive pyval :=
| PAtom (a : atom)
| PDict (d : gmap string atom).

#[global] Instance atom_eq_dec : EqDecision atom.
Proof. solve_decision. Defined.
#[global] Instance pyval_eq_dec : EqDecision pyval.
Proof. solve_decision. Defined.

Abbreviation PNone := (PAtom ANone).
Abbreviation PStr s := (PAtom (AStr s)).
Abbreviation PNum q := (PAtom (ANum q)).

(** Python truthiness ([if x:], [not x], [x and ...]). *)
Definition truthy (v : pyval) : bool :=
  match v with
  | PNone => false
  | PStr s => negb (bool_decide (s = ""))
  | PNum q => negb (bool_decide (q = 0%Qc))
  | PDict d => negb (bool_decide (d = ∅))
  end.

(** [a == b] on cache values. *)
Definition py_eq (a b : pyval) : bool := bool_decide (a = b).

(** ** Broken-down times ([time.struct_time]) *)

Record struct_time := {
  tm_year : Z; tm_mon : Z; tm_mday : Z;
  tm_hour : Z; tm_min : Z; tm_sec : Z;
  tm_wday : Z; tm_yday : Z; tm_isdst : Z }.

Definition tm_fields (t : struct_time) : list Z :=
  [tm_year t; tm_mon t; tm_mday t; tm_hour t; tm_min t; tm_sec t;
   tm_wday t; tm_yday t; tm_isdst t].

(** Tuple comparison [a < b]: lexicographic, field by field. *)
Fixpoint tuple_ltb (a b : list Z) : bool :=
  match a, b with
  | [], [] => false
  | [], _ :: _ => true
  | _ :: _, [] => false
  | x :: a', y :: b' =>
      if (x <? y)%Z then true else if (y <? x)%Z then false else tuple_ltb a' b'
  end.

(** [a > b] on [struct_time] values. *)
Definition tm_gt (a b : struct_time) : bool :=
  tuple_ltb (tm_fields b) (tm_fields a).

(** ** The world the client runs in *)

(** The signing requests (client.py 984-991 and 796-802). *)
Record bless_payload := {
  bastion_user : string;
  bastion_user_ip : pyval;
  remote_usernames : string;
  bastion_ips : pyval;
  command : string;
  public_key_to_sign : string }.

Record vault_payload := {
  valid_principals : string;
  public_key : string;
  ttl : Z;
  ssh_backend_mount : string;
  ssh_backend_role : string }.

(** Outbound requests, prompts and agent commands, in the order issued. *)
Inductive call :=
| CallIPFetch (url : string)
| CallGetUser
| CallAssumeRole (role_arn : string)
| CallMintToken (kmskey awsregion from : string)
| CallLambdaInvoke (region : string) (payload : bless_payload)
| CallPrompt
| CallVaultAuth (auth_url : string)
| CallVaultSign (token : option string) (payload : vault_payload)
| CallSshAgentRemove (identity_file : string)
| CallSshAgentAdd (identity_file : string).

Inductive cachemode := CACHEMODE_ENABLED | CACHEMODE_RECACHE.

(** Modelled from the spec: the cache store class [BlessCache]
    ([bless_cache.py] is not among the sources).  It is "a persisted,
    process-local key/value store with explicit load/save points (no
    implicit autosave)" with [get(key) -> value|absent], [set(key, value)]
    (in-memory only) and [save()] (persist of all pending sets).  A store
    opened for a no-cache, forced-refresh run ([CACHEMODE_RECACHE]) answers
    every [get] with absent; absent is Python's [None]. *)
Record BlessCache := {
  mode : cachemode;
  store : gmap string pyval }.

(** A [UserIP] object (user_ip.py 15-23); its [cache] field is the
    [BlessCache] object of the caller, kept once in the world. *)
Record UserIP := {
  fresh : bool;
  currentIP : option string;
  maxcachetime : Z;
  ip_urls : list string }.

Record file := { mtime : Qc; content : string }.

Record World := {
  w_cache : BlessCache;          (* the process's [bless_cache] object *)
  w_disk : gmap string pyval;    (* the cache file *)
  w_userIP : UserIP;
  w_files : gmap string file;    (* regular files by path *)
  w_calls : list call;           (* requests issued so far, oldest first *)
  w_ticks : nat }.               (* clock reads so far *)

(** Parsed JSON documents.  An object keeps its members in document
    order; [json.loads] lets a later duplicate key win. *)
#[local] Unset Elimination Schemes.
Inductive json :=
| JNull
| JBool (b : bool)
| JNum (q : Qc)
| JStr (s : string)
| JArr (items : list json)
| JObj (members : list (string * json)).
#[local] Set Elimination Schemes.

(** The kmsauth configuration of a region ([get_kmsauth_config]). *)
Record kmsauth_config := {
  kmskey : string;
  awsregion : string;
  context : gmap string string }.

(** What [bless] has in hand when it reaches the freshness gate
    (client.py 866-951). *)
Record prepared := {
  p_username : string;
  p_my_ip : pyval;
  p_identity_file : string;
  p_kmsauth_config : kmsauth_config;
  p_role_creds : gmap string atom;
  p_kmsauth_token : string;
  p_ip_list : pyval;
  p_ip : pyval }.

(** The [Credentials] of an STS [assume_role] answer; [Expiration] is the
    epoch second of its UTC datetime. *)
Record sts_credentials := {
  AccessKeyId : string;
  SecretAccessKey : string;
  SessionToken : string;
  Expiration : Z }.

(** What the libraries, the remote services, the user and the host answer.
    An answer of a service may depend on the requests issued so far.  The
    time format is always ['%Y%m%dT%H%M%SZ']. *)
Record Env := {
  (* clock and calendar *)
  clock : nat → Qc;                 (* successive readings of [time.time()] *)
  gmtime_of : Z → struct_time;      (* [time.gmtime(secs)] *)
  time_strptime : string → option struct_time;
                                    (* [time.strptime]; [None]: ValueError *)
  datetime_strptime : string → option Z;
                                    (* [datetime.strptime], as an epoch second *)
  utc_strftime : Z → string;        (* [strftime] of a UTC epoch second *)
  (* libraries *)
  json_loads : string → option json;   (* [None]: JSONDecodeError *)
  TOKEN_SKEW : Z;                      (* [kmsauth.TOKEN_SKEW], in minutes *)
  get_role_arn : string → string → string → string;
                                       (* [awsmfautils.get_role_arn] *)
  (* remote services *)
  ip_endpoint : list call → string → option (Z * string);
                         (* status and text of a GET; [None]: any failure *)
  iam_get_user : list call → result (string * string);
                         (* ['UserName'] and ['Arn'] of [get_user()] *)
  sts_assume_role : list call → string → result sts_credentials;
  kms_get_token : list call → kmsauth_config → result string;
                         (* [KMSTokenGenerator(...).get_token()] *)
  lambda_getCert : list call → string → bless_payload → result string;
                         (* [BlessLambda.getCert] *)
  vault_auth : list call → string → string → result (string * Z * string);
                         (* [client.auth]: token, lease and user name *)
  vault_getCert : list call → option string → vault_payload → result string;
                         (* [VaultCA.getCert] *)
  (* the user and the host *)
  get_credentials : list call → string * string;   (* name and password *)
  generated_key : string * string;     (* a new private and public key *)
  bless_setup : string → bool → bool → string → option string →
                World → result prepared * World }.
                                       (* lines 866-951 of [bless] *)

(** ** State and exceptions *)

(** A computation reads and changes the world, and returns or raises. *)
Definition M (A : Type) : Type := World → result A * World.

#[global] Instance M_ret : MRet M := λ A a w, (Ok a, w).
#[global] Instance M_bind : MBind M := λ A B f c w,
  match c w with
  | (Ok a, w') => f a w'
  | (Raise e, w') => (Raise e, w')
  end.

Definition raise {A} (e : exn) : M A := λ w, (Raise e, w).

(** [try: c  except ...: h e] where [h e = None] when no clause matches. *)
Definition try_except {A} (c : M A) (h : exn → option (M A)) : M A := λ w,
  match c w with
  | (Ok a, w') => (Ok a, w')
  | (Raise e, w') => match h e with
                     | Some k => k w'
                     | None => (Raise e, w')
                     end
  end.

Definition get_world : M World := λ w, (Ok w, w).

Definition set_cache (c : BlessCache) (w : World) : World :=
  {| w_cache := c; w_disk := w_disk w; w_userIP := w_userIP w;
     w_files := w_files w; w_calls := w_calls w; w_ticks := w_ticks w |}.
Definition set_disk (d : gmap string pyval) (w : World) : World :=
  {| w_cache := w_cache w; w_disk := d; w_userIP := w_userIP w;
     w_files := w_files w; w_calls := w_calls w; w_ticks := w_ticks w |}.
Definition set_userIP (u : UserIP) (w : World) : World :=
  {| w_cache := w_cache w; w_disk := w_disk w; w_userIP := u;
     w_files := w_files w; w_calls := w_calls w; w_ticks := w_ticks w |}.
Definition set_files (f : gmap string file) (w : World) : World :=
  {| w_cache := w_cache w; w_disk := w_disk w; w_userIP := w_userIP w;
     w_files := f; w_calls := w_calls w; w_ticks := w_ticks w |}.
Definition set_calls (l : list call) (w : World) : World :=
  {| w_cache := w_cache w; w_disk := w_disk w; w_userIP := w_userIP w;
     w_files := w_files w; w_calls := l; w_ticks := w_ticks w |}.
Definition tick (w : World) : World :=
  {| w_cache := w_cache w; w_disk := w_disk w; w_userIP := w_userIP w;
     w_files := w_files w; w_calls := w_calls w; w_ticks := S (w_ticks w) |}.

(** Issue a request: it joins the history. *)
Definition emit (c : call) : M unit := λ w,
  (Ok (), set_calls (w_calls w ++ [c]) w).

(** *** The cache store *)

(** Modelled from the spec: [BlessCache.get]. *)
Definition cache_lookup (c : BlessCache) (key : string) : pyval :=
  match mode c with
  | CACHEMODE_RECACHE => PNone
  | CACHEMODE_ENABLED => default PNone (store c !! key)
  end.

Definition cache_get (key : string) : M pyval := λ w,
  (Ok (cache_lookup (w_cache w) key), w).

(** Modelled from the spec: [BlessCache.set], in memory only. *)
Definition cache_set (key : string) (v : pyval) : M unit := λ w,
  (Ok (), set_cache {| mode := mode (w_cache w);
                       store := <[key := v]> (store (w_cache w)) |} w).

(** Modelled from the spec: [BlessCache.save], all pending sets at once. *)
Definition cache_save : M unit := λ w,
  (Ok (), set_disk (store (w_cache w)) w).

(** [get_bless_cache] (client.py 373-379): a new store object on the
    cache file. *)
Definition get_bless_cache (nocache : bool) : M unit := λ w,
  let cachemode := if nocache then CACHEMODE_RECACHE else CACHEMODE_ENABLED in
  (Ok (), set_cache {| mode := cachemode; store := w_disk w |} w).

(** ** Text helpers *)

(** [string.hexdigits + '.:'] (user_ip.py 10). *)
Definition VALID_IP_CHARACTERS : string := "0123456789abcdefABCDEF.:".

Fixpoint char_in (c : ascii) (s : string) : bool :=
  match s with
  | EmptyString => false
  | String c' s' => bool_decide (c' = c) || char_in c s'
  end.

Fixpoint all_chars (p : ascii → bool) (s : string) : bool :=
  match s with
  | EmptyString => true
  | String c s' => p c && all_chars p s'
  end.

(** ASCII white space, as [str.strip()] removes it. *)
Definition is_space (c : ascii) : bool :=
  let n := nat_of_ascii c in
  ((9 <=? n) && (n <=? 13)) || ((28 <=? n) && (n <=? 32)).

Fixpoint lstrip (s : string) : string :=
  match s with
  | EmptyString => EmptyString
  | String c s' => if is_space c then lstrip s' else s
  end.

Fixpoint rstrip (s : string) : string :=
  match s with
  | EmptyString => EmptyString
  | String c s' =>
      match rstrip s' with
      | EmptyString => if is_space c then EmptyString else String c EmptyString
      | t => String c t
      end
  end.

Definition strip (s : string) : string := rstrip (lstrip s).

(** [s[:n]] *)
Fixpoint str_take (n : nat) (s : string) : string :=
  match n, s with
  | S n', String c s' => String c (str_take n' s')
  | _, _ => EmptyString
  end.

(** [if s:] on an optional string. *)
Definition truthy_str (s : option string) : bool :=
  match s with
  | Some s => negb (bool_decide (s = ""))
  | None => false
  end.

Definition opt_to_py (s : option string) : pyval :=
  match s with
  | Some s => PStr s
  | None => PNone
  end.

(** [pat in s] on strings. *)
Fixpoint str_contains (pat s : string) : bool :=
  String.prefix pat s ||
  match s with
  | EmptyString => false
  | String _ s' => str_contains pat s'
  end.

Definition ascii_upper (c : ascii) : ascii :=
  let n := nat_of_ascii c in
  if (97 <=? n) && (n <=? 122) then ascii_of_nat (n - 32) else c.

Definition ascii_lower (c : ascii) : ascii :=
  let n := nat_of_ascii c in
  if (65 <=? n) && (n <=? 90) then ascii_of_nat (n + 32) else c.

Fixpoint str_map (f : ascii → ascii) (s : string) : string :=
  match s with
  | EmptyString => EmptyString
  | String c s' => String (f c) (str_map f s')
  end.

(** [s.upper()] and [s.lower()] on ASCII text. *)
Definition upper : string → string := str_map ascii_upper.
Definition lower : string → string := str_map ascii_lower.

(** The class [[.a-zA-Z]] of [get_linux_username]. *)
Definition is_name_char (c : ascii) : bool :=
  let n := nat_of_ascii c in
  (n =? 46) || ((97 <=? n) && (n <=? 122)) || ((65 <=? n) && (n <=? 90)).

Fixpoint take_while (p : ascii → bool) (s : string) : string :=
  match s with
  | EmptyString => EmptyString
  | String c s' => if p c then String c (take_while p s') else EmptyString
  end.

Fixpoint skip_until (p : ascii → bool) (s : string) : string :=
  match s with
  | EmptyString => EmptyString
  | String c s' => if p c then s else skip_until p s'
  end.

(** [get_linux_username] (client.py 627-634): the first run of name
    characters; none gives [None.group]. *)
Definition get_linux_username (username : string) : result string :=
  match take_while is_name_char (skip_until is_name_char username) with
  | EmptyString => Raise (AttributeError "group")
  | m => Ok m
  end.

(** Member lookup in a parsed object: the last duplicate wins. *)
Fixpoint obj_get (key : string) (members : list (string * json)) : option json :=
  match members with
  | [] => None
  | (k, v) :: rest =>
      match obj_get key rest with
      | Some v' => Some v'
      | None => if bool_decide (k = key) then Some v else None
      end
  end.

(** ['errorType' in error_msg and error_msg['errorType'] == name] on
    whatever [json.loads] returned. *)
Definition errorType_is (error_msg : json) (name : string) : result bool :=
  match error_msg with
  | JObj members =>
      Ok (match obj_get "errorType" members with
          | Some (JStr s) => bool_decide (s = name)
          | _ => false
          end)
  | JStr s => if str_contains "errorType" s then Raise TypeError else Ok false
  | JArr items =>
      if existsb (λ j, match j with
                       | JStr s => bool_decide (s = "errorType")
                       | _ => false
                       end) items
      then Raise TypeError else Ok false
  | _ => Raise TypeError
  end.

Definition CERT_PREFIX : string := "ssh-rsa-cert-v01@openssh.com ".

(** ['certlifetime'] and ['ipcachelifetime'] of the lambda configuration. *)
Record lambda_config := {
  certlifetime : Z;
  ipcachelifetime : Z }.

(** The configuration and the host settings the client reads. *)
Record Config := {
  REGION_ALIAS : list (string * string);
  ca_backend : string;
  bless_lambda_config : lambda_config;
  cfg_ip_urls : list string;
  BLESSFIXEDIP : option string;
  auth_mount : string;
  cfg_ssh_backend_mount : string;
  cfg_ssh_backend_role : string;
  remote_user : string;
  update_sshagent : bool;
  identity_file : string;
  AWS_PROFILE_set : bool;
  domain_matches : string → bool }.

(** The whole seconds of a time stamp. *)
Definition Qc_floor (q : Qc) : Z := Qfloor q.

Section Client.
Context (env : Env).

(** [time.time()] *)
Definition time_time : M Qc := λ w, (Ok (clock env (w_ticks w)), tick w).

(** ** The caller's public address ([UserIP], user_ip.py) *)

(** [UserIP.__init__] (15-23); [fixed_ip] is [None] for [False]. *)
Definition UserIP_init (maxcachetime : Z) (ip_urls : list string)
    (fixed_ip : option string) : M unit := λ w,
  let u := if truthy_str fixed_ip
           then {| fresh := true; currentIP := fixed_ip;
                   maxcachetime := maxcachetime; ip_urls := ip_urls |}
           else {| fresh := false; currentIP := None;
                   maxcachetime := maxcachetime; ip_urls := ip_urls |} in
  (Ok (), set_userIP u w).

(** [UserIP._fetchIP] (54-73): every failure is logged and gives [None]. *)
Definition _fetchIP (url : string) : M (option string) :=
  w ← get_world;
  emit (CallIPFetch url);;
  match ip_endpoint env (w_calls w) url with
  | Some (status_code, text) =>
      if bool_decide (status_code = 200%Z) then
        let content := strip text in
        if all_chars (λ c, char_in c VALID_IP_CHARACTERS) content
        then mret (Some content)
        else mret None
      else mret None
  | None => mret None
  end.

(** The [for url in self.ip_urls] loop of [_refreshIP] (39-43). *)
Fixpoint _refreshIP_loop (urls : list string) (ip : option string)
  : M (option string) :=
  match urls with
  | [] => mret ip
  | url :: urls' =>
      if truthy_str ip then mret ip
      else ip' ← _fetchIP url; _refreshIP_loop urls' ip'
  end.

(** [UserIP._refreshIP] (35-52). *)
Definition _refreshIP : M unit :=
  w ← get_world;
  ip ← _refreshIP_loop (ip_urls (w_userIP w)) None;
  if negb (truthy_str ip) then raise (Exception_ "Could not refresh public IP")
  else
    (λ w, (Ok (), set_userIP {| fresh := true; currentIP := ip;
                                maxcachetime := maxcachetime (w_userIP w);
                                ip_urls := ip_urls (w_userIP w) |} w));;
    cache_set "lastip" (opt_to_py ip);;
    now ← time_time;
    cache_set "lastipchecktime" (PNum now);;
    cache_save.

(** [UserIP.getIP] (25-33). *)
Definition getIP : M pyval :=
  w ← get_world;
  let self := w_userIP w in
  if fresh self && truthy_str (currentIP self) then mret (opt_to_py (currentIP self))
  else
    lastip ← cache_get "lastip";
    lastiptime ← cache_get "lastipchecktime";
    let refresh : M pyval :=
      _refreshIP;; w' ← get_world; mret (opt_to_py (currentIP (w_userIP w'))) in
    if truthy lastiptime then
      match lastiptime with
      | PNum t =>
          now ← time_time;
          if bool_decide (now < t + Qc_of_Z (maxcachetime self))%Qc
          then mret lastip
          else refresh
      | _ => raise TypeError
      end
    else refresh.

(** ** Certificate freshness ([check_fresh_cert], client.py 532-541) *)

Definition check_fresh_cert (cert_file : string) (blessconfig : lambda_config)
    (ip_list : pyval) : M bool :=
  w ← get_world;
  match w_files w !! cert_file with
  | Some f =>
      now ← time_time;
      let certlife := (now - mtime f)%Qc in
      if bool_decide (certlife < Qc_of_Z (certlifetime blessconfig - 15))%Qc then
        let ip_check : M bool :=
          if bool_decide (certlife < Qc_of_Z (ipcachelifetime blessconfig))%Qc
          then mret true
          else certip ← cache_get "certip";
               ip ← getIP;
               mret (py_eq certip ip) in
        ip_ok ← ip_check;
        if (ip_ok : bool) then
          if bool_decide (ip_list = PNone) then mret true
          else bastion_ips ← cache_get "bastion_ips";
               if py_eq ip_list bastion_ips then mret true else mret false
        else mret false
      else mret false
  | None => mret false
  end.

(** ** Role credentials (client.py 213-263, 382-395) *)

(** [time.gmtime()]: the clock, truncated to the second and broken down. *)
Definition time_gmtime : M struct_time := λ w,
  (Ok (gmtime_of env (Qc_floor (clock env (w_ticks w)))), tick w).

(** [datetime.utcnow()], as seconds since the epoch. *)
Definition utcnow : M Qc := time_time.

(** [make_cachable_creds] (382-386). *)
Definition make_cachable_creds (token_data : sts_credentials) : pyval :=
  PDict (<["AccessKeyId" := AStr (AccessKeyId token_data)]>
         (<["SecretAccessKey" := AStr (SecretAccessKey token_data)]>
         (<["SessionToken" := AStr (SessionToken token_data)]>
         (<["Expiration" := AStr (utc_strftime env (Expiration token_data))]> ∅)))).

(** What [uncache_creds] hands back: its argument as it is, or a copy
    whose ['Expiration'] is a parsed [struct_time]. *)
Inductive uncached :=
| AsCached (cached_data : pyval)
| Parsed (cached_data : gmap string atom) (expiration : struct_time).

(** [uncache_creds] (389-395). *)
Definition uncache_creds (cached_data : pyval) : result uncached :=
  if truthy cached_data then
    match cached_data with
    | PDict d =>
        match d !! "Expiration" with
        | Some (AStr s) =>
            match time_strptime env s with
            | Some t => Ok (Parsed d t)
            | None => Raise (ValueError s)
            end
        | Some _ => Raise TypeError
        | None => Ok (AsCached cached_data)
        end
    | _ => Raise (AttributeError "keys")
    end
  else Ok (AsCached cached_data).

(** The role to assume (['userrole'], ['accountid'] of the lambda or
    housekeeper configuration). *)
Record role_config := {
  userrole : string;
  accountid : string }.

(** What [get_blessrole_credentials] returns: the cached copy, or the
    answer of STS. *)
Inductive role_creds :=
| FromCache (d : gmap string atom) (expiration : struct_time)
| FromSTS (c : sts_credentials).

(** [get_blessrole_credentials] (213-263), from line 226 on. *)
Definition assume_blessrole (lambda_config : role_config) : M role_creds :=
  user_arn ← cache_get "userarn";
  user_arn ← (if negb (truthy user_arn) then
                w ← get_world;
                emit CallGetUser;;
                match iam_get_user env (w_calls w) with
                | Ok (UserName, Arn) =>
                    cache_set "username" (PStr UserName);;
                    cache_set "userarn" (PStr Arn);;
                    cache_save;;
                    mret (PStr Arn)
                | Raise e => raise e
                end
              else mret user_arn);
  match user_arn with
  | PStr arn =>
      let role_arn := get_role_arn env arn (userrole lambda_config)
                        (accountid lambda_config) in
      w ← get_world;
      emit (CallAssumeRole role_arn);;
      match sts_assume_role env (w_calls w) role_arn with
      | Ok creds =>
          cache_set "blessrole_creds" (make_cachable_creds creds);;
          cache_save;;
          mret (FromSTS creds)
      | Raise e => raise e
      end
  | _ => raise TypeError
  end.

(** [get_blessrole_credentials] (213-263).  The clients built from
    [iam_client] and [creds] belong to the environment. *)
Definition get_blessrole_credentials (lambda_config : role_config) : M role_creds :=
  cached ← cache_get "blessrole_creds";
  match uncache_creds cached with
  | Raise e => raise e
  | Ok (Parsed d expiration) =>
      now ← time_gmtime;
      if tm_gt expiration now then mret (FromCache d expiration)
      else assume_blessrole lambda_config
  | Ok (AsCached v) =>
      if truthy v then
        match v with
        | PDict _ => raise (KeyError "Expiration")
        | _ => raise TypeError
        end
      else assume_blessrole lambda_config
  end.

(** ** kmsauth tokens (client.py 317-360) *)

Definition kmsauth_cache_key (config : kmsauth_config) : string :=
  "kmsauth-" ++ awsregion config.

(** [clear_kmsauth_token_cache] (317-324). *)
Definition clear_kmsauth_token_cache (config : kmsauth_config) : M unit :=
  let cache_key := kmsauth_cache_key config in
  let kmsauth_cache :=
    PDict (<["token" := ANone]> (<["Expiration" := AStr "20160101T000000Z"]> ∅)) in
  cache_set cache_key kmsauth_cache;;
  cache_save.

(** [get_kmsauth_token] (327-360), from line 338 on. *)
Definition mint_kmsauth_token (config : kmsauth_config) (username : string)
  : M atom :=
  let cache_key := kmsauth_cache_key config in
  let config := {| kmskey := kmskey config; awsregion := awsregion config;
                   context := <["from" := username]> (context config) |} in
  w ← get_world;
  emit (CallMintToken (kmskey config) (awsregion config) username);;
  match kms_get_token env (w_calls w) config with
  | Raise ServiceConnectionError =>
      raise (LambdaInvocationException "Connection error getting kmsauth token.")
  | Raise e => raise e
  | Ok token =>
      let lifetime := (60 - TOKEN_SKEW env * 2)%Z in
      (if bool_decide (0 < lifetime)%Z then
         now ← utcnow;
         let expiration := (Qc_floor now + 60 * lifetime)%Z in
         let kmsauth_cache :=
           PDict (<["token" := AStr token]>
                  (<["Expiration" := AStr (utc_strftime env expiration)]> ∅)) in
         cache_set cache_key kmsauth_cache;;
         cache_save
       else mret ());;
      mret (AStr token)
  end.

(** [get_kmsauth_token] (327-360).  The signing credentials [creds] belong
    to the environment. *)
Definition get_kmsauth_token (config : kmsauth_config) (username : string)
  : M atom :=
  let cache_key := kmsauth_cache_key config in
  kmsauth_cache ← cache_get cache_key;
  if truthy kmsauth_cache then
    match kmsauth_cache with
    | PDict d =>
        match d !! "Expiration" with
        | None => raise (KeyError "Expiration")
        | Some (AStr s) =>
            match time_strptime env s with
            | None => raise (ValueError s)
            | Some expiration =>
                now ← time_gmtime;
                if tm_gt expiration now then
                  match d !! "token" with
                  | None => raise (KeyError "token")
                  | Some ANone => mint_kmsauth_token config username
                  | Some token => mret token
                  end
                else mint_kmsauth_token config username
            end
        | Some _ => raise TypeError
        end
    | _ => raise TypeError
    end
  else mint_kmsauth_token config username.

(** ** The Vault backend (client.py 637-862) *)

(** [get_cached_auth_token] (637-653); [ANone] is [None]. *)
Definition get_cached_auth_token : M atom :=
  vault_creds ← cache_get "vault_creds";
  match vault_creds with
  | PNone => mret ANone
  | PDict d =>
      match d !! "expiration" with
      | None => raise (KeyError "expiration")
      | Some ANone => mret ANone
      | Some expiration =>
          now ← utcnow;
          match expiration with
          | AStr s =>
              match datetime_strptime env s with
              | None => raise (ValueError s)
              | Some t =>
                  if bool_decide (now < Qc_of_Z t)%Qc then
                    match d !! "token" with
                    | Some token => mret token
                    | None => raise (KeyError "token")
                    end
                  else mret ANone
              end
          | _ => raise TypeError
          end
      end
  | _ => raise TypeError
  end.

Definition lift {A} (r : result A) : M A :=
  match r with
  | Ok a => mret a
  | Raise e => raise e
  end.

(** [auth_okta] (704-737): the token the client holds afterwards, and the
    user name for the certificate. *)
Definition auth_okta (cfg : Config) : M (atom * string) :=
  vault_auth_token ← get_cached_auth_token;
  if negb (bool_decide (vault_auth_token = ANone)) then
    vault_creds ← cache_get "vault_creds";
    match vault_creds with
    | PDict d =>
        match d !! "username" with
        | Some (AStr u) =>
            username ← lift (get_linux_username u);
            username ← lift (get_linux_username username);
            mret (vault_auth_token, username)
        | Some _ => raise TypeError
        | None => raise (KeyError "username")
        end
    | _ => raise TypeError
    end
  else
    w ← get_world;
    emit CallPrompt;;
    let '(username, password) := get_credentials env (w_calls w) in
    current_time ← utcnow;
    let auth_url := "/v1/auth/" ++ auth_mount cfg ++ "/login/" ++ username in
    w ← get_world;
    emit (CallVaultAuth auth_url);;
    match vault_auth env (w_calls w) auth_url password with
    | Raise e => raise e
    | Ok (token, lease_duration, meta_username) =>
        let expiration := (Qc_floor current_time + lease_duration)%Z in
        username ← lift (get_linux_username meta_username);
        let vault_credentials_cache :=
          PDict (<["token" := AStr token]>
                 (<["expiration" := AStr (utc_strftime env expiration)]>
                 (<["username" := AStr username]> ∅))) in
        cache_set "vault_creds" vault_credentials_cache;;
        cache_save;;
        username ← lift (get_linux_username username);
        mret (AStr token, username)
    end.

(** [VaultCA(client).getCert(payload)]: one signing request. *)
Definition vault_ca_getCert (token : atom) (payload : vault_payload) : M string :=
  w ← get_world;
  let token := match token with AStr t => Some t | _ => None end in
  emit (CallVaultSign token payload);;
  lift (vault_getCert env (w_calls w) token payload).

(** Writing a file stamps it with the time of the write. *)
Definition write_file (path text : string) : M unit := λ w,
  (Ok (), set_files (<[path := {| mtime := clock env (w_ticks w);
                                  content := text |}]> (w_files w)) w).

(** The response checks of [vault_bless] (825-849). *)
Definition vault_check_response (nocache : bool) (cert : string) : M unit :=
  if negb (bool_decide (str_take 29 cert = CERT_PREFIX)) then
    match json_loads env cert with
    | None => raise (JSONDecodeError cert)
    | Some error_msg =>
        kms ← lift (errorType_is error_msg "KMSAuthValidationError");
        if (kms : bool) && negb nocache then
          raise (LambdaInvocationException "KMSAuth validation error")
        else
          client ← lift (errorType_is error_msg "ClientError");
          if (client : bool) then
            raise (LambdaInvocationException
              "The BLESS lambda experienced a client error. Consider trying in a different region.")
          else
            input ← lift (errorType_is error_msg "InputValidationError");
            if (input : bool) then
              raise (Exception_
                "The input to the BLESS lambda is invalid. Please update your blessclient by running `make update` in the bless folder.")
            else
              raise (LambdaInvocationException
                ("BLESS client did not recieve a valid cert. Instead got: " ++ cert))
    end
  else mret ().

(** The signing request of [vault_bless] (796-802, 811-817). *)
Definition vault_request (cfg : Config) (public_key linux_username : string)
  : vault_payload :=
  {| valid_principals := linux_username;
     public_key := public_key;
     ttl := certlifetime (bless_lambda_config cfg);
     ssh_backend_mount := cfg_ssh_backend_mount cfg;
     ssh_backend_role := cfg_ssh_backend_role cfg |}.

(** [vault_bless] up to the first authentication (742-794): the token the
    client holds, the user name and the public key. *)
Definition vault_prepare (nocache : bool) (cfg : Config)
  : M (atom * string * string) :=
  get_bless_cache nocache;;
  UserIP_init (ipcachelifetime (bless_lambda_config cfg)) (cfg_ip_urls cfg)
    (BLESSFIXEDIP cfg);;
  let cert_file := identity_file cfg ++ "-cert.pub" in
  is_fresh ← (if negb nocache
              then check_fresh_cert cert_file (bless_lambda_config cfg) PNone
              else mret false);
  if (is_fresh : bool) then raise (SystemExit 0)
  else
    let public_key_file := identity_file cfg ++ ".pub" in
    w ← get_world;
    match w_files w !! public_key_file with
    | None => raise (FileNotFoundError public_key_file)
    | Some f =>
        let public_key := content f in
        if negb (bool_decide (str_take 8 public_key = "ssh-rsa ")) then
          raise (Exception_ ("Refusing to bless " ++ identity_file cfg
                             ++ ". Probably not an identity file."))
        else
          '(client, linux_username) ← auth_okta cfg;
          mret (client, linux_username, public_key)
    end.

(** The signing call of [vault_bless] and its handler for
    [hvac.exceptions.Forbidden] (804-820). *)
Definition vault_sign (cfg : Config) (public_key : string)
    (client : atom) (linux_username : string) : M string :=
  try_except
    (vault_ca_getCert client (vault_request cfg public_key linux_username))
    (λ e, match e with
          | Forbidden => Some (
              get_bless_cache true;;
              '(client, linux_username) ← auth_okta cfg;
              vault_ca_getCert client
                (vault_request cfg public_key linux_username))
          | _ => None
          end).

(** Installing the certificate (851-855). *)
Definition vault_install (cfg : Config) (cert : string) : M unit :=
  let cert_file := identity_file cfg ++ "-cert.pub" in
  emit (CallSshAgentRemove (identity_file cfg));;
  write_file cert_file cert;;
  emit (CallSshAgentAdd (identity_file cfg)).

(** [vault_bless] (740-862). *)
Definition vault_bless (nocache : bool) (cfg : Config) : M unit :=
  '(client, linux_username, public_key) ← vault_prepare nocache cfg;
  cert ← vault_sign cfg public_key client linux_username;
  vault_check_response nocache cert;;
  vault_install cfg cert.

(** ** The Lambda backend ([bless], client.py 865-1042) *)

(** The response checks of [bless] (996-1020). *)
Definition bless_check_response (nocache : bool) (kmsauth_config : kmsauth_config)
    (cert : string) : M unit :=
  if negb (bool_decide (str_take 29 cert = CERT_PREFIX)) then
    match json_loads env cert with
    | None => raise (JSONDecodeError cert)
    | Some error_msg =>
        kms ← lift (errorType_is error_msg "KMSAuthValidationError");
        if (kms : bool) && negb nocache then
          clear_kmsauth_token_cache kmsauth_config;;
          raise (LambdaInvocationException "KMSAuth validation error")
        else
          client ← lift (errorType_is error_msg "ClientError");
          if (client : bool) then
            raise (LambdaInvocationException
              "The BLESS lambda experienced a client error. Consider trying in a different region.")
          else
            input ← lift (errorType_is error_msg "InputValidationError");
            if (input : bool) then
              raise (Exception_
                "The input to the BLESS lambda is invalid. Please update your blessclient by running `make update` in the bless folder.")
            else
              raise (LambdaInvocationException
                ("BLESS client did not recieve a valid cert. Instead got: " ++ cert))
    end
  else mret ().

(** [generate_ssh_key] (475-491): the new pair comes from the host. *)
Definition generate_ssh_key (identity_file public_key_file : string) : M unit :=
  write_file identity_file (generated_key env).1;;
  write_file public_key_file (generated_key env).2.

(** Reading the public key, generating the pair when there is none
    (970-977). *)
Definition read_public_key (identity_file public_key_file : string) : M string :=
  w ← get_world;
  match w_files w !! public_key_file with
  | Some f => mret (content f)
  | None =>
      generate_ssh_key identity_file public_key_file;;
      w ← get_world;
      match w_files w !! public_key_file with
      | Some f => mret (content f)
      | None => raise (FileNotFoundError public_key_file)
      end
  end.

(** The signing request (983-991). *)
Definition bless_request (cfg : Config) (p : prepared) (public_key : string)
  : bless_payload :=
  let username := p_username p in
  let remote_user := if bool_decide (remote_user cfg = "")
                     then username else remote_user cfg in
  {| bastion_user := username;
     bastion_user_ip := p_my_ip p;
     remote_usernames := remote_user;
     bastion_ips := p_ip_list p;
     command := "*";
     public_key_to_sign := public_key |}.

(** [bless] from the cache update to the signing response (958-992). *)
Definition bless_send (region : string) (cfg : Config) (p : prepared)
  : M string :=
  let identity_file := p_identity_file p in
  cache_set "bastion_ips" (p_ip_list p);;
  cache_set "remote_ip" (p_ip p);;
  cache_save;;
  let public_key_file := identity_file ++ ".pub" in
  public_key ← read_public_key identity_file public_key_file;
  if negb (bool_decide (str_take 8 public_key = "ssh-rsa ")) then
    raise (Exception_ ("Refusing to bless " ++ identity_file
                       ++ ". Probably not an identity file."))
  else
    let payload := bless_request cfg p public_key in
    w ← get_world;
    emit (CallLambdaInvoke region payload);;
    lift (lambda_getCert env (w_calls w) region payload).

(** Installing the certificate (1022-1042). *)
Definition bless_install (cfg : Config) (p : prepared) (cert : string)
  : M string :=
  let identity_file := p_identity_file p in
  let cert_file := identity_file ++ "-cert.pub" in
  emit (CallSshAgentRemove identity_file);;
  write_file cert_file cert;;
  (if update_sshagent cfg then emit (CallSshAgentAdd identity_file) else mret ());;
  cache_set "certip" (p_my_ip p);;
  cache_save;;
  mret (p_username p).

(** [bless] from the freshness gate on (953-1042); [p] is what lines
    866-951 computed. *)
Definition bless_from_gate (region : string) (nocache : bool) (cfg : Config)
    (p : prepared) : M string :=
  let cert_file := p_identity_file p ++ "-cert.pub" in
  is_fresh ← (if negb nocache
              then check_fresh_cert cert_file (bless_lambda_config cfg) (p_ip_list p)
              else mret false);
  if (is_fresh : bool) then mret (p_username p)
  else
    cert ← bless_send region cfg p;
    bless_check_response nocache (p_kmsauth_config p) cert;;
    bless_install cfg p cert.

(** [bless] (865-1042).  Lines 866-951 (logging, auto-update, the caller's
    address and identity, the environment credentials and the bastion list)
    are the collaborator [bless_setup]: it may change the world and either
    raises or yields what the rest of the function uses. *)
Definition bless (region : string) (nocache showgui : bool) (hostname : string)
    (cfg : Config) (username : option string) : M string :=
  p ← bless_setup env region nocache showgui hostname username;
  bless_from_gate region nocache cfg p.

(** ** The console entry point ([main], client.py 1045-1126) *)

(** [dict] lookup by key in the items of [REGION_ALIAS]. *)
Fixpoint dict_get {A} (key : string) (d : list (string * A)) : option A :=
  match d with
  | [] => None
  | (k, v) :: d' => if bool_decide (k = key) then Some v else dict_get key d'
  end.

(** [get_region_from_code] (104-112). *)
Definition get_region_from_code (region_code : option string) (cfg : Config)
  : result string :=
  match (match region_code with
         | Some c => Ok c
         | None => match sorted (REGION_ALIAS cfg).*1 with
                   | c :: _ => Ok c
                   | [] => Raise IndexError
                   end
         end) with
  | Raise e => Raise e
  | Ok region_code =>
      let alias_code := upper region_code in
      match dict_get alias_code (REGION_ALIAS cfg) with
      | Some region => Ok region
      | None => Raise (ValueError ("Unrecognized region code: " ++ region_code))
      end
  end.

(** The clauses of the [try] in [main] (1110-1119): the errors after which
    the next region is tried. *)
Definition main_catches (e : exn) : bool :=
  match e with
  | ClientError _ => true
  | LambdaInvocationException _ | ConnectionError | EndpointConnectionError => true
  | _ => false
  end.

Record main_args := {
  args_host : string;
  args_region : option string;
  args_gui : bool }.

(** One pass of the body of the [for region in ...] loop (1099-1109). *)
Definition main_attempt (args : main_args) (cfg : Config) (region : string)
  : M unit :=
  if bool_decide (lower (ca_backend cfg) = "hashicorp-vault") then
    (* [args.nocache]: this parser defines no such option *)
    raise (AttributeError "nocache")
  else if bool_decide (lower (ca_backend cfg) = "bless") then
    bless region true (args_gui args) (args_host args) cfg None;;
    mret ()
  else raise (SystemExit 1).

(** The [for region in get_regions(...)] loop (1097-1119); the value is
    the [success] flag it leaves. *)
Fixpoint main_loop (args : main_args) (cfg : Config) (regions : list string)
  : M bool :=
  match regions with
  | [] => mret false
  | region :: regions' =>
      try_except
        (main_attempt args cfg region;; mret true)
        (λ e, if main_catches e then Some (main_loop args cfg regions') else None)
  end.

(** [main] from line 1091 on, for a loaded configuration and a host
    argument. *)
Definition main (args : main_args) (cfg : Config) : M unit :=
  if negb (AWS_PROFILE_set cfg) then raise (SystemExit 1)
  else if domain_matches cfg (args_host args)
          || bool_decide (args_host args = "BLESS") then
    start_region ← lift (get_region_from_code (args_region args) cfg);
    regions ← lift (get_regions start_region (REGION_ALIAS cfg));
    success ← main_loop args cfg regions;
    if (success : bool) then raise (SystemExit 0) else raise (SystemExit 1)
  else raise (SystemExit 1).

(** The exit status of a run. *)
Definition exit_status {A} (r : result A) : Z :=
  match r with
  | Ok _ => 0
  | Raise (SystemExit code) => code
  | Raise _ => 1
  end.

End Client.

(** ** Vocabulary of the properties *)

Section Vocabulary.
Context (env : Env).

(** The age [check_fresh_cert] computes for a certificate file. *)
Definition cert_age (w : World) (f : file) : Qc :=
  (clock env (w_ticks w) - mtime f)%Qc.

(** The conditions under which the certificate counts as fresh: the file
    exists, it is younger than the lifetime less 15 seconds, it is younger
    than the address cache or the cached issuing address is the current
    one, and the expected bastion list, when given, is the cached one. *)
Definition fresh_conditions (cert_file : string) (blessconfig : lambda_config)
    (ip_list : pyval) (w : World) : Prop :=
  ∃ f, w_files w !! cert_file = Some f
    ∧ (cert_age w f < Qc_of_Z (certlifetime blessconfig - 15))%Qc
    ∧ ((cert_age w f < Qc_of_Z (ipcachelifetime blessconfig))%Qc
       ∨ ∃ ip, (getIP env (tick w)).1 = Ok ip
               ∧ cache_lookup (w_cache w) "certip" = ip)
    ∧ (ip_list = PNone ∨ ip_list = cache_lookup (w_cache w) "bastion_ips").

(** [check_fresh_cert] gets as far as asking for the current address. *)
Definition ip_lookup_reached (cert_file : string) (blessconfig : lambda_config)
    (w : World) : Prop :=
  ∃ f, w_files w !! cert_file = Some f
    ∧ (cert_age w f < Qc_of_Z (certlifetime blessconfig - 15))%Qc
    ∧ ¬ (cert_age w f < Qc_of_Z (ipcachelifetime blessconfig))%Qc.

(** [getIP], called in [w], has to ask the address services: the resolver
    holds no address of its own, and the cached record is missing or as
    old as [maxcachetime]. *)
Definition refresh_needed (w : World) : Prop :=
  (fresh (w_userIP w) && truthy_str (currentIP (w_userIP w))) = false
  ∧ (truthy (cache_lookup (w_cache w) "lastipchecktime") = false
     ∨ ∃ t, cache_lookup (w_cache w) "lastipchecktime" = PNum t
            ∧ ¬ (clock env (w_ticks w)
                 < t + Qc_of_Z (maxcachetime (w_userIP w)))%Qc).

(** The six calendar fields of a broken-down time. *)
Definition stamp (t : struct_time) : list Z :=
  [tm_year t; tm_mon t; tm_mday t; tm_hour t; tm_min t; tm_sec t].

(** The calendar of the libraries: a parsed time carries [tm_isdst = -1],
    the clock's [tm_isdst = 0], and both take the day of the week and of
    the year from the date. *)
Definition calendar_ok : Prop :=
  ∃ wday yday : Z → Z → Z → Z,
    (∀ s t, time_strptime env s = Some t →
       tm_isdst t = (-1)%Z
       ∧ tm_wday t = wday (tm_year t) (tm_mon t) (tm_mday t)
       ∧ tm_yday t = yday (tm_year t) (tm_mon t) (tm_mday t))
    ∧ (∀ z, let t := gmtime_of env z in
       tm_isdst t = 0%Z
       ∧ tm_wday t = wday (tm_year t) (tm_mon t) (tm_mday t)
       ∧ tm_yday t = yday (tm_year t) (tm_mon t) (tm_mday t)).

(** The last test of [check_fresh_cert], on the bastion list. *)
Definition bastion_list_ok (ip_list : pyval) (w : World) : bool :=
  bool_decide (ip_list = PNone)
  || py_eq ip_list (cache_lookup (w_cache w) "bastion_ips").

(** The cache, its file, the history of requests, the resolver and the
    files are the same in both worlds. *)
Definition same_effects (w w' : World) : Prop :=
  w_cache w' = w_cache w ∧ w_disk w' = w_disk w ∧ w_calls w' = w_calls w
  ∧ w_userIP w' = w_userIP w ∧ w_files w' = w_files w.

(** What [_refreshIP] leaves behind when an address was found. *)
Definition refreshed (ip : string) (calls : list call) (w : World) : World :=
  let st := <["lastipchecktime" := PNum (clock env (w_ticks w))]>
              (<["lastip" := PStr ip]> (store (w_cache w))) in
  {| w_cache := {| mode := mode (w_cache w); store := st |};
     w_disk := st;
     w_userIP := {| fresh := true; currentIP := Some ip;
                    maxcachetime := maxcachetime (w_userIP w);
                    ip_urls := ip_urls (w_userIP w) |};
     w_files := w_files w;
     w_calls := calls;
     w_ticks := S (w_ticks w) |}.

(** The broken-down time [time.gmtime()] gives in [w]. *)
Definition gmtime_now (w : World) : struct_time :=
  gmtime_of env (Qc_floor (clock env (w_ticks w))).

(** The cache entry [key] is a record whose ['Expiration'] parses to
    [expiration]. *)
Definition cached_until (key : string) (w : World) (d : gmap string atom)
    (expiration : struct_time) : Prop :=
  ∃ s, cache_lookup (w_cache w) key = PDict d
       ∧ d !! "Expiration" = Some (AStr s)
       ∧ time_strptime env s = Some expiration.

(** The current time is strictly before [expiration], as calendar stamps. *)
Definition before_expiration (w : World) (expiration : struct_time) : bool :=
  tuple_ltb (stamp (gmtime_now w)) (stamp expiration).

(** A run that got as far as the [assume_role] request. *)
Definition role_assumed (w w' : World) : Prop :=
  ∃ pre role_arn,
    w_calls w' = (w_calls w ++ pre ++ [CallAssumeRole role_arn])%list.

(** A run that failed to resolve the caller's identity with [e]. *)
Definition identity_failed (e : exn) (w w' : World) : Prop :=
  w_calls w' = w_calls w
  ∨ (w_calls w' = (w_calls w ++ [CallGetUser])%list
     ∧ iam_get_user env (w_calls w) = Raise e).

(** The configuration [get_kmsauth_token] signs with: the caller's name
    joins the context. *)
Definition kmsauth_config_for (config : kmsauth_config) (username : string)
  : kmsauth_config :=
  {| kmskey := kmskey config; awsregion := awsregion config;
     context := <["from" := username]> (context config) |}.

(** The token record [get_kmsauth_token] caches. *)
Definition kmsauth_record (token expiration : string) : pyval :=
  PDict (<["token" := AStr token]> (<["Expiration" := AStr expiration]> ∅)).


(** [get_kmsauth_token], called in [w], finds no usable token and comes to
    mint one in [w1]: the entry is missing or empty, or it has expired, or
    its token is [None]. *)
Definition mint_needed (config : kmsauth_config) (w w1 : World) : Prop :=
  (truthy (cache_lookup (w_cache w) (kmsauth_cache_key config)) = false
   ∧ w1 = w)
  ∨ (∃ d expiration,
       cached_until (kmsauth_cache_key config) w d expiration
       ∧ w1 = tick w
       ∧ (tm_gt expiration (gmtime_now w) = false
          ∨ (tm_gt expiration (gmtime_now w) = true
             ∧ d !! "token" = Some ANone))).

(** The world with [key] set in the cache and the cache saved. *)
Definition cached_and_saved (key : string) (v : pyval) (w : World) : World :=
  let st := <[key := v]> (store (w_cache w)) in
  set_disk st (set_cache {| mode := mode (w_cache w); store := st |} w).

(** A parsed error object whose ['errorType'] is none of the three the
    client knows. *)
Definition errorType_other (members : list (string * json)) : Prop :=
  ∀ name, obj_get "errorType" members = Some (JStr name) →
    name ≠ "KMSAuthValidationError" ∧ name ≠ "ClientError"
    ∧ name ≠ "InputValidationError".

(** The message of the error for an unclassified response. *)
Definition no_valid_cert (cert : string) : exn :=
  LambdaInvocationException
    ("BLESS client did not recieve a valid cert. Instead got: " ++ cert).

(** The public key [bless] signs in [w]: the one on file, or the one it
    generates when there is none. *)
Definition public_key_in (p : prepared) (w : World) : string :=
  match w_files w !! (p_identity_file p ++ ".pub") with
  | Some f => content f
  | None => (generated_key env).2
  end.


(** The login address of [auth_okta]. *)
Definition auth_url (cfg : Config) (username : string) : string :=
  "/v1/auth/" ++ auth_mount cfg ++ "/login/" ++ username.

(** The caller's identity can be had in [w]: its ARN is cached, or the
    identity service answers. *)
Definition identity_resolved (w : World) : Prop :=
  (∃ arn, cache_lookup (w_cache w) "userarn" = PStr arn ∧ arn ≠ "")
  ∨ (truthy (cache_lookup (w_cache w) "userarn") = false
     ∧ ∃ user, iam_get_user env (w_calls w) = Ok user).

End Vocabulary.

(** ** A sample environment

    One day of calendar (1 January 2016, a Friday), one address service,
    and services that answer every request. *)

Definition day0 : Z := 1451606400.   (* 2016-01-01T00:00:00Z *)

Definition sample_gmtime (z : Z) : struct_time :=
  if bool_decide (day0 ≤ z < day0 + 86400)%Z then
    let s := (z - day0)%Z in
    {| tm_year := 2016; tm_mon := 1; tm_mday := 1;
       tm_hour := s / 3600; tm_min := (s mod 3600) / 60; tm_sec := s mod 60;
       tm_wday := 4; tm_yday := 1; tm_isdst := 0 |}
  else
    {| tm_year := 1970; tm_mon := 1; tm_mday := 1;
       tm_hour := 0; tm_min := 0; tm_sec := 0;
       tm_wday := 3; tm_yday := 1; tm_isdst := 0 |}.

Definition digit_of (c : ascii) : option Z :=
  let n := nat_of_ascii c in
  if (48 <=? n) && (n <=? 57) then Some (Z.of_nat (n - 48)) else None.

Definition two_digits (a b : ascii) : option Z :=
  x ← digit_of a; y ← digit_of b; Some (10 * x + y)%Z.

(** Time stamps of the sample day, in the fixed-width form that
    [strftime] writes. *)
Definition sample_parse (s : string) : option (Z * Z * Z) :=
  match s with
  | String "2" (String "0" (String "1" (String "6" (String "0" (String "1"
    (String "0" (String "1" (String "T" (String h1 (String h2 (String m1
    (String m2 (String s1 (String s2 (String "Z" EmptyString))))))))))))))) =>
      h ← two_digits h1 h2; m ← two_digits m1 m2; s ← two_digits s1 s2;
      if bool_decide (h < 24 ∧ m < 60 ∧ s < 60)%Z then Some (h, m, s) else None
  | _ => None
  end.

Definition sample_strptime (s : string) : option struct_time :=
  '(h, m, s) ← sample_parse s;
  Some {| tm_year := 2016; tm_mon := 1; tm_mday := 1;
          tm_hour := h; tm_min := m; tm_sec := s;
          tm_wday := 4; tm_yday := 1; tm_isdst := -1 |}.

Definition sample_datetime_strptime (s : string) : option Z :=
  '(h, m, s) ← sample_parse s;
  Some (day0 + 3600 * h + 60 * m + s)%Z.

Definition digit_char (d : Z) : ascii := ascii_of_nat (48 + Z.to_nat d).

Definition two_chars (n : Z) (rest : string) : string :=
  String (digit_char (n / 10)) (String (digit_char (n mod 10)) rest).

Definition sample_strftime (z : Z) : string :=
  if bool_decide (day0 ≤ z < day0 + 86400)%Z then
    let s := (z - day0)%Z in
    "20160101T" ++ two_chars (s / 3600) (two_chars ((s mod 3600) / 60)
                     (two_chars (s mod 60) "Z"))
  else "19700101T000000Z".

(** The document [{"errorType": "<name>"}]. *)
Definition dq : string := String (ascii_of_nat 34) EmptyString.
Definition error_doc (name : string) : string :=
  "{" ++ dq ++ "errorType" ++ dq ++ ": " ++ dq ++ name ++ dq ++ "}".

Definition sample_json_loads (doc : string) : option json :=
  if bool_decide (doc = error_doc "KMSAuthValidationError")
  then Some (JObj [("errorType", JStr "KMSAuthValidationError")])
  else if bool_decide (doc = error_doc "ClientError")
  then Some (JObj [("errorType", JStr "ClientError")])
  else if bool_decide (doc = error_doc "InputValidationError")
  then Some (JObj [("errorType", JStr "InputValidationError")])
  else if bool_decide (doc = error_doc "ServerBusy")
  then Some (JObj [("errorType", JStr "ServerBusy")])
  else None.

Definition sample_kmsauth_config (region : string) : kmsauth_config :=
  {| kmskey := "alias/authnz"; awsregion := region;
     context := {["to" := "bless"]} |}.

Definition sample_prepared (region : string) : prepared :=
  {| p_username := "alice";
     p_my_ip := PStr "203.0.113.5";
     p_identity_file := "/home/alice/.ssh/blessid";
     p_kmsauth_config := sample_kmsauth_config region;
     p_role_creds := ∅;
     p_kmsauth_token := "token";
     p_ip_list := PStr "203.0.113.5,10.0.0.1";
     p_ip := PNone |}.

Definition sample_env : Env :=
  {| clock := λ n, Qc_of_Z (day0 + 3600 + Z.of_nat n);
     gmtime_of := sample_gmtime;
     time_strptime := sample_strptime;
     datetime_strptime := sample_datetime_strptime;
     utc_strftime := sample_strftime;
     json_loads := sample_json_loads;
     TOKEN_SKEW := 3;
     get_role_arn := λ user_arn role account,
       "arn:aws:iam::" ++ account ++ ":role/" ++ role;
     ip_endpoint := λ _ _, Some (200%Z, "203.0.113.5 ");
     iam_get_user := λ _, Ok ("alice", "arn:aws:iam::123456789012:user/alice");
     sts_assume_role := λ _ _,
       Ok {| AccessKeyId := "AKIA"; SecretAccessKey := "secret";
             SessionToken := "session"; Expiration := day0 + 7200 |};
     kms_get_token := λ _ _, Ok "kmsauth-token";
     lambda_getCert := λ _ _ _, Ok (CERT_PREFIX ++ "AAAA");
     vault_auth := λ _ _ _, Ok ("vault-token", 3600%Z, "alice@example.com");
     vault_getCert := λ _ _ _, Ok (CERT_PREFIX ++ "AAAA");
     get_credentials := λ _, ("alice@example.com", "hunter2");
     generated_key := ("PRIVATE KEY", "ssh-rsa GENERATED");
     bless_setup := λ region _ _ _ _ w, (Ok (sample_prepared region), w) |}.

Definition sample_userIP : UserIP :=
  {| fresh := false; currentIP := None; maxcachetime := 120;
     ip_urls := ["http://checkip.example.com"] |}.

Definition sample_files : gmap string file :=
  {[ "/home/alice/.ssh/blessid-cert.pub" :=
       {| mtime := Qc_of_Z (day0 + 3000); content := CERT_PREFIX ++ "OLD" |};
     "/home/alice/.ssh/blessid.pub" :=
       {| mtime := Qc_of_Z day0; content := "ssh-rsa AAAAB3" |} ]}.

(** A first run: nothing cached. *)
Definition sample_world : World :=
  {| w_cache := {| mode := CACHEMODE_ENABLED; store := ∅ |};
     w_disk := ∅;
     w_userIP := sample_userIP;
     w_files := sample_files;
     w_calls := [];
     w_ticks := 0 |}.

Definition with_store (m : gmap string pyval) (w : World) : World :=
  set_disk m (set_cache {| mode := mode (w_cache w); store := m |} w).

Definition sample_lambda_config : lambda_config :=
  {| certlifetime := 1800; ipcachelifetime := 120 |}.

Definition sample_config : Config :=
  {| REGION_ALIAS := [("EAST", "us-east-1"); ("WEST", "us-west-2")];
     ca_backend := "bless";
     bless_lambda_config := sample_lambda_config;
     cfg_ip_urls := ["http://checkip.example.com"];
     BLESSFIXEDIP := None;
     auth_mount := "okta";
     cfg_ssh_backend_mount := "ssh";
     cfg_ssh_backend_role := "bless";
     remote_user := "";
     update_sshagent := true;
     identity_file := "/home/alice/.ssh/blessid";
     AWS_PROFILE_set := true;
     domain_matches := λ host, String.prefix "ec2-" host |}.

(** The sample environment with other answers. *)
Definition with_ip_endpoint (f : list call → string → option (Z * string))
    (env : Env) : Env :=
  {| clock := clock env; gmtime_of := gmtime_of env;
     time_strptime := time_strptime env;
     datetime_strptime := datetime_strptime env;
     utc_strftime := utc_strftime env; json_loads := json_loads env;
     TOKEN_SKEW := TOKEN_SKEW env; get_role_arn := get_role_arn env;
     ip_endpoint := f; iam_get_user := iam_get_user env;
     sts_assume_role := sts_assume_role env; kms_get_token := kms_get_token env;
     lambda_getCert := lambda_getCert env; vault_auth := vault_auth env;
     vault_getCert := vault_getCert env; get_credentials := get_credentials env;
     generated_key := generated_key env; bless_setup := bless_setup env |}.

Definition with_lambda_getCert
    (f : list call → string → bless_payload → result string) (env : Env) : Env :=
  {| clock := clock env; gmtime_of := gmtime_of env;
     time_strptime := time_strptime env;
     datetime_strptime := datetime_strptime env;
     utc_strftime := utc_strftime env; json_loads := json_loads env;
     TOKEN_SKEW := TOKEN_SKEW env; get_role_arn := get_role_arn env;
     ip_endpoint := ip_endpoint env; iam_get_user := iam_get_user env;
     sts_assume_role := sts_assume_role env; kms_get_token := kms_get_token env;
     lambda_getCert := f; vault_auth := vault_auth env;
     vault_getCert := vault_getCert env; get_credentials := get_credentials env;
     generated_key := generated_key env; bless_setup := bless_setup env |}.

Definition with_vault_getCert
    (f : list call → option string → vault_payload → result string) (env : Env)
  : Env :=
  {| clock := clock env; gmtime_of := gmtime_of env;
     time_strptime := time_strptime env;
     datetime_strptime := datetime_strptime env;
     utc_strftime := utc_strftime env; json_loads := json_loads env;
     TOKEN_SKEW := TOKEN_SKEW env; get_role_arn := get_role_arn env;
     ip_endpoint := ip_endpoint env; iam_get_user := iam_get_user env;
     sts_assume_role := sts_assume_role env; kms_get_token := kms_get_token env;
     lambda_getCert := lambda_getCert env; vault_auth := vault_auth env;
     vault_getCert := f; get_credentials := get_credentials env;
     generated_key := generated_key env; bless_setup := bless_setup env |}.

Definition with_TOKEN_SKEW (skew : Z) (env : Env) : Env :=
  {| clock := clock env; gmtime_of := gmtime_of env;
     time_strptime := time_strptime env;
     datetime_strptime := datetime_strptime env;
     utc_strftime := utc_strftime env; json_loads := json_loads env;
     TOKEN_SKEW := skew; get_role_arn := get_role_arn env;
     ip_endpoint := ip_endpoint env; iam_get_user := iam_get_user env;
     sts_assume_role := sts_assume_role env; kms_get_token := kms_get_token env;
     lambda_getCert := lambda_getCert env; vault_auth := vault_auth env;
     vault_getCert := vault_getCert env; get_credentials := get_credentials env;
     generated_key := generated_key env; bless_setup := bless_setup env |}.

(** No address service answers. *)
Definition offline_env : Env := with_ip_endpoint (λ _ _, None) sample_env.

Definition sample_cert_file : string := "/home/alice/.ssh/blessid-cert.pub".

Definition sample_role_config : role_config :=
  {| userrole := "use-bless"; accountid := "123456789012" |}.

(** A cached role credential that expires at [expiration]. *)
Definition sample_creds (expiration : string) : gmap string atom :=
  {[ "AccessKeyId" := AStr "AKIA"; "SecretAccessKey" := AStr "secret";
     "SessionToken" := AStr "session"; "Expiration" := AStr expiration ]}.

Definition sample_time (h m s : Z) : struct_time :=
  {| tm_year := 2016; tm_mon := 1; tm_mday := 1;
     tm_hour := h; tm_min := m; tm_sec := s;
     tm_wday := 4; tm_yday := 1; tm_isdst := -1 |}.

(** The sample world, at 01:00:00, with that credential cached. *)
Definition world_with_creds (expiration : string) : World :=
  with_store {[ "blessrole_creds" := PDict (sample_creds expiration);
                "userarn" := PStr "arn:aws:iam::123456789012:user/alice" ]}
    sample_world.

(** The sample world with [v] cached under [key]. *)
Definition world_with (key : string) (v : pyval) : World :=
  with_store {[ key := v ]} sample_world.

(** The Lambda of the first region answers with an error it does not
    classify; the others sign. *)
Definition busy_east_env : Env :=
  with_lambda_getCert
    (λ _ region _, if bool_decide (region = "us-east-1")
                   then Ok (error_doc "ServerBusy")
                   else Ok (CERT_PREFIX ++ "AAAA"))
    sample_env.

Definition sample_args : main_args :=
  {| args_host := "BLESS"; args_region := None; args_gui := false |}.


(** Vault refuses every signing request. *)
Definition forbidden_env : Env :=
  with_vault_getCert (λ _ _ _, Raise Forbidden) sample_env.

(** A Vault session that is still good, in the cache and in its file. *)
Definition vault_session : pyval :=
  PDict {[ "token" := AStr "cached-token";
           "expiration" := AStr "20160101T060000Z";
           "username" := AStr "alice" ]}.

Definition vault_world : World := world_with "vault_creds" vault_session.

(** A certificate written ten seconds ago for the cached bastion list. *)
Definition fresh_world : World :=
  set_files (<[sample_cert_file :=
                 {| mtime := Qc_of_Z (day0 + 3590);
                    content := CERT_PREFIX ++ "NEW" |}]> sample_files)
    (world_with "bastion_ips" (PStr "203.0.113.5,10.0.0.1")).

(** How many requests of a kind the history holds. *)
Definition count_calls (kind : call → bool) (calls : list call) : nat :=
  length (List.filter kind calls).
(** ** The identity file ([get_idfile_from_cmdline], client.py 266-283) *)

(** [s[n:]] *)
Fixpoint str_drop (n : nat) (s : string) : string :=
  match n, s with
  | S n', String _ s' => str_drop n' s'
  | _, _ => s
  end.

(** [s[-n:]] and [s[0:-n]] for a positive [n]: the index counts from the
    end and stops at the start of a shorter string. *)
Definition str_last (n : nat) (s : string) : string :=
  str_drop (String.length s - n) s.
Definition str_but_last (n : nat) (s : string) : string :=
  str_take (String.length s - n) s.

(** [get_idfile_from_cmdline] (266-283).  [BLESS_IDENTITYFILE] is the
    variable of that name in the process environment, [dflt] the argument
    [default]; [cmdline.index('-i')] raising [ValueError] is the case
    [None] of [tuple_index]. *)
Definition get_idfile_from_cmdline (BLESS_IDENTITYFILE : option string)
    (cmdline : list string) (dflt : string) : result string :=
  match BLESS_IDENTITYFILE with
  | Some (String c f) => Ok (String c f)
  | _ =>
      match (match tuple_index "-i" cmdline with
             | Some iflag =>
                 match cmdline !! (iflag + 1) with
                 | Some f => Ok f
                 | None => Raise IndexError
                 end
             | None => Ok dflt
             end) with
      | Raise e => Raise e
      | Ok identity_file =>
          if bool_decide (str_last 4 identity_file = ".pub")
          then Ok (str_but_last 4 identity_file)
          else Ok identity_file
      end
  end.

(** The file the command line names: the word after the first [-i], or the
    default when no word is [-i]. *)
Definition idfile_named (cmdline : list string) (dflt f : string) : Prop :=
  (∃ pre rest, cmdline = (pre ++ "-i" :: f :: rest)%list ∧ "-i" ∉ pre)
  ∨ (("-i" ∉ cmdline) ∧ f = dflt).

(** No character of [s] is a name character of [get_linux_username]. *)
Definition no_name_char (s : string) : bool :=
  all_chars (λ c, negb (is_name_char c)) s.

(** ** Vocabulary of the address lookup *)

(** The service at [url], asked after the requests [calls], answers with
    the address [ip]: status 200 and, once stripped, nothing but the
    characters of an address. *)
Definition address_answer (env : Env) (calls : list call) (url ip : string)
  : Prop :=
  ∃ text, ip_endpoint env calls url = Some (200%Z, text)
          ∧ ip = strip text
          ∧ all_chars (λ c, char_in c VALID_IP_CHARACTERS) ip = true.

(** The last two lines of [getIP] (user_ip.py 32-33). *)
Definition refresh_and_read (env : Env) : M pyval :=
  _refreshIP env;;
  w' ← get_world;
  mret (opt_to_py (currentIP (w_userIP w'))).

(** A new process on the same cache file: a store opened with caching
    enabled and a resolver without a fixed address. *)
Definition next_run (maxcachetime : Z) (ip_urls : list string) (w : World)
  : World :=
  (UserIP_init maxcachetime ip_urls None (get_bless_cache false w).2).2.

(** The world of a later process that opens the cache file [w] left, with
    caching enabled. *)
Definition reopened (w : World) : World := (get_bless_cache false w).2.

(** The world [w] at the [n]-th reading of the clock. *)
Definition at_tick (n : nat) (w : World) : World :=
  {| w_cache := w_cache w; w_disk := w_disk w; w_userIP := w_userIP w;
     w_files := w_files w; w_calls := w_calls w; w_ticks := n |}.

(** The record [auth_okta] caches after a login. *)
Definition vault_record (token expiration username : string) : pyval :=
  PDict (<["token" := AStr token]>
         (<["expiration" := AStr expiration]>
         (<["username" := AStr username]> ∅))).

(** [vault_bless] up to its freshness check (742-774): the store and the
    resolver it makes, and the outcome of the check, which a run without
    cache skips. *)
Definition vault_opened (nocache : bool) (cfg : Config) (w : World) : World :=
  (UserIP_init (ipcachelifetime (bless_lambda_config cfg)) (cfg_ip_urls cfg)
     (BLESSFIXEDIP cfg) (get_bless_cache nocache w).2).2.

Definition vault_freshness (env : Env) (nocache : bool) (cfg : Config)
    (w : World) : result bool * World :=
  if nocache then (Ok false, vault_opened nocache cfg w)
  else check_fresh_cert env (identity_file cfg ++ "-cert.pub")
         (bless_lambda_config cfg) PNone (vault_opened nocache cfg w).

(** The refusal of [bless] and [vault_bless] to sign a key that is not an
    RSA public key (client.py 979-981, 789-791). *)
Definition refusing_to_bless (identity_file : string) : exn :=
  Exception_ ("Refusing to bless " ++ identity_file
              ++ ". Probably not an identity file.").

(** The errors of a response whose errorType is ['ClientError'] or
    ['InputValidationError'] (client.py 1006-1017). *)
Definition client_error : exn :=
  LambdaInvocationException
    "The BLESS lambda experienced a client error. Consider trying in a different region.".

Definition input_validation_error : exn :=
  Exception_
    "The input to the BLESS lambda is invalid. Please update your blessclient by running `make update` in the bless folder.".



(** The sample configuration with another backend. *)
Definition with_ca_backend (backend : string) (cfg : Config) : Config :=
  {| REGION_ALIAS := REGION_ALIAS cfg; ca_backend := backend;
     bless_lambda_config := bless_lambda_config cfg;
     cfg_ip_urls := cfg_ip_urls cfg; BLESSFIXEDIP := BLESSFIXEDIP cfg;
     auth_mount := auth_mount cfg;
     cfg_ssh_backend_mount := cfg_ssh_backend_mount cfg;
     cfg_ssh_backend_role := cfg_ssh_backend_role cfg;
     remote_user := remote_user cfg; update_sshagent := update_sshagent cfg;
     identity_file := identity_file cfg;
     AWS_PROFILE_set := AWS_PROFILE_set cfg;
     domain_matches := domain_matches cfg |}.

(** [main] gets as far as the region loop: the session variable is set and
    the host is one of the domain or the word [BLESS]. *)
Definition main_reaches_loop (args : main_args) (cfg : Config) : Prop :=
  AWS_PROFILE_set cfg = true
  ∧ (domain_matches cfg (args_host args)
     || bool_decide (args_host args = "BLESS")) = true.

(** * Properties *)

(** ** The region ring *)

Example get_regions_ex :
  get_regions "us-west-2"
    [("WEST", "us-west-2"); ("EAST", "us-east-1"); ("EU", "eu-west-1")]
  = Ok ["us-west-2"; "eu-west-1"; "us-east-1"].
Proof. vm_compute. reflexivity. Qed.

Lemma tuple_index_Some x t i :
  tuple_index x t = Some i → t !! i = Some x.
Proof.
  revert i. induction t as [|y t IH]; intros i; simpl; [done|].
  case_decide as Hy; [intros [= <-]; by subst|].
  destruct (tuple_index x t) as [j|]; simpl; [|done].
  intros [= <-]. by apply IH.
Qed.

Lemma tuple_index_None x t : tuple_index x t = None ↔ x ∉ t.
Proof.
  induction t as [|y t IH]; simpl.
  - split; [intros _; apply not_elem_of_nil|done].
  - case_decide as Hy.
    + subst. split; [done|]. intros []. apply elem_of_cons. by left.
    + rewrite not_elem_of_cons. destruct (tuple_index x t); simpl.
      * split; [done|]. intros [_ Hx]. by apply IH in Hx.
      * split; [|done]. intros _. split; [congruence|]. by apply IH.
Qed.

Lemma tuple_index_NoDup x t j :
  NoDup t → t !! j = Some x → tuple_index x t = Some j.
Proof.
  intros Hnd. revert j. induction Hnd as [|y t Hy Hnd IH]; intros j; [done|].
  destruct j as [|j]; simpl.
  - intros [= ->]. by rewrite decide_True.
  - intros Hj. rewrite decide_False.
    + by rewrite (IH j Hj).
    + intros ->. apply Hy. by eapply list_elem_of_lookup_2.
Qed.

Lemma length_ring_from k t : k ≤ length t → length (ring_from k t) = length t.
Proof.
  intros Hk. unfold ring_from. rewrite length_app, length_drop, length_take. lia.
Qed.

Lemma ring_from_Permutation k t : ring_from k t ≡ₚ t.
Proof.
  unfold ring_from. rewrite Permutation_app_comm. by rewrite take_drop.
Qed.

Lemma lookup_ring_from k t i :
  k < length t → i < length t →
  ring_from k t !! i = t !! ((k + i) mod length t).
Proof.
  intros Hk Hi. unfold ring_from.
  destruct (decide (k + i < length t)) as [Hlt|Hge].
  - rewrite lookup_app_l by (rewrite length_drop; lia).
    rewrite lookup_drop. by rewrite Nat.mod_small.
  - rewrite lookup_app_r by (rewrite length_drop; lia).
    rewrite length_drop.
    replace ((k + i) mod length t) with (k + i - length t).
    + rewrite lookup_take_lt by lia. f_equal. lia.
    + apply Nat.mod_unique with 1; lia.
Qed.

Lemma get_regions_loop_ring aws k d : ∀ m,
  d = length aws - m → m ≤ length aws → k < length aws →
  get_regions_loop aws (take m (ring_from k aws)) ((k + m) mod length aws)
  = Ok (ring_from k aws).
Proof.
  induction d as [|d IH]; intros m Hd Hm Hk; simp get_regions_loop;
    destruct (decide _) as [Hc|Hc]; simpl;
    pose proof Hc as Hc'; rewrite length_take, length_ring_from in Hc' by lia;
    try lia.
  - rewrite take_ge by (rewrite length_ring_from; lia). done.
  - assert (m < length aws) as Hlt by lia.
    rewrite <- lookup_ring_from by lia.
    destruct (ring_from k aws !! m) as [r|] eqn:Hr.
    + simpl. rewrite <- (take_S_r _ _ _ Hr).
      replace (((k + m) mod length aws + 1) mod length aws)
        with ((k + S m) mod length aws).
      * apply IH; lia.
      * replace (k + S m) with ((k + m) + 1) by lia.
        by rewrite <- Nat.Div0.add_mod_idemp_l.
    + apply lookup_ge_None in Hr. rewrite length_ring_from in Hr; lia.
Qed.

(** [get_regions] always returns, and returns the sorted tuple read
    cyclically from the position of [region] (position 0 when absent). *)
Lemma get_regions_eq region REGION_ALIAS :
  let aws_regions := sorted (dict_values REGION_ALIAS) in
  get_regions region REGION_ALIAS
  = Ok (ring_from (default 0 (tuple_index region aws_regions)) aws_regions).
Proof.
  intros aws. unfold get_regions. fold aws.
  destruct aws as [|a aws'] eqn:Haws.
  - simpl. by simp get_regions_loop.
  - rewrite <- Haws.
    assert (0 < length aws) as Hpos by (rewrite Haws; simpl; lia).
    set (k := match tuple_index region aws with Some i => i | None => 0 end).
    assert (k < length aws) as Hk.
    { unfold k. destruct (tuple_index region aws) as [i|] eqn:Hi; [|done].
      apply tuple_index_Some in Hi. by eapply lookup_lt_Some. }
    pose proof (get_regions_loop_ring aws k (length aws) 0) as H.
    rewrite Nat.add_0_r, Nat.mod_small in H by done. simpl in H.
    replace (default 0 (tuple_index region aws)) with k
      by (unfold k; by destruct (tuple_index region aws)).
    apply H; lia.
Qed.

Lemma sorted_Sorted l : Sorted str_le (sorted l).
Proof. apply Sorted_merge_sort, _. Qed.

Lemma sorted_Permutation l : sorted l ≡ₚ l.
Proof. apply merge_sort_Permutation. Qed.

(** C2.  [get_regions] returns a permutation of the sorted regions that
    starts at the requested region (at the first sorted region when it is
    not configured) and reads the sorted tuple as a ring from there.  For a
    set of regions, that is aliases that name pairwise distinct regions, it
    holds every configured region exactly once, and the entry after each
    region is its successor on the sorted ring, the last entry being
    followed by the first. *)
Theorem get_regions_ring (region : string) (REGION_ALIAS : list (string * string)) :
  let aws_regions := sorted (dict_values REGION_ALIAS) in
  ∃ regions,
    get_regions region REGION_ALIAS = Ok regions
    ∧ Sorted str_le aws_regions
    ∧ regions ≡ₚ aws_regions
    ∧ (∀ r, r ∈ regions ↔ r ∈ dict_values REGION_ALIAS)
    ∧ head regions = (if decide (region ∈ dict_values REGION_ALIAS)
                      then Some region else head aws_regions)
    ∧ (∃ start, ∀ i, i < length regions →
         regions !! i = aws_regions !! ((start + i) mod length regions))
    ∧ (NoDup (dict_values REGION_ALIAS) →
       NoDup regions
       ∧ ∀ i r, regions !! i = Some r →
           regions !! ((i + 1) mod length regions) = ring_succ aws_regions r).
Proof.
  intros aws. pose proof (get_regions_eq region REGION_ALIAS) as Heq.
  simpl in Heq. fold aws in Heq.
  set (k := default 0 (tuple_index region aws)) in Heq.
  assert (aws ≡ₚ dict_values REGION_ALIAS) as Hperm by apply sorted_Permutation.
  assert (k ≤ length aws) as Hk.
  { unfold k. destruct (tuple_index region aws) as [i|] eqn:Hi; simpl; [|lia].
    apply tuple_index_Some, lookup_lt_Some in Hi. lia. }
  assert (length aws ≠ 0 → k < length aws) as Hk'.
  { intros Hz. unfold k.
    destruct (tuple_index region aws) as [i|] eqn:Hi; simpl; [|lia].
    by apply tuple_index_Some, lookup_lt_Some in Hi. }
  exists (ring_from k aws). split; [done|]. split; [apply sorted_Sorted|].
  split; [apply ring_from_Permutation|].
  split; [intros r; by rewrite ring_from_Permutation, Hperm|].
  rewrite length_ring_from by done.
  split; [|split].
  - destruct (decide (length aws = 0)) as [Hz|Hz].
    + apply nil_length_inv in Hz. rewrite Hz. unfold ring_from.
      rewrite drop_nil, take_nil. simpl. rewrite decide_False; [done|].
      rewrite <- Hperm, Hz. apply not_elem_of_nil.
    + specialize (Hk' Hz).
      rewrite head_lookup, lookup_ring_from by lia.
      rewrite Nat.add_0_r, Nat.mod_small by done. unfold k.
      destruct (tuple_index region aws) as [i|] eqn:Hi; simpl.
      * rewrite decide_True; [by apply tuple_index_Some|].
        rewrite <- Hperm. apply tuple_index_Some in Hi.
        by eapply list_elem_of_lookup_2.
      * rewrite decide_False; [by rewrite <- head_lookup|].
        rewrite <- Hperm. by apply tuple_index_None.
  - exists k. intros i Hi. apply lookup_ring_from; lia.
  - intros Hnd. assert (NoDup aws) as Hnd' by (by rewrite Hperm).
    split; [by rewrite ring_from_Permutation|].
    intros i r Hi. pose proof (lookup_lt_Some _ _ _ Hi) as Hlt.
    rewrite length_ring_from in Hlt by done.
    assert (k < length aws) as Hlt' by (apply Hk'; lia).
    rewrite lookup_ring_from in Hi by done.
    rewrite lookup_ring_from by (done || (apply Nat.mod_upper_bound; lia)).
    unfold ring_succ. rewrite (tuple_index_NoDup _ _ _ Hnd' Hi). simpl.
    f_equal. rewrite Nat.Div0.add_mod_idemp_r, Nat.Div0.add_mod_idemp_l.
    f_equal. lia.
Qed.

(** Three aliases of three regions, starting from the second of the sorted
    ring. *)
Lemma get_regions_ring_witness :
  ∃ regions,
    get_regions "b" [("X", "c"); ("Y", "a"); ("Z", "b")] = Ok regions
    ∧ regions = ["b"; "c"; "a"]
    ∧ NoDup regions
    ∧ regions !! ((2 + 1) mod length regions) = ring_succ ["a"; "b"; "c"] "a".
Proof.
  destruct (get_regions_ring "b" [("X", "c"); ("Y", "a"); ("Z", "b")])
    as (regions & Heq & _ & _ & _ & _ & _ & Hset).
  destruct Hset as [Hnd Hsucc].
  - apply (bool_decide_unpack _). vm_compute. exact I.
  - exists regions. split; [done|].
    assert (regions = ["b"; "c"; "a"]) as Hr
      by (vm_compute in Heq; congruence).
    split; [done|]. split; [done|]. rewrite Hr in Hsucc |- *.
    apply (Hsucc 2 "a"). done.
Defined.

(** Two aliases of one region: the region comes twice in the ring. *)
Example get_regions_shared_region :
  get_regions "us-east-1"
    [("EAST", "us-east-1"); ("IAD", "us-east-1"); ("WEST", "us-west-2")]
  = Ok ["us-east-1"; "us-east-1"; "us-west-2"].
Proof. by vm_compute. Qed.

(** ** Running computations *)

Ltac munfold :=
  unfold mbind, M_bind, mret, M_ret, raise, lift, get_world, emit,
    cache_get, cache_set, cache_save, time_time, utcnow, time_gmtime,
    try_except, get_bless_cache, write_file in *.

Lemma bind_Ok {A B} (c : M A) (f : A → M B) w a w' :
  c w = (Ok a, w') → (c ≫= f) w = f a w'.
Proof. intros H. unfold mbind, M_bind. by rewrite H. Qed.

Lemma bind_Raise {A B} (c : M A) (f : A → M B) w e w' :
  c w = (Raise e, w') → (c ≫= f) w = (Raise e, w').
Proof. intros H. unfold mbind, M_bind. by rewrite H. Qed.

(** ** The address lookup *)

Lemma same_effects_refl w : same_effects w w.
Proof. by repeat split. Qed.

Lemma same_effects_tick w : same_effects w (tick w).
Proof. by repeat split. Qed.

Lemma _fetchIP_run env url w :
  ∃ r, _fetchIP env url w = (Ok r, set_calls (w_calls w ++ [CallIPFetch url]) w).
Proof.
  unfold _fetchIP. munfold. simpl.
  destruct (ip_endpoint env (w_calls w) url) as [[status text]|]; [|by eexists].
  case_bool_decide; [|by eexists].
  destruct (all_chars _ _); by eexists.
Qed.

Lemma _refreshIP_loop_run env urls : ∀ ip w,
  ∃ r tried,
    _refreshIP_loop env urls ip w
    = (Ok r, set_calls (w_calls w ++ (CallIPFetch <$> tried)) w)
    ∧ tried `prefix_of` urls
    ∧ (truthy_str ip = false → urls ≠ [] → tried ≠ []).
Proof.
  induction urls as [|url urls IH]; intros ip w; simpl.
  - exists ip, []. munfold. simpl. rewrite app_nil_r. by destruct w.
  - destruct (truthy_str ip) eqn:Hip.
    + exists ip, []. munfold. simpl. rewrite app_nil_r.
      split; [by destruct w|]. split; [apply prefix_nil|done].
    + destruct (_fetchIP_run env url w) as [ip' Hf].
      rewrite (bind_Ok _ _ _ _ _ Hf).
      destruct (IH ip' (set_calls (w_calls w ++ [CallIPFetch url]) w))
        as (r & tried & Hrun & Hpre & _).
      exists r, (url :: tried). rewrite Hrun. simpl.
      rewrite <- app_assoc. simpl. split; [done|].
      split; [by apply prefix_cons|done].
Qed.

Lemma _refreshIP_run env w :
  ∃ tried,
    tried `prefix_of` ip_urls (w_userIP w)
    ∧ (ip_urls (w_userIP w) ≠ [] → tried ≠ [])
    ∧ let calls := (w_calls w ++ (CallIPFetch <$> tried))%list in
      (_refreshIP env w
       = (Raise (Exception_ "Could not refresh public IP"), set_calls calls w)
       ∨ ∃ ip, _refreshIP env w = (Ok (), refreshed env ip calls w)).
Proof.
  destruct (_refreshIP_loop_run env (ip_urls (w_userIP w)) None w)
    as (r & tried & Hrun & Hpre & Hne).
  exists tried. split; [done|]. split; [by apply Hne|].
  unfold _refreshIP. rewrite (bind_Ok _ _ w w w) by done.
  rewrite (bind_Ok _ _ _ _ _ Hrun).
  destruct (truthy_str r) eqn:Hr; simpl.
  - right. destruct r as [ip|]; [|done]. exists ip. by munfold.
  - left. by munfold.
Qed.

(** [getIP] either answers from what it holds, leaving cache, cache file
    and history alone, or runs [_refreshIP]. *)
Lemma getIP_run env w :
  (¬ refresh_needed env w ∧ same_effects w (getIP env w).2)
  ∨ (refresh_needed env w
     ∧ ∃ w1 tried,
         (w1 = w ∨ w1 = tick w)
         ∧ tried `prefix_of` ip_urls (w_userIP w)
         ∧ (ip_urls (w_userIP w) ≠ [] → tried ≠ [])
         ∧ let calls := (w_calls w ++ (CallIPFetch <$> tried))%list in
           (getIP env w
            = (Raise (Exception_ "Could not refresh public IP"), set_calls calls w1)
            ∨ ∃ ip, getIP env w = (Ok (PStr ip), refreshed env ip calls w1))).
Proof.
  assert (∀ w1, (w1 = w ∨ w1 = tick w) →
    ∃ tried,
      tried `prefix_of` ip_urls (w_userIP w)
      ∧ (ip_urls (w_userIP w) ≠ [] → tried ≠ [])
      ∧ let calls := (w_calls w ++ (CallIPFetch <$> tried))%list in
        ((_refreshIP env ≫= λ _, get_world ≫= λ w',
            mret (opt_to_py (currentIP (w_userIP w')))) w1
         = (Raise (Exception_ "Could not refresh public IP"), set_calls calls w1)
         ∨ ∃ ip, (_refreshIP env ≫= λ _, get_world ≫= λ w',
                    mret (opt_to_py (currentIP (w_userIP w')))) w1
                 = (Ok (PStr ip), refreshed env ip calls w1))) as Href.
  { intros w1 Hw1. destruct (_refreshIP_run env w1) as (tried & Hpre & Hne & Hrun).
    assert (w_userIP w1 = w_userIP w ∧ w_calls w1 = w_calls w) as [Hu Hc]
      by (destruct Hw1 as [->| ->]; done).
    rewrite Hu, Hc in *. exists tried. split; [done|]. split; [done|].
    simpl in *. destruct Hrun as [Hrun|[ip Hrun]].
    - left. by rewrite (bind_Raise _ _ _ _ _ Hrun).
    - right. exists ip. by rewrite (bind_Ok _ _ _ _ _ Hrun). }
  unfold refresh_needed, getIP.
  rewrite (bind_Ok _ _ w w w) by done. simpl.
  destruct (fresh (w_userIP w) && truthy_str (currentIP (w_userIP w))) eqn:Hs.
  { left. split; [by intros [? _]|]. apply same_effects_refl. }
  munfold. simpl.
  destruct (truthy (cache_lookup (w_cache w) "lastipchecktime")) eqn:Ht.
  - destruct (cache_lookup (w_cache w) "lastipchecktime") as [[| |t]|] eqn:Hl;
      try (left; split; [intros [_ [?|(? & ? & _)]]; done|apply same_effects_refl]).
    simpl. case_bool_decide as Hyoung.
    + left. split; [|apply same_effects_tick].
      intros [_ [?|(t' & [= <-] & Hold)]]; done.
    + right. split; [split; [done|]; right; by exists t|].
      destruct (Href (tick w)) as (tried & ? & ? & Hrun); [by right|].
      exists (tick w), tried. split; [by right|]. split; [done|]. split; [done|].
      apply Hrun.
  - right. split; [split; [done|by left]|].
    destruct (Href w) as (tried & ? & ? & Hrun); [by left|].
    exists w, tried. split; [by left|]. split; [done|]. split; [done|].
    apply Hrun.
Qed.

Lemma getIP_lookup_other env w key :
  key ≠ "lastip" → key ≠ "lastipchecktime" →
  cache_lookup (w_cache (getIP env w).2) key = cache_lookup (w_cache w) key.
Proof.
  intros Hk1 Hk2.
  destruct (getIP_run env w) as [[_ (Hc & _)]|(_ & w1 & tried & Hw1 & _ & _ & Hrun)].
  - by rewrite Hc.
  - assert (w_cache w1 = w_cache w) as Hc by (destruct Hw1 as [->| ->]; done).
    simpl in Hrun. destruct Hrun as [->|[ip ->]]; simpl; [by rewrite Hc|].
    unfold cache_lookup. simpl. rewrite Hc. destruct (mode (w_cache w)); [|done].
    by rewrite !lookup_insert_ne.
Qed.

(** ** Certificate freshness *)

(** [check_fresh_cert], step by step. *)
Lemma check_fresh_cert_run env cert_file blessconfig ip_list w :
  check_fresh_cert env cert_file blessconfig ip_list w =
  match w_files w !! cert_file with
  | None => (Ok false, w)
  | Some f =>
      if bool_decide (cert_age env w f < Qc_of_Z (certlifetime blessconfig - 15))%Qc
      then
        if bool_decide (cert_age env w f < Qc_of_Z (ipcachelifetime blessconfig))%Qc
        then (Ok (bastion_list_ok ip_list w), tick w)
        else match getIP env (tick w) with
             | (Ok ip, w2) =>
                 (Ok (py_eq (cache_lookup (w_cache w) "certip") ip
                      && bastion_list_ok ip_list w2), w2)
             | (Raise e, w2) => (Raise e, w2)
             end
      else (Ok false, tick w)
  end.
Proof.
  unfold check_fresh_cert, cert_age, bastion_list_ok.
  rewrite (bind_Ok _ _ w w w) by done.
  destruct (w_files w !! cert_file) as [f|]; [|done].
  munfold. simpl.
  destruct (bool_decide (_ < Qc_of_Z (certlifetime blessconfig - 15))%Qc); [|done].
  destruct (bool_decide (_ < Qc_of_Z (ipcachelifetime blessconfig))%Qc); simpl.
  - destruct (bool_decide (ip_list = PNone)); simpl; [done|].
    by destruct (py_eq _ _).
  - destruct (getIP env (tick w)) as [[ip|e] w2]; [|done].
    destruct (py_eq (cache_lookup (w_cache w) "certip") ip); simpl; [|done].
    destruct (bool_decide (ip_list = PNone)); simpl; [done|].
    by destruct (py_eq _ _).
Qed.

Lemma bastion_list_ok_true ip_list w :
  bastion_list_ok ip_list w = true
  ↔ ip_list = PNone ∨ ip_list = cache_lookup (w_cache w) "bastion_ips".
Proof.
  unfold bastion_list_ok, py_eq. rewrite orb_true_iff, !bool_decide_eq_true. done.
Qed.

Lemma bastion_list_ok_getIP env ip_list w :
  bastion_list_ok ip_list (getIP env (tick w)).2 = bastion_list_ok ip_list w.
Proof.
  unfold bastion_list_ok. by rewrite getIP_lookup_other.
Qed.

(** C1 (as amended).  [check_fresh_cert] returns true exactly when the
    certificate file exists, its age is below [certlifetime - 15], the age
    is below [ipcachelifetime] or the cached ['certip'] is the current
    address, and the bastion list, when one is given, is the cached
    ['bastion_ips'].  Otherwise it returns false, unless it had to ask for
    the current address and [getIP] raised: then it raises that error. *)
Theorem check_fresh_cert_spec env cert_file blessconfig ip_list w :
  let r := (check_fresh_cert env cert_file blessconfig ip_list w).1 in
  (r = Ok true ↔ fresh_conditions env cert_file blessconfig ip_list w)
  ∧ (r = Ok true ∨ r = Ok false
     ∨ ∃ e, r = Raise e
            ∧ ip_lookup_reached env cert_file blessconfig w
            ∧ (getIP env (tick w)).1 = Raise e).
Proof.
  rewrite check_fresh_cert_run. unfold fresh_conditions, ip_lookup_reached.
  destruct (w_files w !! cert_file) as [f|] eqn:Hf; simpl;
    [|split; [split; [done|by intros (? & ? & _)]|by right; left]].
  case_bool_decide as Hlife; simpl;
    [|split; [split; [done|intros (? & [= <-] & ? & _); done]|by right; left]].
  case_bool_decide as Hcache; simpl.
  - split; [|destruct (bastion_list_ok ip_list w); auto].
    split.
    + intros [= Hr]. apply bastion_list_ok_true in Hr. exists f. auto.
    + intros (f' & _ & _ & _ & Hl). f_equal. by apply bastion_list_ok_true.
  - pose proof (bastion_list_ok_getIP env ip_list w) as Hb.
    destruct (getIP env (tick w)) as [[ip|e] w2] eqn:Hip; simpl in *.
    + rewrite Hb. clear Hb.
      split; [|destruct (_ && _); auto].
      unfold py_eq. split.
      * intros [= Hr]. apply andb_true_iff in Hr as [Hc Hl].
        apply bool_decide_eq_true in Hc. apply bastion_list_ok_true in Hl.
        exists f. split; [done|]. split; [done|]. split; [|done].
        right. by exists ip.
      * intros (f' & [= <-] & _ & [?|(ip' & [= <-] & Hc)] & Hl); [done|].
        apply bastion_list_ok_true in Hl.
        f_equal. apply andb_true_iff. by rewrite bool_decide_eq_true.
    + split.
      * split; [done|].
        intros (f' & [= <-] & _ & [?|(ip' & ? & _)] & _); done.
      * right; right. exists e. split; [done|]. split; [|done].
        exists f. done.
Qed.

(** With no address service in reach and a certificate older than the
    address cache, the check raises instead of returning false. *)
Lemma check_fresh_cert_raises :
  ¬ fresh_conditions offline_env sample_cert_file sample_lambda_config PNone
      sample_world
  ∧ (check_fresh_cert offline_env sample_cert_file sample_lambda_config PNone
       sample_world).1
    = Raise (Exception_ "Could not refresh public IP").
Proof.
  split; [|by vm_compute].
  intros (f & Hf & _ & [Hage|(ip & Hip & _)] & _).
  - vm_compute in Hf. injection Hf as <-. by vm_compute in Hage.
  - by vm_compute in Hip.
Qed.

(** C5 (as amended).  [check_fresh_cert] leaves the cache, the cache file
    and the history of requests as they were whenever it does not have to
    ask the address services: the file is missing or too old, or younger
    than [ipcachelifetime], or the resolver holds an address, or the cached
    address record is younger than [maxcachetime].  Otherwise it runs
    [_refreshIP]: it sends requests to configured address services, at
    least one when any is configured, and when it then returns, the address
    and the time of the check are in the cache and in the cache file. *)
Theorem check_fresh_cert_effects env cert_file blessconfig ip_list w :
  let run := check_fresh_cert env cert_file blessconfig ip_list w in
  (¬ (ip_lookup_reached env cert_file blessconfig w
      ∧ refresh_needed env (tick w)) →
   same_effects w run.2)
  ∧ (ip_lookup_reached env cert_file blessconfig w →
     refresh_needed env (tick w) →
     ∃ tried,
       tried `prefix_of` ip_urls (w_userIP w)
       ∧ (ip_urls (w_userIP w) ≠ [] → tried ≠ [])
       ∧ w_calls run.2 = (w_calls w ++ (CallIPFetch <$> tried))%list
       ∧ ∀ b, run.1 = Ok b →
           ∃ ip t,
             store (w_cache run.2)
             = <["lastipchecktime" := PNum t]>
                 (<["lastip" := PStr ip]> (store (w_cache w)))
             ∧ w_disk run.2 = store (w_cache run.2)).
Proof.
  simpl. rewrite check_fresh_cert_run. unfold ip_lookup_reached.
  destruct (w_files w !! cert_file) as [f|] eqn:Hf;
    [|split; [intros _; apply same_effects_refl|by intros (? & ? & _)]].
  case_bool_decide as Hlife;
    [|split; [intros _; apply same_effects_tick
             |intros (? & [= <-] & ? & _); done]].
  case_bool_decide as Hcache;
    [split; [intros _; apply same_effects_tick
            |intros (? & [= <-] & _ & ?); done]|].
  destruct (getIP_run env (tick w))
    as [[Hno Hsame]|(Hneed & w1 & tried & Hw1 & Hpre & Hne & Hrun)].
  - split; [|done]. intros _.
    destruct (getIP env (tick w)) as [[ip|e] w2]; apply Hsame.
  - split; [intros []; split; [by exists f|done]|].
    intros _ _. exists tried. split; [done|]. split; [done|].
    assert (w_cache w1 = w_cache w) as Hc by (destruct Hw1 as [->| ->]; done).
    simpl in Hrun. destruct Hrun as [->|[ip ->]]; simpl.
    + split; [done|]. by intros b.
    + split; [done|]. intros b _. rewrite Hc. eauto.
Qed.

(** On a first run with a ten-minute-old certificate the check asks the
    address service and stores its answer. *)
Lemma check_fresh_cert_asks_address :
  w_calls sample_world = []
  ∧ w_calls (check_fresh_cert sample_env sample_cert_file sample_lambda_config
               PNone sample_world).2
    = [CallIPFetch "http://checkip.example.com"]
  ∧ store (w_cache sample_world) !! "lastip" = None
  ∧ store (w_cache (check_fresh_cert sample_env sample_cert_file
                      sample_lambda_config PNone sample_world).2) !! "lastip"
    = Some (PStr "203.0.113.5")
  ∧ w_disk sample_world !! "lastip" = None
  ∧ w_disk (check_fresh_cert sample_env sample_cert_file sample_lambda_config
              PNone sample_world).2 !! "lastip"
    = Some (PStr "203.0.113.5").
Proof. by vm_compute. Qed.

(** ** Cached role credentials *)

(** Comparing a parsed expiration with the clock compares their calendar
    stamps, strictly: on equal stamps the [tm_isdst] of the parsed time,
    -1, is below that of the clock, 0. *)
Lemma tm_gt_stamp env s expiration z :
  calendar_ok env →
  time_strptime env s = Some expiration →
  tm_gt expiration (gmtime_of env z)
  = tuple_ltb (stamp (gmtime_of env z)) (stamp expiration).
Proof.
  intros (wday & yday & Hparse & Hclock) Hs.
  destruct (Hparse _ _ Hs) as (Hd & Hw & Hy).
  destruct (Hclock z) as (Hd' & Hw' & Hy'). simpl in *.
  unfold tm_gt, tm_fields, stamp. rewrite Hd, Hd', Hw, Hw', Hy, Hy'.
  generalize (gmtime_of env z). intros now. simpl.
  repeat match goal with
  | |- (if (?a <? ?b)%Z then _ else _) = (if (?a <? ?b)%Z then _ else _) =>
      destruct (Z.ltb_spec a b); [done|]
  end.
  assert (tm_year now = tm_year expiration) as -> by lia.
  assert (tm_mon now = tm_mon expiration) as -> by lia.
  assert (tm_mday now = tm_mday expiration) as -> by lia.
  by rewrite !Z.ltb_irrefl.
Qed.

(** The role-assumption path sends the [assume_role] request unless the
    caller's identity cannot be resolved; it never returns without it. *)
Lemma assume_blessrole_run env lambda_config w :
  let run := assume_blessrole env lambda_config w in
  role_assumed w run.2
  ∨ (∃ e, run.1 = Raise e ∧ identity_failed env e w run.2).
Proof.
  unfold assume_blessrole, role_assumed, identity_failed. munfold. simpl.
  destruct (truthy (cache_lookup (w_cache w) "userarn")) eqn:Ht; simpl.
  - destruct (cache_lookup (w_cache w) "userarn") as [[|arn|]|]; simpl;
      try (right; eexists; split; [done|by left]).
    left. exists [], (get_role_arn env arn (userrole lambda_config)
                        (accountid lambda_config)).
    by destruct (sts_assume_role env _ _).
  - destruct (iam_get_user env (w_calls w)) as [[UserName Arn]|e] eqn:Hu; simpl.
    + left. exists [CallGetUser], (get_role_arn env Arn (userrole lambda_config)
                                     (accountid lambda_config)).
      destruct (sts_assume_role env _ _); simpl; by rewrite <- app_assoc.
    + right. exists e. split; [done|]. by right.
Qed.

Lemma assume_blessrole_resolved env lambda_config w :
  identity_resolved env w →
  role_assumed w (assume_blessrole env lambda_config w).2.
Proof.
  unfold identity_resolved, assume_blessrole, role_assumed. munfold. simpl.
  intros [(arn & -> & Harn)|(Hf & [UserName Arn] & Hu)]; simpl.
  - rewrite bool_decide_false by done. simpl.
    exists [], (get_role_arn env arn (userrole lambda_config)
                  (accountid lambda_config)).
    by destruct (sts_assume_role env _ _).
  - rewrite Hf. simpl. rewrite Hu. simpl.
    exists [CallGetUser], (get_role_arn env Arn (userrole lambda_config)
                             (accountid lambda_config)).
    destruct (sts_assume_role env _ _); simpl; by rewrite <- app_assoc.
Qed.

Lemma assume_blessrole_Ok_calls env lambda_config w c w' :
  assume_blessrole env lambda_config w = (Ok c, w') → w_calls w' ≠ w_calls w.
Proof.
  intros Hrun. pose proof (assume_blessrole_run env lambda_config w) as Hr.
  rewrite Hrun in Hr. simpl in Hr.
  destruct Hr as [(pre & arn & ->)|(e & ? & _)]; [|done].
  intros Heq. apply (f_equal length) in Heq.
  rewrite !length_app in Heq. simpl in Heq. lia.
Qed.

Lemma get_blessrole_credentials_run env lambda_config w :
  get_blessrole_credentials env lambda_config w =
  let entry := cache_lookup (w_cache w) "blessrole_creds" in
  if truthy entry then
    match entry with
    | PDict d =>
        match d !! "Expiration" with
        | Some (AStr s) =>
            match time_strptime env s with
            | Some expiration =>
                if tm_gt expiration (gmtime_now env w)
                then (Ok (FromCache d expiration), tick w)
                else assume_blessrole env lambda_config (tick w)
            | None => (Raise (ValueError s), w)
            end
        | Some _ => (Raise TypeError, w)
        | None => (Raise (KeyError "Expiration"), w)
        end
    | _ => (Raise (AttributeError "keys"), w)
    end
  else assume_blessrole env lambda_config w.
Proof.
  unfold get_blessrole_credentials, uncache_creds, gmtime_now. munfold. simpl.
  destruct (truthy (cache_lookup (w_cache w) "blessrole_creds")) eqn:Ht;
    [|by rewrite Ht].
  destruct (cache_lookup (w_cache w) "blessrole_creds") as [a|d]; [done|].
  destruct (d !! "Expiration") as [[|s|]|]; [done| |done|by rewrite Ht].
  destruct (time_strptime env s) as [expiration|]; [|done].
  by destruct (tm_gt expiration _).
Qed.

(** C6.  [get_blessrole_credentials] returns without sending any request
    exactly when the cache holds a ['blessrole_creds'] record whose
    expiration is strictly later than the current time, and it then returns
    that record.  A record whose expiration is the current time or earlier
    is handled like a missing one: the function goes on to assume the role,
    and sends the [assume_role] request once the caller's identity is
    resolved. *)
Theorem get_blessrole_credentials_cached env lambda_config w :
  calendar_ok env →
  let run := get_blessrole_credentials env lambda_config w in
  ((∃ c, run.1 = Ok c ∧ w_calls run.2 = w_calls w)
   ↔ ∃ d expiration, cached_until env "blessrole_creds" w d expiration
                     ∧ before_expiration env w expiration = true)
  ∧ (∀ d expiration,
       cached_until env "blessrole_creds" w d expiration →
       before_expiration env w expiration = true →
       run = (Ok (FromCache d expiration), tick w))
  ∧ (∀ d expiration,
       cached_until env "blessrole_creds" w d expiration →
       before_expiration env w expiration = false →
       run = assume_blessrole env lambda_config (tick w)
       ∧ (identity_resolved env w → role_assumed w run.2)
       ∧ (role_assumed w run.2
          ∨ ∃ e, run.1 = Raise e ∧ identity_failed env e (tick w) run.2))
  ∧ (cache_lookup (w_cache w) "blessrole_creds" = PNone →
     run = assume_blessrole env lambda_config w
     ∧ (identity_resolved env w → role_assumed w run.2)).
Proof.
  intros Hcal. cbv zeta. rewrite get_blessrole_credentials_run.
  unfold cached_until, before_expiration, gmtime_now. cbv zeta.
  assert (∀ d s, d !! "Expiration" = Some (AStr s) → truthy (PDict d) = true)
    as Htruthy.
  { intros d s Hd. simpl. rewrite bool_decide_false; [done|]. by intros ->. }
  split; [|split; [|split]].
  - split.
    + intros (c & Hr & Hcalls).
      destruct (truthy (cache_lookup (w_cache w) "blessrole_creds")) eqn:Ht.
      * destruct (cache_lookup (w_cache w) "blessrole_creds") as [a|d]; [done|].
        destruct (d !! "Expiration") as [[|s|]|] eqn:Hd; try done.
        destruct (time_strptime env s) as [expiration|] eqn:Hs; [|done].
        rewrite (tm_gt_stamp env s) in Hr, Hcalls by done.
        destruct (tuple_ltb _ (stamp expiration)) eqn:Hlt.
        -- exists d, expiration. split; [by exists s|done].
        -- destruct (assume_blessrole env lambda_config (tick w))
             as [[c'|e] w'] eqn:Ha; [|done].
           by apply assume_blessrole_Ok_calls in Ha.
      * destruct (assume_blessrole env lambda_config w) as [[c'|e] w'] eqn:Ha;
          [|done].
        by apply assume_blessrole_Ok_calls in Ha.
    + intros (d & expiration & (s & -> & Hd & Hs) & Hlt).
      rewrite (Htruthy d s), Hd, Hs, (tm_gt_stamp env s), Hlt by done.
      by exists (FromCache d expiration).
  - intros d expiration (s & -> & Hd & Hs) Hlt.
    by rewrite (Htruthy d s), Hd, Hs, (tm_gt_stamp env s), Hlt.
  - intros d expiration (s & -> & Hd & Hs) Hlt.
    rewrite (Htruthy d s), Hd, Hs, (tm_gt_stamp env s), Hlt by done.
    split; [done|]. split.
    + intros Hid. by apply (assume_blessrole_resolved env lambda_config (tick w)).
    + destruct (assume_blessrole_run env lambda_config (tick w)) as [Hr|Hr];
        [by left|by right].
  - intros ->. split; [done|]. apply assume_blessrole_resolved.
Qed.

Lemma sample_calendar_ok : calendar_ok sample_env.
Proof.
  exists (λ y _ _, if bool_decide (y = 2016)%Z then 4 else 3)%Z, (λ _ _ _, 1%Z).
  split.
  - intros s t. simpl. unfold sample_strptime.
    destruct (sample_parse s) as [[[h m] sec]|]; simpl; [|done].
    by intros [= <-].
  - intros z. simpl. unfold sample_gmtime. by case_bool_decide.
Qed.

(** An expiration one second ahead is valid; an expiration equal to the
    current second is not. *)
Lemma get_blessrole_credentials_cached_witness :
  get_blessrole_credentials sample_env sample_role_config
    (world_with_creds "20160101T010001Z")
  = (Ok (FromCache (sample_creds "20160101T010001Z") (sample_time 1 0 1)),
     tick (world_with_creds "20160101T010001Z"))
  ∧ get_blessrole_credentials sample_env sample_role_config
      (world_with_creds "20160101T010000Z")
    = assume_blessrole sample_env sample_role_config
        (tick (world_with_creds "20160101T010000Z")).
Proof.
  split.
  - destruct (get_blessrole_credentials_cached sample_env sample_role_config
                (world_with_creds "20160101T010001Z") sample_calendar_ok)
      as (_ & Hvalid & _).
    apply Hvalid.
    + exists "20160101T010001Z". by vm_compute.
    + by vm_compute.
  - destruct (get_blessrole_credentials_cached sample_env sample_role_config
                (world_with_creds "20160101T010000Z") sample_calendar_ok)
      as (_ & _ & Hexpired & _).
    apply (Hexpired (sample_creds "20160101T010000Z") (sample_time 1 0 0)).
    + exists "20160101T010000Z". by vm_compute.
    + by vm_compute.
Defined.

(** ** kmsauth tokens *)

Lemma mint_kmsauth_token_run env config username w :
  mint_kmsauth_token env config username w =
  let calls := (w_calls w ++ [CallMintToken (kmskey config) (awsregion config)
                                username])%list in
  match kms_get_token env (w_calls w) (kmsauth_config_for config username) with
  | Raise ServiceConnectionError =>
      (Raise (LambdaInvocationException "Connection error getting kmsauth token."),
       set_calls calls w)
  | Raise e => (Raise e, set_calls calls w)
  | Ok token =>
      let lifetime := (60 - TOKEN_SKEW env * 2)%Z in
      if bool_decide (0 < lifetime)%Z then
        (Ok (AStr token),
         cached_and_saved (kmsauth_cache_key config)
           (kmsauth_record token
              (utc_strftime env
                 (Qc_floor (clock env (w_ticks w)) + 60 * lifetime)%Z))
           (tick (set_calls calls w)))
      else (Ok (AStr token), set_calls calls w)
  end.
Proof.
  unfold mint_kmsauth_token, kmsauth_config_for. munfold. simpl.
  destruct (kms_get_token env _ _) as [token|e]; simpl.
  - by case_bool_decide.
  - by destruct e.
Qed.

Lemma get_kmsauth_token_run env config username w :
  get_kmsauth_token env config username w =
  let entry := cache_lookup (w_cache w) (kmsauth_cache_key config) in
  if truthy entry then
    match entry with
    | PDict d =>
        match d !! "Expiration" with
        | None => (Raise (KeyError "Expiration"), w)
        | Some (AStr s) =>
            match time_strptime env s with
            | None => (Raise (ValueError s), w)
            | Some expiration =>
                if tm_gt expiration (gmtime_now env w) then
                  match d !! "token" with
                  | None => (Raise (KeyError "token"), tick w)
                  | Some ANone => mint_kmsauth_token env config username (tick w)
                  | Some token => (Ok token, tick w)
                  end
                else mint_kmsauth_token env config username (tick w)
            end
        | Some _ => (Raise TypeError, w)
        end
    | _ => (Raise TypeError, w)
    end
  else mint_kmsauth_token env config username w.
Proof.
  unfold get_kmsauth_token, gmtime_now. munfold. simpl.
  destruct (truthy (cache_lookup (w_cache w) (kmsauth_cache_key config)));
    [|done].
  destruct (cache_lookup (w_cache w) (kmsauth_cache_key config)) as [a|d];
    [done|].
  destruct (d !! "Expiration") as [[|s|]|]; try done.
  destruct (time_strptime env s) as [expiration|]; [|done].
  destruct (tm_gt expiration _); [|done].
  by destruct (d !! "token") as [[| |]|].
Qed.

Lemma get_kmsauth_token_mints env config username w w1 :
  mint_needed env config w w1 →
  get_kmsauth_token env config username w
  = mint_kmsauth_token env config username w1.
Proof.
  rewrite get_kmsauth_token_run. cbv zeta.
  intros [[Hf ->]|(d & expiration & (s & He & Hd & Hs) & -> & Hexp)].
  - by rewrite Hf.
  - rewrite He. simpl. rewrite bool_decide_false by (by intros ->). simpl.
    rewrite Hd, Hs. by destruct Hexp as [->|[-> ->]].
Qed.

(** C8.  When [get_kmsauth_token] mints a token, it returns it; with a
    lifetime [60 - 2 * TOKEN_SKEW] of zero or less the cache and the cache
    file stay as they were, and with a positive lifetime the token and its
    expiration, the time of minting plus the lifetime in minutes, are set
    under the region's key and the cache is saved before the return. *)
Theorem get_kmsauth_token_caching env config username w w1 token :
  mint_needed env config w w1 →
  kms_get_token env (w_calls w1) (kmsauth_config_for config username) = Ok token →
  let run := get_kmsauth_token env config username w in
  let lifetime := (60 - 2 * TOKEN_SKEW env)%Z in
  run.1 = Ok (AStr token)
  ∧ ((lifetime ≤ 0)%Z →
     w_cache run.2 = w_cache w ∧ w_disk run.2 = w_disk w)
  ∧ ((0 < lifetime)%Z →
     store (w_cache run.2)
     = <[kmsauth_cache_key config :=
           kmsauth_record token
             (utc_strftime env
                (Qc_floor (clock env (w_ticks w1)) + 60 * lifetime)%Z)]>
         (store (w_cache w))
     ∧ w_disk run.2 = store (w_cache run.2)).
Proof.
  intros Hneed Htoken. cbv zeta.
  rewrite (get_kmsauth_token_mints env config username w w1 Hneed).
  rewrite mint_kmsauth_token_run. cbv zeta. rewrite Htoken.
  assert (w_cache w1 = w_cache w ∧ w_disk w1 = w_disk w) as [Hc Hd]
    by (by destruct Hneed as [[_ ->]|(? & ? & _ & -> & _)]).
  replace (60 - TOKEN_SKEW env * 2)%Z with (60 - 2 * TOKEN_SKEW env)%Z by lia.
  case_bool_decide as Hl; simpl.
  - split; [done|]. split; [lia|]. intros _. by rewrite Hc.
  - split; [done|]. split; [done|lia].
Qed.

(** With a skew of 3 minutes the token is cached for 54 minutes; with a skew
    of 30 minutes it is not cached. *)
Lemma get_kmsauth_token_caching_witness :
  (let run := get_kmsauth_token sample_env (sample_kmsauth_config "us-east-1")
                "alice" sample_world in
   run.1 = Ok (AStr "kmsauth-token")
   ∧ store (w_cache run.2)
     = <["kmsauth-us-east-1" :=
           kmsauth_record "kmsauth-token" "20160101T015400Z"]> ∅)
  ∧ (let run := get_kmsauth_token (with_TOKEN_SKEW 30 sample_env)
                  (sample_kmsauth_config "us-east-1") "alice" sample_world in
     run.1 = Ok (AStr "kmsauth-token")
     ∧ w_cache run.2 = w_cache sample_world
     ∧ w_disk run.2 = w_disk sample_world).
Proof.
  split.
  - destruct (get_kmsauth_token_caching sample_env
                (sample_kmsauth_config "us-east-1") "alice" sample_world
                sample_world "kmsauth-token") as (Hr & _ & Hpos).
    + left. by vm_compute.
    + reflexivity.
    + split; [exact Hr|]. destruct Hpos as [Hst _]; [by vm_compute|].
      exact Hst.
  - destruct (get_kmsauth_token_caching (with_TOKEN_SKEW 30 sample_env)
                (sample_kmsauth_config "us-east-1") "alice" sample_world
                sample_world "kmsauth-token") as (Hr & Hnonpos & _).
    + left. by vm_compute.
    + reflexivity.
    + split; [exact Hr|]. apply Hnonpos. by vm_compute.
Defined.

(** ** Entries without a usable expiration *)

(** C7 (as amended).  A cached role credential or kmsauth token whose
    ['Expiration'] is missing from a non-empty record, is not a string, or
    does not parse, is never returned as valid, and it is not treated as
    absent either: the lookup raises [KeyError], [TypeError] or
    [ValueError], sends no request and leaves the world as it was.  Only a
    missing or empty entry leads on to a fresh credential or token. *)
Theorem unusable_expiration_raises env lambda_config config username w :
  let creds := get_blessrole_credentials env lambda_config w in
  let token := get_kmsauth_token env config username w in
  (∀ d, cache_lookup (w_cache w) "blessrole_creds" = PDict d →
     (d ≠ ∅ → d !! "Expiration" = None →
      creds = (Raise (KeyError "Expiration"), w))
     ∧ (∀ a, d !! "Expiration" = Some a → (∀ s, a ≠ AStr s) →
        creds = (Raise TypeError, w))
     ∧ (∀ s, d !! "Expiration" = Some (AStr s) → time_strptime env s = None →
        creds = (Raise (ValueError s), w))
     ∧ (d = ∅ → creds = assume_blessrole env lambda_config w))
  ∧ (∀ d, cache_lookup (w_cache w) (kmsauth_cache_key config) = PDict d →
     (d ≠ ∅ → d !! "Expiration" = None →
      token = (Raise (KeyError "Expiration"), w))
     ∧ (∀ a, d !! "Expiration" = Some a → (∀ s, a ≠ AStr s) →
        token = (Raise TypeError, w))
     ∧ (∀ s, d !! "Expiration" = Some (AStr s) → time_strptime env s = None →
        token = (Raise (ValueError s), w))
     ∧ (d = ∅ → token = mint_kmsauth_token env config username w))
  ∧ (cache_lookup (w_cache w) "blessrole_creds" = PNone →
     creds = assume_blessrole env lambda_config w)
  ∧ (cache_lookup (w_cache w) (kmsauth_cache_key config) = PNone →
     token = mint_kmsauth_token env config username w).
Proof.
  cbv zeta. rewrite get_blessrole_credentials_run, get_kmsauth_token_run.
  cbv zeta.
  assert (∀ d : gmap string atom, d ≠ ∅ → truthy (PDict d) = true) as Hne.
  { intros d Hd. simpl. by rewrite bool_decide_false. }
  assert (∀ (d : gmap string atom) a, d !! "Expiration" = Some a → d ≠ ∅)
    as Hsome by (by intros d a Hd ->).
  split; [|split; [|split]].
  - intros d ->. split; [|split; [|split]].
    + intros Hd He. by rewrite Hne, He.
    + intros a He Ha. rewrite (Hne d (Hsome d a He)), He.
      destruct a as [|s|q]; [done| |done]. by destruct (Ha s).
    + intros s He Hs. by rewrite (Hne d (Hsome d _ He)), He, Hs.
    + by intros ->.
  - intros d ->. split; [|split; [|split]].
    + intros Hd He. by rewrite Hne, He.
    + intros a He Ha. rewrite (Hne d (Hsome d a He)), He.
      destruct a as [|s|q]; [done| |done]. by destruct (Ha s).
    + intros s He Hs. by rewrite (Hne d (Hsome d _ He)), He, Hs.
    + by intros ->.
  - by intros ->.
  - by intros ->.
Qed.

(** A credential without ['Expiration'] and a token with an unparsable one
    make the lookups raise. *)
Lemma unusable_expiration_not_absent :
  cache_lookup (w_cache (world_with "blessrole_creds"
                           (PDict {["AccessKeyId" := AStr "AKIA"]})))
    "blessrole_creds"
  = PDict {["AccessKeyId" := AStr "AKIA"]}
  ∧ get_blessrole_credentials sample_env sample_role_config
      (world_with "blessrole_creds" (PDict {["AccessKeyId" := AStr "AKIA"]}))
    = (Raise (KeyError "Expiration"),
       world_with "blessrole_creds" (PDict {["AccessKeyId" := AStr "AKIA"]}))
  ∧ time_strptime sample_env "next week" = None
  ∧ get_kmsauth_token sample_env (sample_kmsauth_config "us-east-1") "alice"
      (world_with "kmsauth-us-east-1" (kmsauth_record "old-token" "next week"))
    = (Raise (ValueError "next week"),
       world_with "kmsauth-us-east-1" (kmsauth_record "old-token" "next week")).
Proof. by vm_compute. Qed.

(** ** Signing responses *)

Lemma errorType_is_JObj members name :
  errorType_is (JObj members) name
  = Ok (match obj_get "errorType" members with
        | Some (JStr s) => bool_decide (s = name)
        | _ => false
        end).
Proof. done. Qed.

Lemma errorType_is_other members name :
  errorType_other members →
  name = "KMSAuthValidationError" ∨ name = "ClientError"
  ∨ name = "InputValidationError" →
  errorType_is (JObj members) name = Ok false.
Proof.
  intros Hother Hname. rewrite errorType_is_JObj. f_equal.
  destruct (obj_get "errorType" members) as [[| | |s| |]|] eqn:Hget; try done.
  apply bool_decide_eq_false. intros ->.
  destruct (Hother name Hget) as (? & ? & ?).
  destruct Hname as [?|[?|?]]; done.
Qed.

(** An unparsable response ends the checks with a JSON error; an error
    object of an unknown type ends them with the [LambdaInvocationException]
    that quotes the response.  Neither touches the world. *)
Lemma bless_check_response_unparsable env nocache config cert w :
  str_take 29 cert ≠ CERT_PREFIX →
  json_loads env cert = None →
  bless_check_response env nocache config cert w
  = (Raise (JSONDecodeError cert), w).
Proof.
  intros Hp Hj. unfold bless_check_response.
  by rewrite bool_decide_false, Hj.
Qed.

Lemma bless_check_response_other env nocache config cert members w :
  str_take 29 cert ≠ CERT_PREFIX →
  json_loads env cert = Some (JObj members) →
  errorType_other members →
  bless_check_response env nocache config cert w = (Raise (no_valid_cert cert), w).
Proof.
  intros Hp Hj Hother. unfold bless_check_response.
  rewrite bool_decide_false, Hj by done. cbn [negb].
  rewrite !errorType_is_other by auto. by munfold.
Qed.



(** ** The region loop of [main] *)

Lemma main_attempt_bless env args cfg region :
  lower (ca_backend cfg) = "bless" →
  main_attempt env args cfg region
  = (bless env region true (args_gui args) (args_host args) cfg None;; mret ()).
Proof.
  intros Hb. unfold main_attempt. rewrite Hb.
  rewrite bool_decide_false by done. by rewrite bool_decide_true.
Qed.

(** One turn of the loop: success ends it, an error of the [except] clauses
    moves on to the next region, any other error leaves [main]. *)
Lemma main_loop_step env args cfg region regions w :
  main_loop env args cfg (region :: regions) w =
  match main_attempt env args cfg region w with
  | (Ok _, w') => (Ok true, w')
  | (Raise e, w') =>
      if main_catches e then main_loop env args cfg regions w'
      else (Raise e, w')
  end.
Proof.
  simpl. unfold try_except. munfold.
  destruct (main_attempt env args cfg region w) as [[[]|e] w']; [done|].
  by destruct (main_catches e).
Qed.

(** With [nocache] true, [bless] goes from its setup straight to the
    signing request: the freshness of the installed certificate is not
    looked at. *)
Lemma bless_nocache_run env region showgui hostname cfg username w p w1 :
  bless_setup env region true showgui hostname username w = (Ok p, w1) →
  bless env region true showgui hostname cfg username w
  = (cert ← bless_send env region cfg p;
     bless_check_response env true (p_kmsauth_config p) cert;;
     bless_install env cfg p cert) w1.
Proof.
  intros Hs. unfold bless. rewrite (bind_Ok _ _ _ _ _ Hs).
  unfold bless_from_gate. simpl. by munfold.
Qed.

(** C3 (as amended).  In a run of [main] with the 'bless' backend, a
    signing response that does not begin with the certificate prefix and
    does not parse as JSON raises the JSON error out of the loop: no other
    region is tried and the run ends with status 1.  A response that parses
    to an object whose errorType is none of the three known ones raises the
    [LambdaInvocationException] that quotes the raw response; [main]
    catches it and goes on with the next region of the ring. *)
Theorem unclassified_response env args cfg region regions w p w1 cert w2 :
  lower (ca_backend cfg) = "bless" →
  bless_setup env region true (args_gui args) (args_host args) None w
  = (Ok p, w1) →
  bless_send env region cfg p w1 = (Ok cert, w2) →
  str_take 29 cert ≠ CERT_PREFIX →
  (json_loads env cert = None →
   bless env region true (args_gui args) (args_host args) cfg None w
   = (Raise (JSONDecodeError cert), w2)
   ∧ main_loop env args cfg (region :: regions) w
     = (Raise (JSONDecodeError cert), w2)
   ∧ exit_status (main_loop env args cfg (region :: regions) w).1 = 1%Z)
  ∧ (∀ members,
       json_loads env cert = Some (JObj members) →
       errorType_other members →
       bless env region true (args_gui args) (args_host args) cfg None w
       = (Raise (no_valid_cert cert), w2)
       ∧ main_loop env args cfg (region :: regions) w
         = main_loop env args cfg regions w2).
Proof.
  intros Hb Hs Hsend Hp.
  pose proof (bless_nocache_run env region (args_gui args) (args_host args)
                cfg None w p w1 Hs) as Hrun.
  rewrite (bind_Ok _ _ _ _ _ Hsend) in Hrun.
  split.
  - intros Hj.
    rewrite (bind_Raise _ _ _ _ _
               (bless_check_response_unparsable env true _ cert w2 Hp Hj)) in Hrun.
    split; [done|].
    rewrite main_loop_step, main_attempt_bless by done.
    by rewrite (bind_Raise _ _ _ _ _ Hrun).
  - intros members Hj Hother.
    rewrite (bind_Raise _ _ _ _ _
               (bless_check_response_other env true _ cert members w2 Hp Hj Hother))
      in Hrun.
    split; [done|].
    rewrite main_loop_step, main_attempt_bless by done.
    by rewrite (bind_Raise _ _ _ _ _ Hrun).
Qed.

(** The first region answers with an unknown error type: the loop goes on
    with the second. *)
Lemma unclassified_response_witness :
  main_loop busy_east_env sample_args sample_config ["us-east-1"; "us-west-2"]
    sample_world
  = main_loop busy_east_env sample_args sample_config ["us-west-2"]
      (bless_send busy_east_env "us-east-1" sample_config
         (sample_prepared "us-east-1") sample_world).2.
Proof.
  destruct (unclassified_response busy_east_env sample_args sample_config
              "us-east-1" ["us-west-2"] sample_world
              (sample_prepared "us-east-1") sample_world
              (error_doc "ServerBusy")
              (bless_send busy_east_env "us-east-1" sample_config
                 (sample_prepared "us-east-1") sample_world).2)
    as [_ Hobj].
  - by vm_compute.
  - reflexivity.
  - by vm_compute.
  - by vm_compute.
  - apply (Hobj [("errorType", JStr "ServerBusy")]).
    + by vm_compute.
    + intros name. vm_compute. intros [= <-]. done.
Defined.

(** The run of [main] in which the first region answers with an unknown
    error type ends with status 0, after a request to each region. *)
Lemma unclassified_response_retried :
  str_take 29 (error_doc "ServerBusy") ≠ CERT_PREFIX
  ∧ json_loads busy_east_env (error_doc "ServerBusy")
    = Some (JObj [("errorType", JStr "ServerBusy")])
  ∧ lambda_getCert busy_east_env [] "us-east-1"
      (bless_request sample_config (sample_prepared "us-east-1") "ssh-rsa AAAAB3")
    = Ok (error_doc "ServerBusy")
  ∧ exit_status (main busy_east_env sample_args sample_config sample_world).1
    = 0%Z
  ∧ w_calls (main busy_east_env sample_args sample_config sample_world).2
    = [CallLambdaInvoke "us-east-1"
         (bless_request sample_config (sample_prepared "us-east-1")
            "ssh-rsa AAAAB3");
       CallLambdaInvoke "us-west-2"
         (bless_request sample_config (sample_prepared "us-west-2")
            "ssh-rsa AAAAB3");
       CallSshAgentRemove "/home/alice/.ssh/blessid";
       CallSshAgentAdd "/home/alice/.ssh/blessid"].
Proof. by vm_compute. Qed.

(** ** What a run of [bless] keeps *)

Lemma bless_check_response_nocache env config cert w :
  (bless_check_response env true config cert w).2 = w.
Proof.
  unfold bless_check_response. case_bool_decide; simpl; [done|].
  destruct (json_loads env cert) as [error_msg|]; [|done].
  munfold.
  destruct (errorType_is error_msg "KMSAuthValidationError") as [kms|];
    simpl; [|done].
  rewrite andb_false_r.
  destruct (errorType_is error_msg "ClientError") as [[]|]; simpl; try done.
  by destruct (errorType_is error_msg "InputValidationError") as [[]|].
Qed.

Lemma read_public_key_run env p w :
  ∃ w', read_public_key env (p_identity_file p) (p_identity_file p ++ ".pub") w
        = (Ok (public_key_in env p w), w')
        ∧ w_cache w' = w_cache w ∧ w_calls w' = w_calls w.
Proof.
  unfold read_public_key, public_key_in, generate_ssh_key. munfold. simpl.
  destruct (w_files w !! (p_identity_file p ++ ".pub")) as [f|]; [by eexists|].
  rewrite lookup_insert_eq. by eexists.
Qed.

Arguments read_public_key : simpl never.
Arguments str_take : simpl never.
Arguments bless_send : simpl never.
Arguments bless_install : simpl never.
Arguments bless_check_response : simpl never.

Lemma bless_send_run env region cfg p w :
  ∃ r w2,
    bless_send env region cfg p w = (r, w2)
    ∧ store (w_cache w2)
      = <["remote_ip" := p_ip p]>
          (<["bastion_ips" := p_ip_list p]> (store (w_cache w)))
    ∧ (str_take 8 (public_key_in env p w) = "ssh-rsa " →
       w_calls w2
       = (w_calls w ++ [CallLambdaInvoke region
                          (bless_request cfg p (public_key_in env p w))])%list).
Proof.
  unfold bless_send. munfold. simpl.
  match goal with
  | |- context [read_public_key env ?a ?b ?w0] =>
      destruct (read_public_key_run env p w0) as (w' & Hread & Hc & Hcalls);
      change (public_key_in env p w0) with (public_key_in env p w) in Hread;
      rewrite Hread
  end.
  case_bool_decide as Hpk; simpl.
  - destruct (lambda_getCert env _ _ _) as [cert|e]; simpl;
      eexists _, _; (split; [done|]); simpl; rewrite Hc, Hcalls; done.
  - eexists _, _. split; [done|]. by rewrite Hc.
Qed.

Lemma bless_install_run env cfg p cert w :
  ∃ w' added,
    bless_install env cfg p cert w = (Ok (p_username p), w')
    ∧ store (w_cache w') = <["certip" := p_my_ip p]> (store (w_cache w))
    ∧ w_calls w' = (w_calls w ++ added)%list.
Proof.
  unfold bless_install. munfold. simpl.
  destruct (update_sshagent cfg); simpl; eexists _, _;
    (split; [done|]); simpl; (split; [done|]); try rewrite <- app_assoc; done.
Qed.

(** C10.  In a run of [main] with the 'bless' backend every call of
    [bless] has [nocache] true.  Such a call goes from its setup straight
    to the signing request: the freshness check is not run, so the request
    is sent whatever certificate is installed, once the setup has succeeded
    and the public key is an RSA key.  And the token purge is not run
    either: whatever the response, the checks leave the world as it is, and
    the kmsauth entry of the region is after the attempt what it was after
    the setup. *)
Theorem main_always_nocache env args cfg region :
  lower (ca_backend cfg) = "bless" →
  let setup := bless_setup env region true (args_gui args) (args_host args)
                 None in
  main_attempt env args cfg region
  = (bless env region true (args_gui args) (args_host args) cfg None;; mret ())
  ∧ (∀ w, main_attempt env args cfg region w
          = ((p ← setup;
              cert ← bless_send env region cfg p;
              bless_check_response env true (p_kmsauth_config p) cert;;
              bless_install env cfg p cert);; mret ()) w)
  ∧ (∀ w p w1, setup w = (Ok p, w1) →
       str_take 8 (public_key_in env p w1) = "ssh-rsa " →
       ∃ later,
         w_calls (main_attempt env args cfg region w).2
         = (w_calls w1
            ++ CallLambdaInvoke region
                 (bless_request cfg p (public_key_in env p w1)) :: later)%list)
  ∧ (∀ config cert w, (bless_check_response env true config cert w).2 = w)
  ∧ (∀ w p w1, setup w = (Ok p, w1) →
       store (w_cache (main_attempt env args cfg region w).2)
         !! kmsauth_cache_key (p_kmsauth_config p)
       = store (w_cache w1) !! kmsauth_cache_key (p_kmsauth_config p)).
Proof.
  intros Hb. cbv zeta.
  split; [by apply main_attempt_bless|].
  rewrite main_attempt_bless by done.
  assert (∀ w p w1,
    bless_setup env region true (args_gui args) (args_host args) None w
    = (Ok p, w1) →
    (bless env region true (args_gui args) (args_host args) cfg None
       ≫= λ _, mret ()) w
    = ((cert ← bless_send env region cfg p;
        bless_check_response env true (p_kmsauth_config p) cert;;
        bless_install env cfg p cert);; mret ()) w1) as Hrun.
  { intros w p w1 Hs. unfold mbind at 1. unfold M_bind at 1.
    rewrite (bless_nocache_run _ _ _ _ _ _ _ _ _ Hs). done. }
  split; [|split; [|split; [by intros; apply bless_check_response_nocache|]]].
  - intros w. unfold bless, bless_from_gate. simpl. unfold mbind, M_bind.
    by destruct (bless_setup env region true _ _ None w) as [[p|e] w1].
  - intros w p w1 Hs Hpk. rewrite (Hrun w p w1 Hs).
    destruct (bless_send_run env region cfg p w1) as (r & w2 & Hsend & _ & Hcalls).
    specialize (Hcalls Hpk). munfold. rewrite Hsend.
    destruct r as [cert|e]; simpl; [|exists []; by rewrite Hcalls].
    pose proof (bless_check_response_nocache env (p_kmsauth_config p) cert w2)
      as Hchk.
    destruct (bless_check_response env true (p_kmsauth_config p) cert w2)
      as [[[]|e] w3]; simpl in Hchk; subst w3; simpl;
      [|exists []; by rewrite Hcalls].
    destruct (bless_install_run env cfg p cert w2) as (w' & added & Hi & _ & Ha).
    rewrite Hi. simpl. exists added. by rewrite Ha, Hcalls, <- app_assoc.
  - intros w p w1 Hs. rewrite (Hrun w p w1 Hs).
    assert (∀ st v1 v2 v3,
      (<["certip" := v3]> (<["remote_ip" := v2]> (<["bastion_ips" := v1]> st))
        : gmap string pyval) !! kmsauth_cache_key (p_kmsauth_config p)
      = st !! kmsauth_cache_key (p_kmsauth_config p)
      ∧ (<["remote_ip" := v2]> (<["bastion_ips" := v1]> st) : gmap string pyval)
          !! kmsauth_cache_key (p_kmsauth_config p)
        = st !! kmsauth_cache_key (p_kmsauth_config p)) as Hkey.
    { intros st v1 v2 v3. unfold kmsauth_cache_key.
      by rewrite !lookup_insert_ne. }
    destruct (bless_send_run env region cfg p w1) as (r & w2 & Hsend & Hst & _).
    munfold. rewrite Hsend.
    destruct r as [cert|e]; simpl; [|rewrite Hst; apply Hkey; exact PNone].
    pose proof (bless_check_response_nocache env (p_kmsauth_config p) cert w2)
      as Hchk.
    destruct (bless_check_response env true (p_kmsauth_config p) cert w2)
      as [[[]|e] w3]; simpl in Hchk; subst w3; simpl;
      [|rewrite Hst; apply Hkey; exact PNone].
    destruct (bless_install_run env cfg p cert w2) as (w' & added & Hi & Hst' & _).
    rewrite Hi. simpl. rewrite Hst', Hst. apply Hkey.
Qed.

(** ** The Vault backend *)

Arguments get_linux_username : simpl never.





Arguments vault_prepare : simpl never.
Arguments vault_check_response : simpl never.
Arguments auth_okta : simpl never.




(** A certificate that [check_fresh_cert] finds fresh is installed, and the
    signing request is sent all the same. *)
Lemma main_always_nocache_witness :
  (check_fresh_cert sample_env sample_cert_file sample_lambda_config
     (p_ip_list (sample_prepared "us-east-1")) fresh_world).1 = Ok true
  ∧ ∃ later,
      w_calls (main_attempt sample_env sample_args sample_config "us-east-1"
                 fresh_world).2
      = (w_calls fresh_world
         ++ CallLambdaInvoke "us-east-1"
              (bless_request sample_config (sample_prepared "us-east-1")
                 "ssh-rsa AAAAB3") :: later)%list.
Proof.
  split; [by vm_compute|].
  destruct (main_always_nocache sample_env sample_args sample_config
              "us-east-1") as (_ & _ & Hsent & _).
  - by vm_compute.
  - apply (Hsent fresh_world (sample_prepared "us-east-1") fresh_world).
    + reflexivity.
    + by vm_compute.
Defined.

(** Vault refuses both requests: [vault_bless] raises [Forbidden] after the
    second. *)
Example vault_bless_forbidden_twice :
  (vault_bless forbidden_env false sample_config vault_world).1 = Raise Forbidden
  ∧ exit_status (vault_bless forbidden_env false sample_config vault_world).1
    = 1%Z
  ∧ count_calls (λ c, match c with CallVaultSign _ _ => true | _ => false end)
       (w_calls (vault_bless forbidden_env false sample_config vault_world).2)
     = 2.
Proof. by vm_compute. Qed.
(** ** The identity file *)

Lemma str_take_S n c s : str_take (S n) (String c s) = String c (str_take n s).
Proof. done. Qed.

Lemma str_app_cons c s t : String c s ++ t = String c (s ++ t).
Proof. done. Qed.

Lemma str_app_nil t : "" ++ t = t.
Proof. done. Qed.

Lemma str_take_drop n s : str_take n s ++ str_drop n s = s.
Proof.
  revert s. induction n as [|n IH]; intros [|c s]; try done.
  rewrite str_take_S, str_app_cons. simpl. by rewrite IH.
Qed.

Lemma str_length_app s t :
  String.length (s ++ t) = String.length s + String.length t.
Proof.
  induction s as [|c s IH]; [done|]. rewrite str_app_cons. simpl. by rewrite IH.
Qed.

Lemma str_take_app s t : str_take (String.length s) (s ++ t) = s.
Proof.
  induction s as [|c s IH]; [by destruct t|].
  rewrite str_app_cons. simpl String.length. by rewrite str_take_S, IH.
Qed.

Lemma str_drop_app s t : str_drop (String.length s) (s ++ t) = t.
Proof.
  induction s as [|c s IH]; [by destruct t|]. rewrite str_app_cons. by simpl.
Qed.

Lemma str_last_app base suffix :
  str_last (String.length suffix) (base ++ suffix) = suffix.
Proof.
  unfold str_last. rewrite str_length_app.
  replace (String.length base + String.length suffix - String.length suffix)
    with (String.length base) by lia.
  apply str_drop_app.
Qed.

Lemma str_but_last_app base suffix :
  str_but_last (String.length suffix) (base ++ suffix) = base.
Proof.
  unfold str_but_last. rewrite str_length_app.
  replace (String.length base + String.length suffix - String.length suffix)
    with (String.length base) by lia.
  apply str_take_app.
Qed.

Lemma str_but_last_last n s : str_but_last n s ++ str_last n s = s.
Proof. apply str_take_drop. Qed.

(** Dropping a trailing [.pub], as lines 279-281 do. *)
Lemma pub_suffix_cases f :
  (∀ base, f = base ++ ".pub" →
     str_last 4 f = ".pub" ∧ str_but_last 4 f = base)
  ∧ ((∀ base, f ≠ base ++ ".pub") → str_last 4 f ≠ ".pub").
Proof.
  split.
  - intros base ->. split.
    + apply (str_last_app base ".pub").
    + apply (str_but_last_app base ".pub").
  - intros Hno Hlast. apply (Hno (str_but_last 4 f)).
    rewrite <- Hlast. symmetry. apply str_but_last_last.
Qed.

Lemma tuple_index_app x pre post :
  x ∉ pre → tuple_index x (pre ++ x :: post) = Some (length pre).
Proof.
  induction pre as [|y pre IH]; simpl; intros Hx.
  - by rewrite decide_True.
  - apply not_elem_of_cons in Hx as [Hy Hx].
    rewrite decide_False by done. by rewrite IH.
Qed.

Lemma tuple_index_split x t i :
  tuple_index x t = Some i →
  ∃ pre post, t = (pre ++ x :: post)%list ∧ (x ∉ pre) ∧ length pre = i.
Proof.
  revert i. induction t as [|y t IH]; intros i; simpl; [done|].
  case_decide as Hy.
  - intros [= <-]. subst. exists [], t. split; [done|].
    split; [apply not_elem_of_nil|done].
  - destruct (tuple_index x t) as [j|]; simpl; [|done].
    intros [= <-]. destruct (IH j eq_refl) as (pre & post & -> & Hx & <-).
    exists (y :: pre), post. split; [done|]. split; [|done].
    apply not_elem_of_cons. split; [congruence|done].
Qed.

(** X1.  [get_idfile_from_cmdline]: a non-empty [BLESS_IDENTITYFILE] is
    returned as it is, whatever the command line and whatever its suffix.
    Otherwise the file is the word after the first [-i], or the default
    when no word is [-i]; a trailing [.pub] is cut off once, and any other
    name is returned unchanged.  The only error is the [IndexError] of a
    command line whose first [-i] is its last word. *)
Theorem get_idfile_from_cmdline_spec BLESS_IDENTITYFILE cmdline dflt :
  let r := get_idfile_from_cmdline BLESS_IDENTITYFILE cmdline dflt in
  (∀ f, BLESS_IDENTITYFILE = Some f → f ≠ "" → r = Ok f)
  ∧ (BLESS_IDENTITYFILE = None ∨ BLESS_IDENTITYFILE = Some "" →
     (∀ f, idfile_named cmdline dflt f →
        (∀ base, f = base ++ ".pub" → r = Ok base)
        ∧ ((∀ base, f ≠ base ++ ".pub") → r = Ok f))
     ∧ (r = Raise IndexError
        ↔ ∃ pre, cmdline = (pre ++ ["-i"])%list ∧ "-i" ∉ pre))
  ∧ (∀ e, r = Raise e → e = IndexError).
Proof.
  cbv zeta. split; [|split].
  - intros f -> Hf. by destruct f.
  - intros Henv.
    assert (get_idfile_from_cmdline BLESS_IDENTITYFILE cmdline dflt
            = get_idfile_from_cmdline None cmdline dflt) as ->
      by (by destruct Henv as [->| ->]).
    unfold get_idfile_from_cmdline. split.
    + intros f [(pre & rest & -> & Hpre)|[Hno ->]].
      * rewrite tuple_index_app by done.
        rewrite lookup_app_r by lia.
        replace (length pre + 1 - length pre) with 1 by lia. simpl.
        destruct (pub_suffix_cases f) as [Hpub Hother]. split.
        -- intros base Hb. destruct (Hpub base Hb) as [-> ->].
           by rewrite bool_decide_true.
        -- intros Hb. by rewrite bool_decide_false by auto.
      * apply tuple_index_None in Hno. rewrite Hno.
        destruct (pub_suffix_cases dflt) as [Hpub Hother]. split.
        -- intros base Hb. destruct (Hpub base Hb) as [-> ->].
           by rewrite bool_decide_true.
        -- intros Hb. by rewrite bool_decide_false by auto.
    + destruct (tuple_index "-i" cmdline) as [i|] eqn:Hi.
      * destruct (tuple_index_split _ _ _ Hi) as (pre & post & -> & Hpre & <-).
        rewrite lookup_app_r by lia.
        replace (length pre + 1 - length pre) with 1 by lia.
        destruct post as [|f post]; simpl.
        -- split; [intros _; by exists pre|done].
        -- split; [by case_bool_decide|].
           intros (pre' & Heq & Hpre').
           assert (tuple_index "-i" (pre' ++ ["-i"]) = Some (length pre')) as Hi'
             by (by apply tuple_index_app).
           rewrite <- Heq, Hi in Hi'. injection Hi' as Hlen.
           apply (f_equal length) in Heq. rewrite !length_app in Heq.
           simpl in Heq. lia.
      * split; [by case_bool_decide|].
        intros (pre & -> & _). rewrite tuple_index_None in Hi.
        destruct Hi. apply elem_of_app. right. apply elem_of_cons. by left.
  - intros e. unfold get_idfile_from_cmdline.
    destruct BLESS_IDENTITYFILE as [[|c f]|]; try done;
      (destruct (tuple_index "-i" cmdline) as [i|];
         [destruct (cmdline !! (i + 1))|]; try (by case_bool_decide);
       by intros [= <-]).
Qed.

(** ** The user name of a certificate *)

Lemma take_while_all p s : all_chars p (take_while p s) = true.
Proof.
  induction s as [|c s IH]; simpl; [done|].
  destruct (p c) eqn:Hc; simpl; [|done]. by rewrite Hc, IH.
Qed.

Lemma take_while_split p s :
  ∃ post, s = take_while p s ++ post
          ∧ (post = "" ∨ ∃ c post', post = String c post' ∧ p c = false).
Proof.
  induction s as [|c s (post & IH & Hpost)]; simpl.
  - exists "". split; [done|by left].
  - destruct (p c) eqn:Hc.
    + exists post. rewrite str_app_cons, <- IH. done.
    + exists (String c s). split; [done|]. right. by exists c, s.
Qed.

Lemma skip_until_split p s :
  ∃ pre, s = pre ++ skip_until p s
         ∧ all_chars (λ c, negb (p c)) pre = true
         ∧ (skip_until p s = ""
            ∨ ∃ c s', skip_until p s = String c s' ∧ p c = true).
Proof.
  induction s as [|c s (pre & IH & Hpre & Hs)]; simpl.
  - exists "". split; [done|]. split; [done|by left].
  - destruct (p c) eqn:Hc.
    + exists "". split; [done|]. split; [done|]. right. by exists c, s.
    + exists (String c pre). rewrite str_app_cons, <- IH. split; [done|].
      split; [|done]. simpl. by rewrite Hc, Hpre.
Qed.

Lemma take_while_id p s : all_chars p s = true → take_while p s = s.
Proof.
  induction s as [|c s IH]; simpl; [done|].
  intros [Hc Hs]%andb_true_iff. by rewrite Hc, IH.
Qed.

Lemma skip_until_none p s :
  all_chars (λ c, negb (p c)) s = true → skip_until p s = "".
Proof.
  induction s as [|c s IH]; simpl; [done|].
  intros [Hc Hs]%andb_true_iff. apply negb_true_iff in Hc. by rewrite Hc, IH.
Qed.

(** A name that [get_linux_username] returned comes back unchanged. *)
Lemma get_linux_username_idem username m :
  get_linux_username username = Ok m → get_linux_username m = Ok m.
Proof.
  unfold get_linux_username.
  pose proof (take_while_all is_name_char (skip_until is_name_char username))
    as Hall.
  destruct (take_while is_name_char _) as [|c m'] eqn:Hm; [done|].
  intros [= <-]. simpl in Hall. apply andb_true_iff in Hall as [Hc Hall].
  simpl. rewrite Hc. simpl. rewrite Hc. by rewrite take_while_id.
Qed.

(** X2.  [get_linux_username] returns the first and longest run of letters
    and dots of its argument: the run is not empty, nothing before it is a
    letter or a dot, and it ends at the end of the text or before a
    character that is neither.  Applied to its own result it changes
    nothing.  It fails, with the [AttributeError] of [None.group], exactly
    when the argument holds no letter and no dot. *)
Theorem get_linux_username_spec username :
  (∀ m, get_linux_username username = Ok m →
     m ≠ ""
     ∧ all_chars is_name_char m = true
     ∧ (∃ pre post,
          username = pre ++ m ++ post
          ∧ no_name_char pre = true
          ∧ (post = "" ∨ ∃ c post', post = String c post'
                                    ∧ is_name_char c = false))
     ∧ get_linux_username m = Ok m)
  ∧ (∀ e, get_linux_username username = Raise e
          ↔ e = AttributeError "group" ∧ no_name_char username = true).
Proof.
  split.
  - intros m Hm. split; [|split; [|split]].
    + unfold get_linux_username in Hm.
      destruct (take_while _ _); [done|]. by injection Hm as <-.
    + unfold get_linux_username in Hm.
      pose proof (take_while_all is_name_char (skip_until is_name_char username)).
      destruct (take_while _ _); [done|]. by injection Hm as <-.
    + unfold get_linux_username in Hm.
      destruct (skip_until_split is_name_char username) as (pre & Hu & Hpre & _).
      destruct (take_while_split is_name_char (skip_until is_name_char username))
        as (post & Hs & Hpost).
      destruct (take_while _ _) as [|c m'] eqn:Ht; [done|]. injection Hm as <-.
      exists pre, post. split; [|done]. by rewrite <- Hs.
    + by eapply get_linux_username_idem.
  - intros e. unfold get_linux_username, no_name_char. split.
    + destruct (skip_until_split is_name_char username)
        as (pre & Hu & Hpre & [Hs|(c & s' & Hs & Hc)]).
      * rewrite Hs in Hu |- *. simpl. intros [= <-]. split; [done|].
        rewrite Hu. clear Hu. induction pre as [|c pre IH]; [done|].
        simpl in *. apply andb_true_iff in Hpre as [-> Hpre]. by apply IH.
      * rewrite Hs. simpl. by rewrite Hc.
    + intros [-> Hno]. by rewrite skip_until_none.
Qed.

(** ** The start region *)



Lemma dict_get_elem_of {A} key (d : list (string * A)) v :
  dict_get key d = Some v → (key, v) ∈ d.
Proof.
  induction d as [|[k v'] d IH]; simpl; [done|].
  case_bool_decide as Hk.
  - intros [= ->]. subst. apply elem_of_cons. by left.
  - intros Hd. apply elem_of_cons. right. by apply IH.
Qed.

Lemma ring_from_head k t x : t !! k = Some x → head (ring_from k t) = Some x.
Proof.
  intros Hk. unfold ring_from. rewrite (drop_S _ _ _ Hk). done.
Qed.

Lemma get_region_from_code_configured region_code cfg region :
  get_region_from_code region_code cfg = Ok region →
  region ∈ dict_values (REGION_ALIAS cfg).
Proof.
  unfold get_region_from_code. intros Hcode.
  destruct (match region_code with Some c => Ok c | None => _ end)
    as [c|e]; [|done].
  destruct (dict_get (upper c) (REGION_ALIAS cfg)) as [r|] eqn:Hget; [|done].
  injection Hcode as ->. apply dict_get_elem_of in Hget.
  unfold dict_values. apply list_elem_of_fmap. by exists (upper c, region).
Qed.

Lemma get_regions_starts_at region aliases :
  region ∈ dict_values aliases →
  ∃ rest, get_regions region aliases = Ok (region :: rest)
          ∧ S (length rest) = length aliases.
Proof.
  intros Hin.
  pose proof (get_regions_eq region aliases) as Heq. simpl in Heq.
  set (aws := sorted (dict_values aliases)) in *.
  assert (region ∈ aws) as Hin' by (unfold aws; by rewrite sorted_Permutation).
  destruct (tuple_index region aws) as [k|] eqn:Hk;
    [|by apply tuple_index_None in Hk].
  simpl in Heq. apply tuple_index_Some in Hk.
  pose proof (ring_from_head _ _ _ Hk) as Hhead.
  destruct (ring_from k aws) as [|r rest] eqn:Hring; [done|].
  injection Hhead as ->. exists rest. split; [done|].
  change (S (length rest)) with (length (region :: rest)).
  rewrite <- Hring, ring_from_Permutation. unfold aws.
  rewrite sorted_Permutation. unfold dict_values. by rewrite length_fmap.
Qed.

(** X3.  Whatever region [get_region_from_code] resolves is a configured
    one, and [get_regions] started from it returns a ring that begins with
    it and has one entry for each alias: the first region [main] tries is
    the one the user named. *)
Theorem get_region_from_code_ring region_code cfg region :
  get_region_from_code region_code cfg = Ok region →
  region ∈ dict_values (REGION_ALIAS cfg)
  ∧ ∃ rest, get_regions region (REGION_ALIAS cfg) = Ok (region :: rest)
            ∧ S (length rest) = length (REGION_ALIAS cfg).
Proof.
  intros Hcode. apply get_region_from_code_configured in Hcode.
  split; [done|]. by apply get_regions_starts_at.
Qed.

(** The code [west], in lower case, starts the ring of the sample
    configuration at its western region. *)
Lemma get_region_from_code_ring_witness :
  get_region_from_code (Some "west") sample_config = Ok "us-west-2"
  ∧ "us-west-2" ∈ dict_values (REGION_ALIAS sample_config)
  ∧ ∃ rest, get_regions "us-west-2" (REGION_ALIAS sample_config)
            = Ok ("us-west-2" :: rest)
            ∧ S (length rest) = length (REGION_ALIAS sample_config).
Proof.
  split; [by vm_compute|].
  apply (get_region_from_code_ring (Some "west") sample_config).
  by vm_compute.
Defined.


(** ** The address lookup, request by request *)

Lemma set_calls_same w : set_calls (w_calls w) w = w.
Proof. by destruct w. Qed.

Lemma fetchIP_answer env url w :
  ∃ r, _fetchIP env url w
       = (Ok r, set_calls (w_calls w ++ [CallIPFetch url])%list w)
       ∧ ∀ ip, r = Some ip → address_answer env (w_calls w) url ip.
Proof.
  unfold _fetchIP, address_answer. munfold. simpl.
  destruct (ip_endpoint env (w_calls w) url) as [[status text]|];
    [|by eexists].
  case_bool_decide as Hs; [|by eexists].
  destruct (all_chars _ _) eqn:Hall; eexists; (split; [done|]); [|done].
  intros ip [= <-]. exists text. by subst.
Qed.

Lemma refreshIP_loop_found env urls ip w :
  truthy_str ip = true → _refreshIP_loop env urls ip w = (Ok ip, w).
Proof. intros Hip. destruct urls; simpl; [done|]. by rewrite Hip. Qed.

(** The loop of [_refreshIP] ends without an address after it has asked
    every service, or with the answer of the last service it asked. *)
Lemma refreshIP_loop_cases env urls : ∀ ip0 w,
  truthy_str ip0 = false →
  ∃ r w',
    _refreshIP_loop env urls ip0 w = (Ok r, w')
    ∧ ((truthy_str r = false
        ∧ w' = set_calls (w_calls w ++ (CallIPFetch <$> urls))%list w)
       ∨ ∃ tried url ip,
           r = Some ip ∧ ip ≠ ""
           ∧ (tried ++ [url])%list `prefix_of` urls
           ∧ address_answer env (w_calls w ++ (CallIPFetch <$> tried))%list url ip
           ∧ w' = set_calls (w_calls w ++ (CallIPFetch <$> tried ++ [url]))%list w).
Proof.
  induction urls as [|url urls IH]; intros ip0 w Hip0.
  - exists ip0, w. split; [done|]. left. split; [done|].
    simpl. by rewrite app_nil_r, set_calls_same.
  - simpl. rewrite Hip0.
    destruct (fetchIP_answer env url w) as (ip' & Hf & Hans).
    rewrite (bind_Ok _ _ _ _ _ Hf).
    destruct (truthy_str ip') eqn:Hip'.
    + rewrite refreshIP_loop_found by done.
      eexists _, _. split; [done|]. right.
      destruct ip' as [ip|]; [|done].
      exists [], url, ip. split; [done|]. split.
      { intros ->. by vm_compute in Hip'. }
      split; [by apply prefix_cons, prefix_nil|].
      split; [|done]. simpl. rewrite app_nil_r. by apply Hans.
    + destruct (IH ip' (set_calls (w_calls w ++ [CallIPFetch url])%list w) Hip')
        as (r & w' & Hrun & Hcases).
      exists r, w'. split; [done|].
      destruct Hcases as [[Hr ->]|(tried & url' & ip & -> & Hne & Hpre & Ha & ->)].
      * left. split; [done|]. simpl. by rewrite <- app_assoc.
      * right. exists (url :: tried), url', ip. split; [done|]. split; [done|].
        split; [by apply prefix_cons|]. simpl in *.
        rewrite <- !app_assoc in *. done.
Qed.

Lemma refreshIP_cases env w :
  (_refreshIP env w
   = (Raise (Exception_ "Could not refresh public IP"),
      set_calls (w_calls w ++ (CallIPFetch <$> ip_urls (w_userIP w)))%list w))
  ∨ ∃ tried url ip,
      ip ≠ ""
      ∧ (tried ++ [url])%list `prefix_of` ip_urls (w_userIP w)
      ∧ address_answer env (w_calls w ++ (CallIPFetch <$> tried))%list url ip
      ∧ _refreshIP env w
        = (Ok (), refreshed env ip
                    (w_calls w ++ (CallIPFetch <$> tried ++ [url]))%list w).
Proof.
  destruct (refreshIP_loop_cases env (ip_urls (w_userIP w)) None w eq_refl)
    as (r & w' & Hrun & Hcases).
  unfold _refreshIP. rewrite (bind_Ok _ _ w w w) by done.
  rewrite (bind_Ok _ _ _ _ _ Hrun).
  destruct Hcases as [[Hr ->]|(tried & url & ip & -> & Hne & Hpre & Ha & ->)].
  - left. rewrite Hr. by munfold.
  - right. exists tried, url, ip. split; [done|]. split; [done|].
    split; [done|].
    assert (truthy_str (Some ip) = true) as ->
      by (simpl; by rewrite bool_decide_false).
    by munfold.
Qed.


(** With two services of which the first is down, the second one's answer
    is stored; with none in reach the lookup fails after asking both. *)
Example refreshIP_second_service :
  let env := with_ip_endpoint
               (λ _ url, if bool_decide (url = "http://b.example.com")
                         then Some (200%Z, " 198.51.100.7 ") else None) sample_env in
  let w := set_userIP {| fresh := false; currentIP := None; maxcachetime := 120;
                         ip_urls := ["http://a.example.com";
                                     "http://b.example.com";
                                     "http://c.example.com"] |} sample_world in
  currentIP (w_userIP (_refreshIP env w).2) = Some "198.51.100.7"
  ∧ w_calls (_refreshIP env w).2
    = [CallIPFetch "http://a.example.com"; CallIPFetch "http://b.example.com"]
  ∧ (_refreshIP offline_env w).1
    = Raise (Exception_ "Could not refresh public IP")
  ∧ length (w_calls (_refreshIP offline_env w).2) = 3.
Proof. by vm_compute. Qed.

Lemma getIP_unfold env w :
  getIP env w =
  if fresh (w_userIP w) && truthy_str (currentIP (w_userIP w))
  then (Ok (opt_to_py (currentIP (w_userIP w))), w)
  else
    let lastiptime := cache_lookup (w_cache w) "lastipchecktime" in
    if truthy lastiptime then
      match lastiptime with
      | PNum t =>
          if bool_decide (clock env (w_ticks w)
                          < t + Qc_of_Z (maxcachetime (w_userIP w)))%Qc
          then (Ok (cache_lookup (w_cache w) "lastip"), tick w)
          else refresh_and_read env (tick w)
      | _ => (Raise TypeError, w)
      end
    else refresh_and_read env w.
Proof.
  unfold getIP. rewrite (bind_Ok _ _ w w w) by done. cbv zeta.
  destruct (fresh (w_userIP w) && truthy_str (currentIP (w_userIP w))); [done|].
  unfold cache_get. unfold mbind at 1 2. unfold M_bind at 1 2.
  destruct (truthy (cache_lookup (w_cache w) "lastipchecktime")); [|done].
  destruct (cache_lookup (w_cache w) "lastipchecktime") as [[| |t]|]; try done.
  unfold time_time, mbind, M_bind. simpl.
  by case_bool_decide.
Qed.

Lemma refresh_and_read_cases env w :
  (refresh_and_read env w
   = (Raise (Exception_ "Could not refresh public IP"),
      set_calls (w_calls w ++ (CallIPFetch <$> ip_urls (w_userIP w)))%list w))
  ∨ ∃ tried url ip,
      ip ≠ ""
      ∧ (tried ++ [url])%list `prefix_of` ip_urls (w_userIP w)
      ∧ address_answer env (w_calls w ++ (CallIPFetch <$> tried))%list url ip
      ∧ refresh_and_read env w
        = (Ok (PStr ip), refreshed env ip
                           (w_calls w ++ (CallIPFetch <$> tried ++ [url]))%list w).
Proof.
  unfold refresh_and_read.
  destruct (refreshIP_cases env w)
    as [Hrun|(tried & url & ip & Hne & Hpre & Ha & Hrun)].
  - left. by rewrite (bind_Raise _ _ _ _ _ Hrun).
  - right. exists tried, url, ip. by rewrite (bind_Ok _ _ _ _ _ Hrun).
Qed.

Lemma getIP_holds env w ip :
  fresh (w_userIP w) = true → currentIP (w_userIP w) = Some ip → ip ≠ "" →
  getIP env w = (Ok (PStr ip), w).
Proof.
  intros Hf Hc Hne. rewrite getIP_unfold, Hf, Hc. simpl.
  by rewrite bool_decide_false.
Qed.

(** A [getIP] that returned after sending a request went through
    [_refreshIP]. *)
Lemma getIP_asked env w v w1 :
  getIP env w = (Ok v, w1) → w_calls w1 ≠ w_calls w →
  ∃ ip w0 calls, (w0 = w ∨ w0 = tick w) ∧ ip ≠ "" ∧ v = PStr ip
                 ∧ w1 = refreshed env ip calls w0.
Proof.
  rewrite getIP_unfold. cbv zeta.
  assert (∀ w0, (w0 = w ∨ w0 = tick w) →
    refresh_and_read env w0 = (Ok v, w1) →
    ∃ ip w0 calls, (w0 = w ∨ w0 = tick w) ∧ ip ≠ "" ∧ v = PStr ip
                   ∧ w1 = refreshed env ip calls w0) as Href.
  { intros w0 Hw0 Hrun.
    destruct (refresh_and_read_cases env w0)
      as [Hr|(tried & url & ip & Hne & _ & _ & Hr)]; rewrite Hr in Hrun; [done|].
    injection Hrun as <- <-. by eexists ip, w0, _. }
  destruct (fresh (w_userIP w) && truthy_str (currentIP (w_userIP w))).
  { by intros [= <- <-]. }
  destruct (truthy (cache_lookup (w_cache w) "lastipchecktime"));
    [|intros Hrun _; apply (Href w); auto].
  destruct (cache_lookup (w_cache w) "lastipchecktime") as [[| |t]|]; try done.
  case_bool_decide.
  - by intros [= <- <-].
  - intros Hrun _. apply (Href (tick w)); auto.
Qed.

(** X6.  Once [getIP] has fetched the address, the resolver keeps it: every
    later [getIP] on the same object returns that address without reading
    the clock or the cache and without sending anything. *)
Theorem getIP_memo env w v w1 :
  getIP env w = (Ok v, w1) →
  w_calls w1 ≠ w_calls w →
  getIP env w1 = (Ok v, w1).
Proof.
  intros Hrun Hcalls.
  destruct (getIP_asked env w v w1 Hrun Hcalls)
    as (ip & w0 & calls & _ & Hne & -> & ->).
  by apply getIP_holds.
Qed.

(** On a first run the address is fetched once and then held. *)
Lemma getIP_memo_witness :
  w_calls (getIP sample_env sample_world).2
  = [CallIPFetch "http://checkip.example.com"]
  ∧ getIP sample_env (getIP sample_env sample_world).2
    = (Ok (PStr "203.0.113.5"), (getIP sample_env sample_world).2).
Proof.
  split; [by vm_compute|].
  apply (getIP_memo sample_env sample_world); by vm_compute.
Defined.

(** X7.  A resolver made with a fixed address ([BLESSFIXEDIP] set and not
    empty) answers every [getIP] with it and leaves the world alone: no
    request, no clock or cache access.  An empty value counts as unset. *)
Theorem getIP_fixed_ip env maxcachetime ip_urls ip w :
  let start fixed_ip := (UserIP_init maxcachetime ip_urls fixed_ip w).2 in
  (ip ≠ "" → getIP env (start (Some ip)) = (Ok (PStr ip), start (Some ip)))
  ∧ start (Some "") = start None
  ∧ fresh (w_userIP (start None)) = false.
Proof.
  cbv zeta. split; [|done]. intros Hne. apply getIP_holds; try done.
  all: unfold UserIP_init; simpl; by rewrite bool_decide_false.
Qed.

(** X8.  The address [getIP] fetched serves the next run.  A new process on
    the same cache file, with a resolver of its own, gets that address from
    the cache without a request as long as the clock is strictly below the
    time of the check plus its [maxcachetime]; from that instant on it has
    to ask the services again. *)
Theorem getIP_cached_for_next_run env w ip w1 maxcachetime ip_urls :
  getIP env w = (Ok (PStr ip), w1) →
  w_calls w1 ≠ w_calls w →
  ∃ checked,
    w_disk w1 !! "lastipchecktime" = Some (PNum checked)
    ∧ w_disk w1 !! "lastip" = Some (PStr ip)
    ∧ ∀ w2, w_disk w2 = w_disk w1 →
        let w3 := next_run maxcachetime ip_urls w2 in
        let now := clock env (w_ticks w2) in
        checked ≠ 0%Qc →
        ((now < checked + Qc_of_Z maxcachetime)%Qc →
         getIP env w3 = (Ok (PStr ip), tick w3))
        ∧ (¬ (now < checked + Qc_of_Z maxcachetime)%Qc →
           getIP env w3 = refresh_and_read env (tick w3)).
Proof.
  intros Hrun Hcalls.
  destruct (getIP_asked env w _ w1 Hrun Hcalls)
    as (ip' & w0 & calls & _ & Hne & [= <-] & ->).
  exists (clock env (w_ticks w0)). simpl.
  split; [by rewrite lookup_insert_eq|].
  split; [rewrite lookup_insert_ne by done; by rewrite lookup_insert_eq|].
  intros w2 Hdisk Hchecked. rewrite getIP_unfold.
  unfold next_run, UserIP_init, get_bless_cache, cache_lookup. simpl.
  rewrite Hdisk. rewrite lookup_insert_eq. simpl.
  rewrite bool_decide_false by done. simpl.
  rewrite lookup_insert_ne by done. rewrite lookup_insert_eq. simpl.
  split; intros Hnow.
  - by rewrite bool_decide_true.
  - by rewrite bool_decide_false.
Qed.

(** The address fetched at 01:00:00 is served from the cache one minute
    later, the resolver's [maxcachetime] being two minutes. *)
Lemma getIP_cached_for_next_run_witness :
  let w1 := (getIP sample_env sample_world).2 in
  let w3 := next_run 120 ["http://checkip.example.com"] (at_tick 60 w1) in
  getIP sample_env w3 = (Ok (PStr "203.0.113.5"), tick w3).
Proof.
  cbv zeta.
  destruct (getIP_cached_for_next_run sample_env sample_world "203.0.113.5"
              (getIP sample_env sample_world).2 120
              ["http://checkip.example.com"])
    as (checked & Hchecked & _ & Hnext); [by vm_compute|by vm_compute|].
  assert (checked = Qc_of_Z (day0 + 3600)) as ->
    by (vm_compute in Hchecked; by injection Hchecked).
  destruct (Hnext (at_tick 60 (getIP sample_env sample_world).2) eq_refl)
    as [Hyoung _]; [by vm_compute|].
  apply Hyoung. by vm_compute.
Defined.

(** ** Credentials and tokens, from one call to the next *)

Lemma assume_blessrole_Ok env lambda_config w c w1 :
  assume_blessrole env lambda_config w = (Ok c, w1) →
  ∃ creds, c = FromSTS creds
           ∧ store (w_cache w1) !! "blessrole_creds"
             = Some (make_cachable_creds env creds)
           ∧ w_disk w1 = store (w_cache w1).
Proof.
  unfold assume_blessrole. munfold. simpl.
  destruct (truthy (cache_lookup (w_cache w) "userarn")); simpl.
  - destruct (cache_lookup (w_cache w) "userarn") as [[|arn|]|]; simpl;
      try done.
    destruct (sts_assume_role env _ _) as [creds|]; simpl; [|done].
    intros [= <- <-]. exists creds. simpl. by rewrite lookup_insert_eq.
  - destruct (iam_get_user env (w_calls w)) as [[UserName Arn]|]; simpl;
      [|done].
    destruct (sts_assume_role env _ _) as [creds|]; simpl; [|done].
    intros [= <- <-]. exists creds. simpl. by rewrite lookup_insert_eq.
Qed.

(** X9.  The credential [get_blessrole_credentials] got from STS serves the
    next run: a later process that opens the cache file finds the same
    access key, secret and session token, and returns them without any
    request as long as the clock is before their expiration; from then on
    it assumes the role again. *)
Theorem blessrole_credentials_reused env lambda_config w creds w1 expiration :
  calendar_ok env →
  assume_blessrole env lambda_config w = (Ok (FromSTS creds), w1) →
  time_strptime env (utc_strftime env (Expiration creds)) = Some expiration →
  ∃ d,
    w_disk w1 !! "blessrole_creds" = Some (PDict d)
    ∧ d !! "AccessKeyId" = Some (AStr (AccessKeyId creds))
    ∧ d !! "SecretAccessKey" = Some (AStr (SecretAccessKey creds))
    ∧ d !! "SessionToken" = Some (AStr (SessionToken creds))
    ∧ ∀ w2, w_disk w2 = w_disk w1 →
        let run := get_blessrole_credentials env lambda_config (reopened w2) in
        (before_expiration env w2 expiration = true →
         run = (Ok (FromCache d expiration), tick (reopened w2)))
        ∧ (before_expiration env w2 expiration = false →
           run = assume_blessrole env lambda_config (tick (reopened w2))).
Proof.
  intros Hcal Hrun Hparse.
  destruct (assume_blessrole_Ok _ _ _ _ _ Hrun) as (creds' & [= <-] & Hst & Hd).
  rewrite Hd, Hst. unfold make_cachable_creds. eexists. split; [done|].
  split; [by rewrite lookup_insert_eq|].
  split; [rewrite lookup_insert_ne by done; by rewrite lookup_insert_eq|].
  split; [do 2 rewrite lookup_insert_ne by done; by rewrite lookup_insert_eq|].
  intros w2 Hdisk. cbv zeta. rewrite get_blessrole_credentials_run. cbv zeta.
  unfold reopened, get_bless_cache, cache_lookup. simpl.
  rewrite Hdisk, Hst. simpl.
  rewrite bool_decide_false by (apply insert_non_empty).
  simpl. do 3 rewrite lookup_insert_ne by done. rewrite lookup_insert_eq.
  rewrite Hparse.
  unfold gmtime_now. simpl.
  rewrite (tm_gt_stamp env _ expiration _ Hcal Hparse).
  unfold before_expiration, gmtime_now.
  split; intros ->; done.
Qed.

(** The credential STS gave at 01:00:00, good until 02:00:00, is served
    from the cache file ten minutes later. *)
Lemma blessrole_credentials_reused_witness :
  let w1 := (assume_blessrole sample_env sample_role_config sample_world).2 in
  ∃ d, (get_blessrole_credentials sample_env sample_role_config
          (reopened (at_tick 600 w1))).1
       = Ok (FromCache d (sample_time 2 0 0))
       ∧ d !! "AccessKeyId" = Some (AStr "AKIA").
Proof.
  cbv zeta.
  destruct (blessrole_credentials_reused sample_env sample_role_config
              sample_world
              {| AccessKeyId := "AKIA"; SecretAccessKey := "secret";
                 SessionToken := "session"; Expiration := day0 + 7200 |}
              (assume_blessrole sample_env sample_role_config sample_world).2
              (sample_time 2 0 0) sample_calendar_ok)
    as (d & _ & Hkey & _ & _ & Hnext); [by vm_compute|by vm_compute|].
  exists d. split; [|exact Hkey].
  destruct (Hnext (at_tick 600
                     (assume_blessrole sample_env sample_role_config
                        sample_world).2) eq_refl) as [Hvalid _].
  rewrite Hvalid; [done|by vm_compute].
Defined.

(** X10.  After [clear_kmsauth_token_cache] no call of [get_kmsauth_token]
    for that region answers from the cache, whatever the clock says: the
    purged record has no token, so a new one is requested.  (Should the
    library not read the purge date, the lookup raises its [ValueError].) *)
Theorem purge_forces_mint env config username w w2 :
  w_cache w2 = w_cache (clear_kmsauth_token_cache config w).2 →
  get_kmsauth_token env config username w2
  = match mode (w_cache w), time_strptime env "20160101T000000Z" with
    | CACHEMODE_RECACHE, _ => mint_kmsauth_token env config username w2
    | CACHEMODE_ENABLED, Some _ =>
        mint_kmsauth_token env config username (tick w2)
    | CACHEMODE_ENABLED, None => (Raise (ValueError "20160101T000000Z"), w2)
    end.
Proof.
  intros Hc. rewrite get_kmsauth_token_run. cbv zeta. rewrite Hc.
  unfold clear_kmsauth_token_cache, cache_lookup. munfold. simpl.
  destruct (mode (w_cache w)); [|done].
  rewrite lookup_insert_eq. simpl.
  rewrite bool_decide_false by (apply insert_non_empty). simpl.
  rewrite lookup_insert_ne by done. rewrite lookup_insert_eq.
  destruct (time_strptime env "20160101T000000Z") as [t|]; [|done].
  rewrite lookup_insert_eq. by destruct (tm_gt t _).
Qed.

(** A token cached for another half hour is purged: the next call requests
    a new one. *)
Lemma purge_forces_mint_witness :
  let w := world_with "kmsauth-us-east-1"
             (kmsauth_record "token" "20160101T013000Z") in
  (get_kmsauth_token sample_env (sample_kmsauth_config "us-east-1") "alice" w).1
  = Ok (AStr "token")
  ∧ w_calls (get_kmsauth_token sample_env (sample_kmsauth_config "us-east-1")
               "alice"
               (clear_kmsauth_token_cache (sample_kmsauth_config "us-east-1")
                  w).2).2
    = [CallMintToken "alias/authnz" "us-east-1" "alice"].
Proof.
  cbv zeta. split; [by vm_compute|].
  rewrite (purge_forces_mint sample_env (sample_kmsauth_config "us-east-1")
             "alice"
             (world_with "kmsauth-us-east-1"
                (kmsauth_record "token" "20160101T013000Z")) _ eq_refl).
  by vm_compute.
Defined.

(** X11.  A token [get_kmsauth_token] minted with a positive lifetime is
    returned again by later calls for the region, with no request, as long
    as the clock is before the cached expiration; a call at or after it
    mints a new token. *)
Theorem minted_token_reused env config username w token w1 expiration :
  calendar_ok env →
  mode (w_cache w) = CACHEMODE_ENABLED →
  (0 < 60 - TOKEN_SKEW env * 2)%Z →
  mint_kmsauth_token env config username w = (Ok (AStr token), w1) →
  time_strptime env
    (utc_strftime env (Qc_floor (clock env (w_ticks w))
                       + 60 * (60 - TOKEN_SKEW env * 2))%Z)
  = Some expiration →
  ∀ w2, w_cache w2 = w_cache w1 →
    let run := get_kmsauth_token env config username w2 in
    (before_expiration env w2 expiration = true →
     run = (Ok (AStr token), tick w2))
    ∧ (before_expiration env w2 expiration = false →
       run = mint_kmsauth_token env config username (tick w2)).
Proof.
  intros Hcal Hmode Hlife Hmint Hparse w2 Hc. cbv zeta.
  rewrite mint_kmsauth_token_run in Hmint. cbv zeta in Hmint.
  destruct (kms_get_token env _ _) as [token'|e]; [|by destruct e].
  rewrite bool_decide_true in Hmint by done. injection Hmint as <- <-.
  rewrite get_kmsauth_token_run. cbv zeta. rewrite Hc.
  unfold cached_and_saved, cache_lookup. simpl. rewrite Hmode.
  rewrite lookup_insert_eq. unfold kmsauth_record. simpl.
  rewrite bool_decide_false by (apply insert_non_empty). simpl.
  rewrite lookup_insert_ne by done. rewrite lookup_insert_eq, Hparse.
  unfold gmtime_now. rewrite (tm_gt_stamp env _ expiration _ Hcal Hparse).
  unfold before_expiration, gmtime_now.
  split; intros ->; [by rewrite lookup_insert_eq|done].
Qed.

(** The token minted at 01:00:00 with a skew of 3 minutes is good until
    01:54:00: a call at 01:10:00 returns it without a request. *)
Lemma minted_token_reused_witness :
  let w1 := (mint_kmsauth_token sample_env (sample_kmsauth_config "us-east-1")
               "alice" sample_world).2 in
  get_kmsauth_token sample_env (sample_kmsauth_config "us-east-1") "alice"
    (at_tick 600 w1)
  = (Ok (AStr "kmsauth-token"), tick (at_tick 600 w1)).
Proof.
  cbv zeta.
  refine (proj1 (minted_token_reused sample_env
                   (sample_kmsauth_config "us-east-1") "alice" sample_world
                   "kmsauth-token"
                   (mint_kmsauth_token sample_env
                      (sample_kmsauth_config "us-east-1") "alice"
                      sample_world).2
                   (sample_time 1 54 0) sample_calendar_ok eq_refl _ _ _
                   (at_tick 600
                      (mint_kmsauth_token sample_env
                         (sample_kmsauth_config "us-east-1") "alice"
                         sample_world).2) eq_refl) _); by vm_compute.
Defined.



(** ** The Vault session *)

Lemma get_cached_auth_token_unfold env w :
  get_cached_auth_token env w =
  match cache_lookup (w_cache w) "vault_creds" with
  | PNone => (Ok ANone, w)
  | PDict d =>
      match d !! "expiration" with
      | None => (Raise (KeyError "expiration"), w)
      | Some ANone => (Ok ANone, w)
      | Some (AStr s) =>
          match datetime_strptime env s with
          | None => (Raise (ValueError s), tick w)
          | Some t =>
              if bool_decide (clock env (w_ticks w) < Qc_of_Z t)%Qc then
                match d !! "token" with
                | Some token => (Ok token, tick w)
                | None => (Raise (KeyError "token"), tick w)
                end
              else (Ok ANone, tick w)
          end
      | Some _ => (Raise TypeError, tick w)
      end
  | _ => (Raise TypeError, w)
  end.
Proof.
  unfold get_cached_auth_token. munfold. simpl.
  destruct (cache_lookup (w_cache w) "vault_creds") as [[| |]|d]; try done.
  destruct (d !! "expiration") as [[|s|]|]; try done.
  destruct (datetime_strptime env s) as [t|]; [|done].
  case_bool_decide; [|done]. by destruct (d !! "token").
Qed.

Lemma get_cached_auth_token_frame env w :
  same_effects w (get_cached_auth_token env w).2.
Proof.
  rewrite get_cached_auth_token_unfold.
  destruct (cache_lookup (w_cache w) "vault_creds") as [[| |]|d];
    try apply same_effects_refl.
  destruct (d !! "expiration") as [[|s|]|];
    try apply same_effects_refl; try apply same_effects_tick.
  destruct (datetime_strptime env s) as [t|]; [|apply same_effects_tick].
  case_bool_decide; [|apply same_effects_tick].
  destruct (d !! "token"); apply same_effects_tick.
Qed.

(** X13.  [get_cached_auth_token] only reads: cache, cache file, files,
    resolver and history stay as they are.  It never hands out an expired
    token: a token it returns is the one of the cached session, whose
    expiration is strictly later than the clock.  At the expiration second
    and after it the answer is [None]. *)
Theorem get_cached_auth_token_valid env w :
  let run := get_cached_auth_token env w in
  same_effects w run.2
  ∧ (∀ token, run.1 = Ok token → token ≠ ANone →
       ∃ d s expiration,
         cache_lookup (w_cache w) "vault_creds" = PDict d
         ∧ d !! "token" = Some token
         ∧ d !! "expiration" = Some (AStr s)
         ∧ datetime_strptime env s = Some expiration
         ∧ (clock env (w_ticks w) < Qc_of_Z expiration)%Qc)
  ∧ (∀ d s expiration token,
       cache_lookup (w_cache w) "vault_creds" = PDict d →
       d !! "token" = Some token →
       d !! "expiration" = Some (AStr s) →
       datetime_strptime env s = Some expiration →
       run.1 = Ok (if bool_decide (clock env (w_ticks w)
                                   < Qc_of_Z expiration)%Qc
                   then token else ANone)).
Proof.
  cbv zeta. split; [apply get_cached_auth_token_frame|].
  rewrite get_cached_auth_token_unfold. split.
  - intros token.
    destruct (cache_lookup (w_cache w) "vault_creds") as [[| |]|d];
      try (simpl; congruence).
    destruct (d !! "expiration") as [[|s|]|] eqn:He; try (simpl; congruence).
    destruct (datetime_strptime env s) as [t|] eqn:Hs; [|done].
    case_bool_decide as Hnow; [|simpl; congruence].
    destruct (d !! "token") as [token'|] eqn:Ht; [|done].
    simpl. intros [= <-] _. by exists d, s, t.
  - intros d s expiration token -> Ht He Hs. rewrite He, Hs.
    case_bool_decide; [by rewrite Ht|done].
Qed.

Lemma auth_okta_unfold env cfg w :
  auth_okta env cfg w =
  match get_cached_auth_token env w with
  | (Raise e, w0) => (Raise e, w0)
  | (Ok ANone, w0) =>
      let '(username, password) := get_credentials env (w_calls w0) in
      let auth_url := auth_url cfg username in
      let w1 := set_calls (w_calls w0 ++ [CallPrompt; CallVaultAuth auth_url])
                  (tick w0) in
      match vault_auth env (w_calls w0 ++ [CallPrompt]) auth_url password with
      | Raise e => (Raise e, w1)
      | Ok (token, lease_duration, meta_username) =>
          match get_linux_username meta_username with
          | Raise e => (Raise e, w1)
          | Ok username =>
              let w2 := cached_and_saved "vault_creds"
                          (vault_record token
                             (utc_strftime env
                                (Qc_floor (clock env (w_ticks w0))
                                 + lease_duration)%Z) username) w1 in
              match get_linux_username username with
              | Raise e => (Raise e, w2)
              | Ok username => (Ok (AStr token, username), w2)
              end
          end
      end
  | (Ok vault_auth_token, w0) =>
      match cache_lookup (w_cache w0) "vault_creds" with
      | PDict d =>
          match d !! "username" with
          | Some (AStr u) =>
              match get_linux_username u with
              | Raise e => (Raise e, w0)
              | Ok username =>
                  match get_linux_username username with
                  | Raise e => (Raise e, w0)
                  | Ok username => (Ok (vault_auth_token, username), w0)
                  end
              end
          | Some _ => (Raise TypeError, w0)
          | None => (Raise (KeyError "username"), w0)
          end
      | _ => (Raise TypeError, w0)
      end
  end.
Proof.
  unfold auth_okta. unfold mbind at 1. unfold M_bind at 1.
  destruct (get_cached_auth_token env w) as [[tok|e] w0]; [|done].
  assert (∀ tok, tok ≠ ANone →
    (vault_creds ← cache_get "vault_creds";
     match vault_creds with
     | PDict d =>
         match d !! "username" with
         | Some (AStr u) =>
             username ← lift (get_linux_username u);
             username ← lift (get_linux_username username);
             mret (tok, username)
         | Some _ => raise TypeError
         | None => raise (KeyError "username")
         end
     | _ => raise TypeError
     end) w0
    = match cache_lookup (w_cache w0) "vault_creds" with
      | PDict d =>
          match d !! "username" with
          | Some (AStr u) =>
              match get_linux_username u with
              | Raise e => (Raise e, w0)
              | Ok username =>
                  match get_linux_username username with
                  | Raise e => (Raise e, w0)
                  | Ok username => (Ok (tok, username), w0)
                  end
              end
          | Some _ => (Raise TypeError, w0)
          | None => (Raise (KeyError "username"), w0)
          end
      | _ => (Raise TypeError, w0)
      end) as Hcached.
  { intros tok' _. munfold. simpl.
    destruct (cache_lookup (w_cache w0) "vault_creds") as [a|d]; [done|].
    destruct (d !! "username") as [[|u|]|]; try done.
    destruct (get_linux_username u) as [u1|]; simpl; [|done].
    by destruct (get_linux_username u1). }
  destruct tok as [|s|q];
    [|rewrite bool_decide_false by done; by apply Hcached
     |rewrite bool_decide_false by done; by apply Hcached].
  rewrite bool_decide_true by done. cbn [negb]. cbv zeta.
  unfold auth_url, cached_and_saved, vault_record. munfold. simpl.
  destruct (get_credentials env (w_calls w0)) as [username password].
  destruct (vault_auth env _ _ _) as [[[token lease] meta]|e]; simpl;
    [|by rewrite <- app_assoc].
  destruct (get_linux_username meta) as [u1|]; simpl;
    [|by rewrite <- app_assoc].
  destruct (get_linux_username u1); simpl; by rewrite <- app_assoc.
Qed.

(** X14.  A login of [auth_okta] serves the next run.  When no session is
    cached, [auth_okta] asks the user, logs in and caches the token, the
    user name it returns and the time of the login plus the lease, and
    saves the cache.  A later process on the same cache file then gets the
    same token and name from [auth_okta] without a prompt and without a
    request, as long as the clock is strictly before that expiration. *)
Theorem auth_okta_session_reused env cfg w w0 user password token lease meta
    username :
  get_cached_auth_token env w = (Ok ANone, w0) →
  get_credentials env (w_calls w0) = (user, password) →
  vault_auth env (w_calls w0 ++ [CallPrompt]) (auth_url cfg user) password
  = Ok (token, lease, meta) →
  get_linux_username meta = Ok username →
  let expiration := (Qc_floor (clock env (w_ticks w0)) + lease)%Z in
  let run := auth_okta env cfg w in
  run.1 = Ok (AStr token, username)
  ∧ w_calls run.2
    = (w_calls w ++ [CallPrompt; CallVaultAuth (auth_url cfg user)])%list
  ∧ w_disk run.2 !! "vault_creds"
    = Some (vault_record token (utc_strftime env expiration) username)
  ∧ ∀ w2, w_disk w2 = w_disk run.2 →
      datetime_strptime env (utc_strftime env expiration) = Some expiration →
      (clock env (w_ticks w2) < Qc_of_Z expiration)%Qc →
      auth_okta env cfg (reopened w2)
      = (Ok (AStr token, username), tick (reopened w2)).
Proof.
  intros Htok Hcred Hauth Hu1. cbv zeta.
  destruct (get_cached_auth_token_frame env w) as (_ & _ & Hcalls & _).
  rewrite auth_okta_unfold, Htok in *. simpl in Hcalls.
  rewrite Hcred. cbv zeta. rewrite Hauth, Hu1.
  rewrite (get_linux_username_idem _ _ Hu1).
  unfold cached_and_saved. simpl.
  split; [done|]. split; [by rewrite Hcalls|].
  split; [by rewrite lookup_insert_eq|].
  intros w2 Hdisk Hparse Hnow.
  rewrite auth_okta_unfold, get_cached_auth_token_unfold.
  unfold reopened, get_bless_cache, cache_lookup. simpl.
  rewrite Hdisk, lookup_insert_eq. unfold vault_record. simpl.
  rewrite lookup_insert_ne by done. rewrite lookup_insert_eq, Hparse.
  rewrite bool_decide_true by done. rewrite lookup_insert_eq. simpl.
  rewrite lookup_insert_eq. simpl.
  do 2 rewrite lookup_insert_ne by done. rewrite lookup_insert_eq.
  rewrite (get_linux_username_idem _ _ Hu1). cbv iota beta.
  by rewrite (get_linux_username_idem _ _ Hu1).
Qed.

(** A login at 01:00:00 with a lease of one hour: ten minutes later a new
    process is served from the cached session. *)
Lemma auth_okta_session_reused_witness :
  let w1 := (auth_okta sample_env sample_config sample_world).2 in
  w_calls w1
  = [CallPrompt; CallVaultAuth "/v1/auth/okta/login/alice@example.com"]
  ∧ auth_okta sample_env sample_config (reopened (at_tick 600 w1))
    = (Ok (AStr "vault-token", "alice"), tick (reopened (at_tick 600 w1))).
Proof.
  cbv zeta.
  destruct (auth_okta_session_reused sample_env sample_config sample_world
              sample_world "alice@example.com" "hunter2" "vault-token" 3600
              "alice@example.com" "alice" eq_refl eq_refl eq_refl eq_refl)
    as (_ & Hcalls & _ & Hnext).
  split; [exact Hcalls|].
  apply Hnext; by vm_compute.
Defined.

(** [check_fresh_cert] sends nothing but address lookups. *)
Lemma check_fresh_cert_calls env cert_file blessconfig ip_list w :
  ∃ tried,
    w_calls (check_fresh_cert env cert_file blessconfig ip_list w).2
    = (w_calls w ++ (CallIPFetch <$> tried))%list.
Proof.
  rewrite check_fresh_cert_run.
  destruct (w_files w !! cert_file) as [f|];
    [|exists []; simpl; by rewrite app_nil_r].
  case_bool_decide; [|exists []; simpl; by rewrite app_nil_r].
  case_bool_decide; [exists []; simpl; by rewrite app_nil_r|].
  destruct (getIP_run env (tick w))
    as [[_ (_ & _ & Hc & _)]|(_ & w1 & tried & Hw1 & _ & _ & Hrun)].
  - exists []. simpl. rewrite app_nil_r.
    by destruct (getIP env (tick w)) as [[ip|e] w2].
  - exists tried. simpl in Hrun. by destruct Hrun as [->|[ip ->]].
Qed.

Lemma check_fresh_cert_files env cert_file blessconfig ip_list w :
  w_files (check_fresh_cert env cert_file blessconfig ip_list w).2 = w_files w.
Proof.
  rewrite check_fresh_cert_run.
  destruct (w_files w !! cert_file) as [f|]; [|done].
  case_bool_decide; [|done]. case_bool_decide; [done|].
  destruct (getIP_run env (tick w))
    as [[_ (_ & _ & _ & _ & Hf)]|(_ & w1 & tried & Hw1 & _ & _ & Hrun)].
  - by destruct (getIP env (tick w)) as [[ip|e] w2].
  - simpl in Hrun. destruct Hrun as [->|[ip ->]]; simpl;
      by destruct Hw1 as [->| ->].
Qed.

(** X15.  [vault_bless] stops before any contact with the user or with
    Vault in three cases: with a fresh certificate, in a run with cache, it
    exits with status 0; without a public key file it fails with
    [FileNotFoundError], and no key is generated; with a public key that
    does not begin with [ssh-rsa ] it refuses.  Up to there the only
    requests are the address lookups of the freshness check. *)
Theorem vault_bless_early_exits env nocache cfg w :
  let check := vault_freshness env nocache cfg w in
  let run := vault_bless env nocache cfg w in
  let public_key_file := identity_file cfg ++ ".pub" in
  (check.1 = Ok true → run = (Raise (SystemExit 0), check.2))
  ∧ (∀ e, check.1 = Raise e → run = (Raise e, check.2))
  ∧ (check.1 = Ok false →
     (w_files check.2 !! public_key_file = None →
      run = (Raise (FileNotFoundError public_key_file), check.2))
     ∧ (∀ f, w_files check.2 !! public_key_file = Some f →
          str_take 8 (content f) ≠ "ssh-rsa " →
          run = (Raise (Exception_ ("Refusing to bless " ++ identity_file cfg
                                    ++ ". Probably not an identity file.")),
                 check.2)))
  ∧ (∃ tried, w_calls check.2 = (w_calls w ++ (CallIPFetch <$> tried))%list)
  ∧ w_files check.2 = w_files w.
Proof.
  cbv zeta.
  assert (vault_prepare env nocache cfg w
          = match vault_freshness env nocache cfg w with
            | (Raise e, w1) => (Raise e, w1)
            | (Ok true, w1) => (Raise (SystemExit 0), w1)
            | (Ok false, w1) =>
                match w_files w1 !! (identity_file cfg ++ ".pub") with
                | None =>
                    (Raise (FileNotFoundError (identity_file cfg ++ ".pub")), w1)
                | Some f =>
                    if negb (bool_decide (str_take 8 (content f) = "ssh-rsa "))
                    then (Raise (Exception_
                                   ("Refusing to bless " ++ identity_file cfg
                                    ++ ". Probably not an identity file.")), w1)
                    else ('(client, linux_username) ← auth_okta env cfg;
                          mret (client, linux_username, content f)) w1
                end
            end) as Hprep.
  { unfold vault_prepare, vault_freshness, vault_opened, UserIP_init.
    munfold. simpl.
    destruct nocache; simpl.
    - destruct (w_files w !! (identity_file cfg ++ ".pub")) as [f|]; [|done].
      by destruct (bool_decide (str_take 8 (content f) = "ssh-rsa ")).
    - destruct (check_fresh_cert env _ _ _ _) as [[[]|e] w1]; try done.
      destruct (w_files w1 !! (identity_file cfg ++ ".pub")) as [f|]; [|done].
      by destruct (bool_decide (str_take 8 (content f) = "ssh-rsa ")). }
  assert (∀ e w1, vault_prepare env nocache cfg w = (Raise e, w1) →
                  vault_bless env nocache cfg w = (Raise e, w1)) as Hrun.
  { intros e w1 H. unfold vault_bless. by rewrite (bind_Raise _ _ _ _ _ H). }
  assert ((∃ tried, w_calls (vault_freshness env nocache cfg w).2
                    = (w_calls w ++ (CallIPFetch <$> tried))%list)
          ∧ w_files (vault_freshness env nocache cfg w).2 = w_files w)
    as [Hcalls Hfiles].
  { unfold vault_freshness, vault_opened. destruct nocache.
    - split; [|done]. exists []. simpl. by rewrite app_nil_r.
    - split.
      { destruct (check_fresh_cert_calls env (identity_file cfg ++ "-cert.pub")
                    (bless_lambda_config cfg) PNone
                    (vault_opened false cfg w)) as [tried Hc].
        exists tried. exact Hc. }
      apply (check_fresh_cert_files env (identity_file cfg ++ "-cert.pub")
               (bless_lambda_config cfg) PNone (vault_opened false cfg w)). }
  destruct (vault_freshness env nocache cfg w) as [[[]|e] w1]; simpl in *.
  - split; [intros _; by apply Hrun|]. split; [done|]. split; [done|]. done.
  - split; [done|]. split; [done|]. split; [|done]. intros _. split.
    + intros Hnone. apply Hrun. by rewrite Hprep, Hnone.
    + intros f Hf Hpk. apply Hrun. rewrite Hprep, Hf.
      by rewrite bool_decide_false.
  - split; [done|]. split; [intros e' [= <-]; by apply Hrun|].
    split; [done|]. done.
Qed.

(** With the certificate of the sample written ten seconds ago, a run with
    cache ends at once with status 0. *)
Example vault_bless_fresh_exit :
  vault_bless sample_env false sample_config fresh_world
  = (Raise (SystemExit 0),
     tick (vault_opened false sample_config fresh_world))
  ∧ (vault_bless sample_env true sample_config
       (set_files ∅ sample_world)).1
    = Raise (FileNotFoundError "/home/alice/.ssh/blessid.pub").
Proof. by vm_compute. Qed.

(** ** What [bless] does around the signing request *)

Lemma bless_from_gate_unfold env region nocache cfg p w :
  bless_from_gate env region nocache cfg p w =
  let rest := (cert ← bless_send env region cfg p;
               bless_check_response env nocache (p_kmsauth_config p) cert;;
               bless_install env cfg p cert) in
  if nocache then rest w
  else match check_fresh_cert env (p_identity_file p ++ "-cert.pub")
               (bless_lambda_config cfg) (p_ip_list p) w with
       | (Ok true, w1) => (Ok (p_username p), w1)
       | (Ok false, w1) => rest w1
       | (Raise e, w1) => (Raise e, w1)
       end.
Proof.
  unfold bless_from_gate. cbv zeta. destruct nocache; simpl.
  - done.
  - unfold mbind at 1. unfold M_bind at 1.
    by destruct (check_fresh_cert env _ _ _ w) as [[[]|e] w1].
Qed.

(** X16.  In a run with cache, [bless] ends at the freshness check when the
    installed certificate is fresh for the bastion list of this run: it
    returns the user name, and between the setup and the return there is
    no signing request, no write to a file, and the cached bastion list,
    issuing address and token entries are untouched.  An error of the
    check leaves [bless] as it is. *)
Theorem bless_fresh_certificate env region showgui hostname cfg username w p w1 :
  bless_setup env region false showgui hostname username w = (Ok p, w1) →
  let check := check_fresh_cert env (p_identity_file p ++ "-cert.pub")
                 (bless_lambda_config cfg) (p_ip_list p) w1 in
  let run := bless env region false showgui hostname cfg username w in
  (check.1 = Ok true → run = (Ok (p_username p), check.2))
  ∧ (∀ e, check.1 = Raise e → run = (Raise e, check.2))
  ∧ (∃ tried, w_calls check.2 = (w_calls w1 ++ (CallIPFetch <$> tried))%list)
  ∧ w_files check.2 = w_files w1
  ∧ (∀ key, key ≠ "lastip" → key ≠ "lastipchecktime" →
       cache_lookup (w_cache check.2) key = cache_lookup (w_cache w1) key).
Proof.
  intros Hs. cbv zeta. unfold bless. rewrite (bind_Ok _ _ _ _ _ Hs).
  rewrite bless_from_gate_unfold. cbv zeta.
  split; [|split; [|split; [|split]]].
  - destruct (check_fresh_cert env _ _ _ w1) as [[[]|e] w2]; by simpl.
  - destruct (check_fresh_cert env _ _ _ w1) as [[[]|e] w2]; simpl; try done.
    by intros e' [= <-].
  - apply check_fresh_cert_calls.
  - apply check_fresh_cert_files.
  - intros key Hk1 Hk2. rewrite check_fresh_cert_run.
    destruct (w_files w1 !! _) as [f|]; [|done].
    case_bool_decide; [|done]. case_bool_decide; [done|].
    pose proof (getIP_lookup_other env (tick w1) key Hk1 Hk2) as Hl.
    by destruct (getIP env (tick w1)) as [[ip|e] w2].
Qed.

(** A certificate written ten seconds ago for the same bastion list: the
    run with cache returns at once. *)
Lemma bless_fresh_certificate_witness :
  bless sample_env "us-east-1" false false "BLESS" sample_config None fresh_world
  = (Ok "alice", tick fresh_world).
Proof.
  destruct (bless_fresh_certificate sample_env "us-east-1" false "BLESS"
              sample_config None fresh_world (sample_prepared "us-east-1")
              fresh_world eq_refl) as (Hfresh & _).
  rewrite Hfresh; by vm_compute.
Defined.

Lemma str_neq_app s t : t ≠ "" → s ≠ s ++ t.
Proof.
  intros Ht Heq. apply (f_equal String.length) in Heq.
  rewrite str_length_app in Heq. destruct t; [done|]. simpl in Heq. lia.
Qed.

Lemma bless_send_unfold env region cfg p w :
  bless_send env region cfg p w =
  let w1 := set_disk (<["remote_ip" := p_ip p]>
                        (<["bastion_ips" := p_ip_list p]> (store (w_cache w))))
              (set_cache {| mode := mode (w_cache w);
                            store := <["remote_ip" := p_ip p]>
                                       (<["bastion_ips" := p_ip_list p]>
                                          (store (w_cache w))) |} w) in
  let w2 := match w_files w !! (p_identity_file p ++ ".pub") with
            | Some _ => w1
            | None =>
                set_files
                  (<[p_identity_file p ++ ".pub" :=
                       {| mtime := clock env (w_ticks w);
                          content := (generated_key env).2 |}]>
                     (<[p_identity_file p :=
                          {| mtime := clock env (w_ticks w);
                             content := (generated_key env).1 |}]>
                        (w_files w))) w1
            end in
  let public_key := public_key_in env p w in
  if bool_decide (str_take 8 public_key = "ssh-rsa ") then
    let payload := bless_request cfg p public_key in
    (lambda_getCert env (w_calls w) region payload,
     set_calls (w_calls w ++ [CallLambdaInvoke region payload]) w2)
  else (Raise (refusing_to_bless (p_identity_file p)), w2).
Proof.
  unfold bless_send, read_public_key, generate_ssh_key, public_key_in,
    refusing_to_bless. munfold. simpl.
  destruct (w_files w !! (p_identity_file p ++ ".pub")) as [f|]; simpl.
  - case_bool_decide; simpl; [|done].
    by destruct (lambda_getCert env _ _ _).
  - rewrite lookup_insert_eq. simpl.
    case_bool_decide; simpl; [|done].
    by destruct (lambda_getCert env _ _ _).
Qed.

Lemma bless_send_records env region cfg p w :
  let run := bless_send env region cfg p w in
  w_disk run.2 !! "bastion_ips" = Some (p_ip_list p)
  ∧ w_disk run.2 !! "remote_ip" = Some (p_ip p)
  ∧ w_disk run.2 = store (w_cache run.2).
Proof.
  cbv zeta. rewrite bless_send_unfold. cbv zeta.
  assert (∀ (st : gmap string pyval) v1 v2,
            (<["remote_ip" := v2]> (<["bastion_ips" := v1]> st)) !! "bastion_ips"
            = Some v1) as Hb.
  { intros. rewrite lookup_insert_ne by done. by rewrite lookup_insert_eq. }
  case_bool_decide as Hpk;
    destruct (w_files w !! (p_identity_file p ++ ".pub")); simpl;
    rewrite Hb, lookup_insert_eq; done.
Qed.

(** X17.  [bless] records the bastion list and the remote address of the
    run in the cache, and saves it, before it has a certificate: whatever
    the signing step does next, the cache file names them.  A public key
    that does not begin with [ssh-rsa ] is refused after that, without a
    signing request, by an error that [main] does not catch. *)
Theorem bless_records_before_signing env region cfg p w :
  let run := bless_send env region cfg p w in
  w_disk run.2 !! "bastion_ips" = Some (p_ip_list p)
  ∧ w_disk run.2 !! "remote_ip" = Some (p_ip p)
  ∧ w_disk run.2 = store (w_cache run.2)
  ∧ (str_take 8 (public_key_in env p w) ≠ "ssh-rsa " →
     run.1 = Raise (refusing_to_bless (p_identity_file p))
     ∧ w_calls run.2 = w_calls w
     ∧ main_catches (refusing_to_bless (p_identity_file p)) = false)
  ∧ (str_take 8 (public_key_in env p w) = "ssh-rsa " →
     run.1 = lambda_getCert env (w_calls w) region
               (bless_request cfg p (public_key_in env p w))
     ∧ w_calls run.2
       = (w_calls w ++ [CallLambdaInvoke region
                          (bless_request cfg p (public_key_in env p w))])%list).
Proof.
  cbv zeta.
  destruct (bless_send_records env region cfg p w) as (Hb & Hr & Hd).
  split; [done|]. split; [done|]. split; [done|].
  rewrite bless_send_unfold. cbv zeta.
  case_bool_decide as Hpk;
    destruct (w_files w !! (p_identity_file p ++ ".pub")); simpl; done.
Qed.

(** X18.  When the public key file is missing, [bless] generates a key
    pair and writes both files: the identity file is overwritten with the
    new private key whether or not one was there.  The new public key is
    the one sent for signing. *)
Theorem bless_generates_missing_key env region cfg p w :
  w_files w !! (p_identity_file p ++ ".pub") = None →
  let run := bless_send env region cfg p w in
  let stamp text := Some {| mtime := clock env (w_ticks w); content := text |} in
  w_files run.2 !! p_identity_file p = stamp (generated_key env).1
  ∧ w_files run.2 !! (p_identity_file p ++ ".pub") = stamp (generated_key env).2
  ∧ (str_take 8 (generated_key env).2 = "ssh-rsa " →
     w_calls run.2
     = (w_calls w ++ [CallLambdaInvoke region
                        (bless_request cfg p (generated_key env).2)])%list)
  ∧ (∀ path, path ≠ p_identity_file p → path ≠ p_identity_file p ++ ".pub" →
       w_files run.2 !! path = w_files w !! path).
Proof.
  intros Hnone. cbv zeta. rewrite bless_send_unfold. cbv zeta.
  unfold public_key_in. rewrite Hnone.
  assert (p_identity_file p ≠ p_identity_file p ++ ".pub") as Hne
    by (by apply str_neq_app).
  case_bool_decide as Hpk; simpl.
  - split; [rewrite lookup_insert_ne by done; by rewrite lookup_insert_eq|].
    split; [by rewrite lookup_insert_eq|]. split; [done|].
    intros path H1 H2. by rewrite !lookup_insert_ne.
  - split; [rewrite lookup_insert_ne by done; by rewrite lookup_insert_eq|].
    split; [by rewrite lookup_insert_eq|]. split; [done|].
    intros path H1 H2. by rewrite !lookup_insert_ne.
Qed.

(** Without a public key file, the private key on file is replaced. *)
Lemma bless_generates_missing_key_witness :
  let w := set_files {[ "/home/alice/.ssh/blessid" :=
                          {| mtime := Qc_of_Z day0; content := "OLD KEY" |} ]}
             sample_world in
  let run := bless_send sample_env "us-east-1" sample_config
               (sample_prepared "us-east-1") w in
  content <$> w_files run.2 !! "/home/alice/.ssh/blessid" = Some "PRIVATE KEY"
  ∧ content <$> w_files run.2 !! "/home/alice/.ssh/blessid.pub"
    = Some "ssh-rsa GENERATED".
Proof.
  cbv zeta.
  destruct (bless_generates_missing_key sample_env "us-east-1" sample_config
              (sample_prepared "us-east-1")
              (set_files {[ "/home/alice/.ssh/blessid" :=
                              {| mtime := Qc_of_Z day0; content := "OLD KEY" |} ]}
                 sample_world)) as (Hpriv & Hpub & _); [by vm_compute|].
  split.
  - exact (f_equal (fmap content) Hpriv).
  - exact (f_equal (fmap content) Hpub).
Defined.




Lemma bless_check_response_known env nocache config cert members w :
  str_take 29 cert ≠ CERT_PREFIX →
  json_loads env cert = Some (JObj members) →
  (obj_get "errorType" members = Some (JStr "ClientError") →
   bless_check_response env nocache config cert w = (Raise client_error, w))
  ∧ (obj_get "errorType" members = Some (JStr "InputValidationError") →
     bless_check_response env nocache config cert w
     = (Raise input_validation_error, w)).
Proof.
  intros Hp Hj. unfold bless_check_response.
  rewrite bool_decide_false, Hj by done. cbn [negb].
  rewrite !errorType_is_JObj.
  split; intros ->; by munfold.
Qed.

(** X20.  In a run of [main] with the 'bless' backend, a signing response
    whose errorType is ['InputValidationError'] raises an [Exception] that
    [main] does not catch: the regions that are left are not tried and the
    run ends with status 1.  A response whose errorType is ['ClientError']
    raises a [LambdaInvocationException], and [main] goes on with the next
    region.  Neither changes the cache. *)
Theorem known_error_responses env args cfg region regions w p w1 cert w2
    members :
  lower (ca_backend cfg) = "bless" →
  bless_setup env region true (args_gui args) (args_host args) None w
  = (Ok p, w1) →
  bless_send env region cfg p w1 = (Ok cert, w2) →
  str_take 29 cert ≠ CERT_PREFIX →
  json_loads env cert = Some (JObj members) →
  (obj_get "errorType" members = Some (JStr "InputValidationError") →
   main_loop env args cfg (region :: regions) w
   = (Raise input_validation_error, w2)
   ∧ exit_status (main_loop env args cfg (region :: regions) w).1 = 1%Z)
  ∧ (obj_get "errorType" members = Some (JStr "ClientError") →
     bless env region true (args_gui args) (args_host args) cfg None w
     = (Raise client_error, w2)
     ∧ main_loop env args cfg (region :: regions) w
       = main_loop env args cfg regions w2).
Proof.
  intros Hb Hs Hsend Hp Hj.
  pose proof (bless_nocache_run env region (args_gui args) (args_host args)
                cfg None w p w1 Hs) as Hrun.
  rewrite (bind_Ok _ _ _ _ _ Hsend) in Hrun.
  destruct (bless_check_response_known env true (p_kmsauth_config p) cert
              members w2 Hp Hj) as [Hclient Hinput].
  split.
  - intros Hget. rewrite (bind_Raise _ _ _ _ _ (Hinput Hget)) in Hrun.
    rewrite main_loop_step, main_attempt_bless by done.
    by rewrite (bind_Raise _ _ _ _ _ Hrun).
  - intros Hget. rewrite (bind_Raise _ _ _ _ _ (Hclient Hget)) in Hrun.
    split; [done|].
    rewrite main_loop_step, main_attempt_bless by done.
    by rewrite (bind_Raise _ _ _ _ _ Hrun).
Qed.

(** The Lambda of the first region rejects the request as invalid: the
    second region is not asked. *)
Lemma known_error_responses_witness :
  let env := with_lambda_getCert
               (λ _ _ _, Ok (error_doc "InputValidationError")) sample_env in
  let run := main_loop env sample_args sample_config ["us-east-1"; "us-west-2"]
               sample_world in
  run.1 = Raise input_validation_error
  ∧ count_calls (λ c, match c with CallLambdaInvoke _ _ => true | _ => false end)
      (w_calls run.2) = 1.
Proof.
  cbv zeta.
  destruct (known_error_responses
              (with_lambda_getCert
                 (λ _ _ _, Ok (error_doc "InputValidationError")) sample_env)
              sample_args sample_config "us-east-1" ["us-west-2"] sample_world
              (sample_prepared "us-east-1") sample_world
              (error_doc "InputValidationError")
              (bless_send sample_env "us-east-1" sample_config
                 (sample_prepared "us-east-1") sample_world).2
              [("errorType", JStr "InputValidationError")])
    as [Hfatal _];
    [by vm_compute|by vm_compute|by vm_compute|by vm_compute|by vm_compute|].
  destruct Hfatal as [Hrun _]; [done|].
  rewrite Hrun. by vm_compute.
Defined.

(** ** What [main] does before and after the region loop *)

Lemma main_unfold env args cfg w :
  main env args cfg w =
  if negb (AWS_PROFILE_set cfg) then (Raise (SystemExit 1), w)
  else if domain_matches cfg (args_host args)
          || bool_decide (args_host args = "BLESS") then
    match get_region_from_code (args_region args) cfg with
    | Raise e => (Raise e, w)
    | Ok start_region =>
        match get_regions start_region (REGION_ALIAS cfg) with
        | Raise e => (Raise e, w)
        | Ok regions =>
            match main_loop env args cfg regions w with
            | (Ok true, w') => (Raise (SystemExit 0), w')
            | (Ok false, w') => (Raise (SystemExit 1), w')
            | (Raise e, w') => (Raise e, w')
            end
        end
    end
  else (Raise (SystemExit 1), w).
Proof.
  unfold main. destruct (AWS_PROFILE_set cfg); cbn [negb]; [|done].
  destruct (domain_matches cfg (args_host args)
            || bool_decide (args_host args = "BLESS")); [|done].
  destruct (get_region_from_code (args_region args) cfg) as [start|];
    munfold; munfold; cbv beta iota; [|done].
  destruct (get_regions start (REGION_ALIAS cfg)) as [regions|];
    cbv beta iota; [|done].
  by destruct (main_loop env args cfg regions w) as [[[]|e] w'].
Qed.

(** X21.  [main] with a backend other than 'bless' never reaches a signing
    service.  With 'hashicorp-vault', in any capitals, the first turn of
    the loop reads [args.nocache], which this parser does not define: the
    [AttributeError] is not caught and ends the run before anything is
    sent.  With any other name the run ends with status 1, again before
    anything is sent. *)
Theorem main_backend_dispatch env args cfg w start :
  main_reaches_loop args cfg →
  get_region_from_code (args_region args) cfg = Ok start →
  (lower (ca_backend cfg) = "hashicorp-vault" →
   main env args cfg w = (Raise (AttributeError "nocache"), w)
   ∧ main_catches (AttributeError "nocache") = false)
  ∧ (lower (ca_backend cfg) ≠ "hashicorp-vault" →
     lower (ca_backend cfg) ≠ "bless" →
     main env args cfg w = (Raise (SystemExit 1), w)).
Proof.
  intros [Hprofile Hhost] Hstart.
  destruct (get_regions_starts_at start (REGION_ALIAS cfg))
    as (rest & Hring & _);
    [by eapply get_region_from_code_configured|].
  rewrite main_unfold, Hprofile, Hhost, Hstart, Hring. simpl negb. cbv iota.
  rewrite main_loop_step. unfold main_attempt. split.
  - intros ->. by rewrite bool_decide_true.
  - intros Hv Hb. by rewrite !bool_decide_false.
Qed.

(** The sample configuration with the Vault backend: the run fails on
    [args.nocache]. *)
Lemma main_backend_dispatch_witness :
  main sample_env sample_args (with_ca_backend "Hashicorp-Vault" sample_config)
    vault_world
  = (Raise (AttributeError "nocache"), vault_world).
Proof.
  destruct (main_backend_dispatch sample_env sample_args
              (with_ca_backend "Hashicorp-Vault" sample_config) vault_world
              "us-east-1") as [Hvault _];
    [by vm_compute|by vm_compute|].
  apply Hvault. by vm_compute.
Defined.

(** X22.  [main] never returns: every run ends in [sys.exit] or in an
    error.  Without the session variable, or for a host that is neither of
    the domain nor [BLESS], it exits with status 1 and has done nothing.  A
    region code that is not an alias ends the run with the [ValueError] of
    [get_region_from_code], which nothing catches.  After the loop the
    status is 0 when a region has signed and 1 when none has. *)
Theorem main_always_exits env args cfg w :
  let run := main env args cfg w in
  (∃ e, run.1 = Raise e)
  ∧ (¬ main_reaches_loop args cfg → run = (Raise (SystemExit 1), w))
  ∧ (main_reaches_loop args cfg →
     (∀ e, get_region_from_code (args_region args) cfg = Raise e →
        run = (Raise e, w))
     ∧ (∀ start regions success w',
          get_region_from_code (args_region args) cfg = Ok start →
          get_regions start (REGION_ALIAS cfg) = Ok regions →
          main_loop env args cfg regions w = (Ok success, w') →
          run = (Raise (SystemExit (if success then 0 else 1)), w'))).
Proof.
  cbv zeta. rewrite main_unfold. unfold main_reaches_loop.
  destruct (AWS_PROFILE_set cfg); simpl negb; cbv iota.
  2: { split; [by eexists|]. split; [done|]. by intros [? _]. }
  destruct (domain_matches cfg (args_host args)
            || bool_decide (args_host args = "BLESS")).
  2: { split; [by eexists|]. split; [done|]. by intros [_ ?]. }
  split; [|split].
  - destruct (get_region_from_code (args_region args) cfg) as [start|];
      [|by eexists].
    destruct (get_regions start (REGION_ALIAS cfg)) as [regions|]; [|by eexists].
    destruct (main_loop env args cfg regions w) as [[[]|e] w']; by eexists.
  - by intros [].
  - intros _. split.
    + by intros e ->.
    + intros start regions success w' -> -> ->. by destruct success.
Qed.



